(** * Hivemind: the coordination engine of the multi-agent research system

    A shallow embedding of [src/agent.py] (class [ResearchAgent]) and
    [src/orchestrator.py] (class [ResearchOrchestrator]), with the
    properties the specification states about them.

    Conventions of the embedding.
    - Python [str] values are Rocq strings: sequences of code points below
      256.  The tables behind [str.isspace] and [str.isdigit] are written
      out for that range.
    - Python [int] values are [Z]; [len] is a [nat] printed in decimal.
    - The Model Gateway ([ollama.chat]), the wall clock, the HTTP client and
      the JSON and LaTeX writers are not part of the repository's logic: they
      are variables of the section, and every theorem holds for all of them.
    - A method that mutates [self] takes the object and returns the new one;
      the outside world (requests sent, clock readings) is threaded through
      as a [World]. *)

From Stdlib Require Import ZArith QArith List String Ascii Lia.
From stdpp Require Import base gmap strings list pretty.

Local Open Scope Z_scope.

(** ** Python built-ins used by the two classes *)

Module Py.

(** Exceptions that reach the orchestrator's code. *)
Inductive exn : Type :=
| TypeError (msg : string)
| IndexError (msg : string)
| ValueError (msg : string)
| OSError (msg : string).

(** Result of evaluating an expression that may raise. *)
Inductive outcome (A : Type) : Type :=
| Return (a : A)
| Raise (e : exn).
Arguments Return {A} a.
Arguments Raise {A} e.

Definition bind {A B} (x : outcome A) (k : A -> outcome B) : outcome B :=
  match x with
  | Return a => k a
  | Raise e => Raise e
  end.

(** [chr(10)] and the double quote. *)
Definition nl : string := String (ascii_of_nat 10) EmptyString.
Definition dq : string := String (ascii_of_nat 34) EmptyString.

(** [str.isspace] on one character: the code points below 256 that
    Python treats as white space. *)
Definition isspace (c : ascii) : bool :=
  let n := nat_of_ascii c in
  ((9 <=? n) && (n <=? 13) || (28 <=? n) && (n <=? 32)
   || (n =? 133) || (n =? 160))%nat.

(** [str.isdigit] on one character: the ten decimal digits and the
    superscripts two, three and one (U+00B2, U+00B3, U+00B9). *)
Definition isdigit (c : ascii) : bool :=
  let n := nat_of_ascii c in
  ((48 <=? n) && (n <=? 57) || (n =? 178) || (n =? 179) || (n =? 185))%nat.

(** The characters [int] accepts as digits in base ten. *)
Definition decimal_value (c : ascii) : option Z :=
  let n := nat_of_ascii c in
  if ((48 <=? n) && (n <=? 57))%nat then Some (Z.of_nat n - 48) else None.

(** [''.join(filter(pred, s))]. *)
Fixpoint filter_chars (pred : ascii -> bool) (s : string) : string :=
  match s with
  | EmptyString => EmptyString
  | String c s' =>
      if pred c then String c (filter_chars pred s') else filter_chars pred s'
  end.

(** [s.split()]: the maximal runs of characters that are not white space.
    [tok] is the run being read, if any. *)
Fixpoint split_from (tok : option string) (s : string) : list string :=
  match s with
  | EmptyString =>
      match tok with Some t => [t] | None => [] end
  | String c s' =>
      if isspace c then
        match tok with
        | Some t => t :: split_from None s'
        | None => split_from None s'
        end
      else
        split_from
          (Some (match tok with
                 | Some t => t +:+ String c EmptyString
                 | None => String c EmptyString
                 end)) s'
  end.

Definition split (s : string) : list string := split_from None s.

(** [l[0]]. *)
Definition item0 {A} (l : list A) : outcome A :=
  match l with
  | x :: _ => Return x
  | [] => Raise (IndexError "list index out of range")
  end.

(** [s.strip()]. *)
Fixpoint lstrip (s : string) : string :=
  match s with
  | EmptyString => EmptyString
  | String c s' => if isspace c then lstrip s' else s
  end.

Fixpoint rstrip (s : string) : string :=
  match s with
  | EmptyString => EmptyString
  | String c s' =>
      match rstrip s' with
      | EmptyString => if isspace c then EmptyString else String c EmptyString
      | r => String c r
      end
  end.

Definition strip (s : string) : string := rstrip (lstrip s).

(** [sep.join(l)] for a list of strings. *)
Definition join (sep : string) (l : list string) : string :=
  String.concat sep l.

(** A list item as Python sees it: a string or a dictionary. *)
Inductive value : Type :=
| Str (s : string)
| Dict (items : list (string * string)).

(** [sep.join(l)] for a list of arbitrary items: the item at the first
    position that does not hold a string makes it raise [TypeError]. *)
Fixpoint strings_from (i : nat) (l : list value) : outcome (list string) :=
  match l with
  | [] => Return []
  | Str s :: l' => bind (strings_from (S i) l') (fun r => Return (s :: r))
  | Dict _ :: _ =>
      Raise (TypeError ("sequence item " +:+ pretty i
                        +:+ ": expected str instance, dict found"))
  end.

Definition join_values (sep : string) (l : list value) : outcome string :=
  bind (strings_from 0 l) (fun strs => Return (join sep strs)).

(** [l[-k:]] for a positive [k]: the last [k] items, or all of them. *)
Definition last_items {A} (k : nat) (l : list A) : list A :=
  drop (length l - k) l.

(** [range(n)]. *)
Definition range (n : Z) : list Z := Z.of_nat <$> seq 0 (Z.to_nat n).

(** Value of a string of decimal digits, most significant first. *)
Fixpoint digits_value (acc : Z) (s : string) : option Z :=
  match s with
  | EmptyString => Some acc
  | String c s' =>
      match decimal_value c with
      | Some d => digits_value (10 * acc + d) s'
      | None => None
      end
  end.

(** [int(s)] for the argument [evaluate_satisfaction] gives it: a string in
    which every character satisfies [str.isdigit] (so no sign, blank or
    underscore).  [max_digits] is the interpreter's
    [sys.int_max_str_digits]: when it is positive, a longer string is
    refused; 0 switches the limit off. *)
Definition int_of_str (max_digits : nat) (s : string) : outcome Z :=
  match s with
  | EmptyString => Raise (ValueError "invalid literal for int() with base 10: ''")
  | _ =>
      if ((0 <? max_digits) && (max_digits <? String.length s))%nat then
        Raise (ValueError "Exceeds the limit for integer string conversion")
      else
        match digits_value 0 s with
        | Some n => Return n
        | None => Raise (ValueError "invalid literal for int() with base 10")
        end
  end.

End Py.

(** ** Data of the two classes *)

(** A chat message, [{"role": ..., "content": ...}]. *)
Record Message : Type := mkMessage { role : string; content : string }.

(** One call of [ollama.chat(model=..., messages=...)]. *)
Record ChatRequest : Type :=
  mkChatRequest { chat_model : string; chat_messages : list Message }.

(** What the call gives back: [response['message']['content']], or an
    exception whose [str(e)] is [reason]. *)
Inductive ChatReply : Type :=
| Content (text : string)
| ChatFailed (reason : string).

(** What [requests.get] gives back to [search_arxiv]. *)
Inductive HttpReply : Type :=
| Status (code : Z)
| HttpFailed (reason : string).

(** An item of [conversation_history]. *)
Record HistoryRecord : Type :=
  mkHistory { h_timestamp : string; h_prompt : string; h_response : string }.

(** An item of [research_notes]. *)
Record NoteRecord : Type := mkNote { n_timestamp : string; n_note : string }.

Record ResearchAgent : Type := mkAgent {
  name : string;
  specialty : string;
  model : string;
  conversation_history : list HistoryRecord;
  research_notes : list NoteRecord;
  system_prompt : string;
  improvement_count : Z
}.

(** An item of [discussion_log]; the constructor is the ["type"] key. *)
Inductive LogEntry : Type :=
| Brainstorm (round : Z) (agent : string) (text : string)
| Research (agent : string) (query : string) (analysis : string)
| Discussion (round : Z) (agent : string) (topic : string) (text : string).

Definition entry_type (e : LogEntry) : string :=
  match e with
  | Brainstorm _ _ _ => "brainstorm"
  | Research _ _ _ => "research"
  | Discussion _ _ _ _ => "discussion"
  end.

Definition entry_agent (e : LogEntry) : string :=
  match e with
  | Brainstorm _ a _ => a
  | Research a _ _ => a
  | Discussion _ a _ _ => a
  end.

Definition entry_round (e : LogEntry) : option Z :=
  match e with
  | Brainstorm r _ _ => Some r
  | Research _ _ _ => None
  | Discussion r _ _ _ => Some r
  end.

(** A search result: a dictionary from strings to strings, in insertion
    order. *)
Definition SearchResult : Type := list (string * string).

(** An item of [ResearchSearch.search_history]. *)
Record SearchRecord : Type :=
  mkSearchRecord { s_query : string; s_source : string; s_timestamp : string }.

Record ResearchSearch : Type :=
  mkResearchSearch { search_history : list SearchRecord }.

(** [ResearchAgent.get_summary]'s dictionary. *)
Record AgentSummary : Type := mkSummary {
  sum_name : string;
  sum_specialty : string;
  sum_conversations : nat;
  sum_research_notes : nat;
  sum_improvements : Z;
  sum_system_prompt_length : nat
}.

(** The dictionary [export_session_log] writes. *)
Record SessionData : Type := mkSessionData {
  sd_topic : string;
  sd_timestamp : string;
  sd_agents : list AgentSummary;
  sd_discussion_log : list LogEntry;
  sd_satisfaction_scores : gmap string Z;
  sd_total_interactions : nat
}.

(** The world outside the process, as far as the two classes touch it:
    the requests the gateway has received, the number of clock readings
    taken, the arXiv queries sent and the session files written. *)
Record World : Type := mkWorld {
  sent : list ChatRequest;
  clock_reads : nat;
  fetched : list (string * Z);
  written : list (string * SessionData)
}.

Definition new_world : World := mkWorld [] 0 [] [].

(** Modelled from the spec: [latex_generator.py] is not among the sources
    and the specification treats the markup writer as an opaque serializer.
    The [LatexPaperGenerator] object is represented by the calls it has
    received. *)
Inductive LatexCall : Type :=
| SetMetadata (title : string) (authors : list string) (abstract : string)
| AddSection (heading : string) (text : string)
| SaveToFile (filename : string).

Record ResearchOrchestrator : Type := mkOrchestrator {
  agents : list ResearchAgent;
  search_tool : ResearchSearch;
  latex_generator : list LatexCall;
  discussion_log : list LogEntry;
  research_topic : string;
  satisfaction_scores : gmap string Z;
  target_satisfaction : Z
}.

(** The dictionary [generate_paper_sections] returns. *)
Record PaperSections : Type := mkSections {
  sec_title : string;
  sec_abstract : string;
  sec_introduction : string;
  sec_methodology : string;
  sec_results : string;
  sec_conclusion : string
}.

(** ** The environment *)

Section Hivemind.

(** [ollama.chat]: the reply to a request, given the requests received
    before it. *)
Variable gateway : list ChatRequest -> ChatRequest -> ChatReply.

(** The n-th reading of the clock, printed by [isoformat()] and by
    [str]. *)
Variable clock : nat -> string.
Variable clock_str : nat -> string.

(** [requests.get] on the arXiv endpoint: the reply to a query and a
    result limit, given the queries sent before. *)
Variable http_get : list (string * Z) -> string -> Z -> HttpReply.

(** [json.dumps(results, indent=2)]. *)
Variable json_dumps : list SearchResult -> string.

(** [sys.int_max_str_digits] of the interpreter (4300 by default since
    Python 3.11, 0 for no limit). *)
Variable int_max_str_digits : nat.

(** Modelled from the spec: the file name [save_to_file] of the missing
    [latex_generator.py] returns, given the calls the generator received
    before and the name asked for. *)
Variable saved_name : list LatexCall -> string -> string.

(** [open(filename, 'w')] and the [json.dump] into the file: [None] when
    the file gets written, the message of the [OSError] otherwise, given
    the files written before and the name asked for. *)
Variable open_file : list (string * SessionData) -> string -> option string.

(** The mark in front of the report of a successful improvement.  In the
    source it is a literal of three code points, U+00E2 U+0153 U+00A8; the
    second lies outside the alphabet of this file (code points below 256),
    so the literal is not written out: the report is built with any text
    in its place. *)
Variable improved_mark : string.

Definition chat (mdl : string) (messages : list Message) (w : World)
  : ChatReply * World :=
  let req := mkChatRequest mdl messages in
  (gateway (sent w) req,
   mkWorld (sent w ++ [req]) (clock_reads w) (fetched w) (written w)).

Definition now (w : World) : string * World :=
  (clock (clock_reads w),
   mkWorld (sent w) (S (clock_reads w)) (fetched w) (written w)).

Definition now_str (w : World) : string * World :=
  (clock_str (clock_reads w),
   mkWorld (sent w) (S (clock_reads w)) (fetched w) (written w)).

Definition get (query : string) (max_results : Z) (w : World)
  : HttpReply * World :=
  (http_get (fetched w) query max_results,
   mkWorld (sent w) (clock_reads w) (fetched w ++ [(query, max_results)])
     (written w)).

(** ** agent.py: class ResearchAgent *)

(** [_create_initial_prompt]. *)
Definition _create_initial_prompt (nm spec : string) : string :=
  Py.join Py.nl [
    "You are " +:+ nm +:+ ", an expert AI researcher specializing in "
      +:+ spec +:+ ".";
    "";
    "Your role in this research team:";
    "- Collaborate with other AI researchers to produce high-quality research papers";
    "- Contribute insights from your specialty area";
    "- Critically evaluate ideas and proposals";
    "- Search for relevant information when needed";
    "- Help structure and write sections of research papers";
    "- Be concise but thorough in your responses";
    "";
    "You can improve your own system prompt by analyzing what works and what doesn't.";
    "When suggesting prompt improvements, focus on making yourself more effective at research tasks.";
    "";
    "Current specialty: " +:+ spec;
    "Research approach: Rigorous, evidence-based, collaborative";
    ""
  ].

(** [__init__]. *)
Definition new_agent (nm spec mdl : string) : ResearchAgent :=
  mkAgent nm spec mdl [] [] (_create_initial_prompt nm spec) 0.

Definition set_history (a : ResearchAgent) (h : list HistoryRecord)
  : ResearchAgent :=
  mkAgent (name a) (specialty a) (model a) h (research_notes a)
    (system_prompt a) (improvement_count a).

Definition set_notes (a : ResearchAgent) (n : list NoteRecord)
  : ResearchAgent :=
  mkAgent (name a) (specialty a) (model a) (conversation_history a) n
    (system_prompt a) (improvement_count a).

(** The message list [generate_response] builds: the system prompt, the
    last ten context messages if a non-empty context was given, the user
    prompt. *)
Definition build_messages (a : ResearchAgent) (prompt : string)
    (context : option (list Message)) : list Message :=
  let messages := [mkMessage "system" (system_prompt a)] in
  let messages :=
    match context with
    | Some ((_ :: _) as ctx) => messages ++ Py.last_items 10 ctx
    | _ => messages
    end in
  messages ++ [mkMessage "user" prompt].

(** [generate_response(prompt, context=None)].  The whole body is inside
    [try]; the history record is appended after the gateway has answered,
    and the [except] branch only builds the error text. *)
Definition generate_response (a : ResearchAgent) (prompt : string)
    (context : option (list Message)) (w : World)
  : string * ResearchAgent * World :=
  let messages := build_messages a prompt context in
  match chat (model a) messages w with
  | (Content agent_response, w1) =>
      let '(stamp, w2) := now w1 in
      (agent_response,
       set_history a
         (conversation_history a ++ [mkHistory stamp prompt agent_response]),
       w2)
  | (ChatFailed e, w1) =>
      ("Error generating response: " +:+ e, a, w1)
  end.

(** The prompt [improve_system_prompt] sends. *)
Definition improvement_prompt (a : ResearchAgent) (feedback : option string)
  : string :=
  Py.join Py.nl [
    "Analyze your current system prompt and suggest an improved version.";
    "";
    "Current System Prompt:";
    system_prompt a;
    "";
    "Recent Performance Context:";
    "- You've been part of " +:+ pretty (length (conversation_history a))
      +:+ " discussions";
    "- Specialty: " +:+ specialty a;
    "- Improvement iteration: " +:+ pretty (improvement_count a);
    "";
    match feedback with
    | Some ((String _ _) as f) => "Feedback received: " +:+ f
    | _ => ""
    end;
    "";
    "Suggest an improved system prompt that makes you more effective at:";
    "1. Contributing specialized knowledge";
    "2. Collaborating with other agents";
    "3. Critical thinking and analysis";
    "4. Research paper writing";
    "";
    "Respond with ONLY the new system prompt, nothing else."
  ].

(** The report of a successful improvement. *)
Definition improvement_report (version : Z) (old_prompt new_prompt : string)
  : string :=
  improved_mark +:+ " Prompt improved! (v" +:+ pretty version +:+ ")"
    +:+ Py.nl +:+ Py.nl
    +:+ "Old length: " +:+ pretty (String.length old_prompt) +:+ " chars"
    +:+ Py.nl
    +:+ "New length: " +:+ pretty (String.length new_prompt) +:+ " chars".

(** [improve_system_prompt(feedback=None)]. *)
Definition improve_system_prompt (a : ResearchAgent)
    (feedback : option string) (w : World)
  : string * ResearchAgent * World :=
  let prompt := improvement_prompt a feedback in
  match chat (model a)
          [mkMessage "system"
             "You are a meta-AI that improves AI system prompts.";
           mkMessage "user" prompt] w with
  | (Content text, w1) =>
      let new_prompt := Py.strip text in
      let old_prompt := system_prompt a in
      let count := improvement_count a + 1 in
      (improvement_report count old_prompt new_prompt,
       mkAgent (name a) (specialty a) (model a) (conversation_history a)
         (research_notes a) new_prompt count,
       w1)
  | (ChatFailed e, w1) =>
      ("Error improving prompt: " +:+ e, a, w1)
  end.

(** [add_research_note(note)]. *)
Definition add_research_note (a : ResearchAgent) (note : string) (w : World)
  : ResearchAgent * World :=
  let '(stamp, w1) := now w in
  (set_notes a (research_notes a ++ [mkNote stamp note]), w1).

(** [get_summary()]. *)
Definition get_summary (a : ResearchAgent) : AgentSummary :=
  mkSummary (name a) (specialty a) (length (conversation_history a))
    (length (research_notes a)) (improvement_count a)
    (String.length (system_prompt a)).

(** ** search_tool.py: ResearchSearch.search_arxiv *)

Definition search_arxiv (t : ResearchSearch) (query : string)
    (max_results : Z) (w : World)
  : list SearchResult * ResearchSearch * World :=
  match get query max_results w with
  | (Status code, w1) =>
      if code =? 200 then
        let results :=
          [[("title", "arXiv paper");
            ("summary", "Paper summary from arXiv");
            ("url", "https://arxiv.org/");
            ("source", "arXiv")]] in
        let '(stamp, w2) := now_str w1 in
        (results,
         mkResearchSearch
           (search_history t ++ [mkSearchRecord query "arxiv" stamp]),
         w2)
      else
        ([[("error", "Search failed with status " +:+ pretty code)]], t, w1)
  | (HttpFailed e, w1) =>
      ([[("error", "Search error: " +:+ e)]], t, w1)
  end.

(** ** orchestrator.py: class ResearchOrchestrator *)

(** [for x in l: body], where the body may change the item [x] and a
    state [s] but not the list itself. *)
Fixpoint for_each {A S : Type} (body : A -> S -> A * S) (l : list A) (s : S)
  : list A * S :=
  match l with
  | [] => ([], s)
  | x :: l' =>
      let '(x', s1) := body x s in
      let '(l'', s2) := for_each body l' s1 in
      (x' :: l'', s2)
  end.

(** The same loop for a body that may raise: the loop stops there, with
    the items and the state as they are at that point. *)
Fixpoint for_each_try {A S : Type}
    (body : A -> S -> A * S * option Py.exn) (l : list A) (s : S)
  : list A * S * option Py.exn :=
  match l with
  | [] => ([], s, None)
  | x :: l' =>
      match body x s with
      | (x', s1, Some e) => (x' :: l', s1, Some e)
      | (x', s1, None) =>
          let '(l'', s2, r) := for_each_try body l' s1 in
          (x' :: l'', s2, r)
      end
  end.

(** [for i in items: body] over a state only, stopping at a raise. *)
Fixpoint fold_try {I S : Type} (body : I -> S -> S * option Py.exn)
    (items : list I) (s : S) : S * option Py.exn :=
  match items with
  | [] => (s, None)
  | i :: items' =>
      match body i s with
      | (s1, Some e) => (s1, Some e)
      | (s1, None) => fold_try body items' s1
      end
  end.

(** [__init__]. *)
Definition new_orchestrator : ResearchOrchestrator :=
  mkOrchestrator [] (mkResearchSearch []) [] [] "" ∅ 8.

Definition set_agents (o : ResearchOrchestrator) (l : list ResearchAgent)
  : ResearchOrchestrator :=
  mkOrchestrator l (search_tool o) (latex_generator o) (discussion_log o)
    (research_topic o) (satisfaction_scores o) (target_satisfaction o).

Definition set_search_tool (o : ResearchOrchestrator) (t : ResearchSearch)
  : ResearchOrchestrator :=
  mkOrchestrator (agents o) t (latex_generator o) (discussion_log o)
    (research_topic o) (satisfaction_scores o) (target_satisfaction o).

Definition set_latex (o : ResearchOrchestrator) (g : list LatexCall)
  : ResearchOrchestrator :=
  mkOrchestrator (agents o) (search_tool o) g (discussion_log o)
    (research_topic o) (satisfaction_scores o) (target_satisfaction o).

Definition set_log (o : ResearchOrchestrator) (l : list LogEntry)
  : ResearchOrchestrator :=
  mkOrchestrator (agents o) (search_tool o) (latex_generator o) l
    (research_topic o) (satisfaction_scores o) (target_satisfaction o).

Definition set_scores (o : ResearchOrchestrator) (m : gmap string Z)
  : ResearchOrchestrator :=
  mkOrchestrator (agents o) (search_tool o) (latex_generator o)
    (discussion_log o) (research_topic o) m (target_satisfaction o).

(** [add_agent(name, specialty, model)]. *)
Definition add_agent (o : ResearchOrchestrator) (nm spec mdl : string)
  : ResearchAgent * ResearchOrchestrator :=
  let agent := new_agent nm spec mdl in
  (agent,
   set_scores (set_agents o (agents o ++ [agent]))
     (<[nm := 5]> (satisfaction_scores o))).

(** [initialize_default_team()]. *)
Definition initialize_default_team (o : ResearchOrchestrator)
  : ResearchOrchestrator :=
  let o := (add_agent o "Dr. Neural" "Neural Networks and Deep Learning" "llama3.1").2 in
  let o := (add_agent o "Dr. Ethics" "AI Ethics and Safety" "llama3.1").2 in
  let o := (add_agent o "Dr. NLP" "Natural Language Processing" "llama3.1").2 in
  let o := (add_agent o "Dr. Vision" "Computer Vision and Multimodal AI" "llama3.1").2 in
  (add_agent o "Dr. RL" "Reinforcement Learning" "llama3.1").2.

(** [set_research_topic(topic)]. *)
Definition set_research_topic (o : ResearchOrchestrator) (topic : string)
  : ResearchOrchestrator :=
  mkOrchestrator (agents o) (search_tool o) (latex_generator o)
    (discussion_log o) topic (satisfaction_scores o) (target_satisfaction o).

(** [f"[{agent.name}]: {response}"]. *)
Definition tagged (nm response : string) : string :=
  "[" +:+ nm +:+ "]: " +:+ response.

(** *** conduct_brainstorm_session *)

Definition brainstorm_prompt (topic : string) (round_num rounds : Z)
    (brainstorm_results : list string) (spec : string) : string :=
  Py.join Py.nl [
    "Research Topic: " +:+ topic;
    "                ";
    "Brainstorming Round " +:+ pretty (round_num + 1) +:+ "/" +:+ pretty rounds;
    "";
    match brainstorm_results with
    | [] => "Initial brainstorming - share your key ideas:"
    | _ => "Previous ideas from team:"
    end;
    match brainstorm_results with
    | [] => ""
    | _ => Py.join Py.nl (Py.last_items 5 brainstorm_results)
    end;
    "";
    "As an expert in " +:+ spec
      +:+ ", provide 2-3 key research directions or hypotheses.";
    "Be specific and build upon previous ideas where relevant."
  ].

(** Body of the inner loop.  [brainstorm_results] is the list as it is
    when the round starts: the round extends it only after its last
    agent.  The state is [round_ideas], the log and the world. *)
Definition brainstorm_turn (topic : string) (round_num rounds : Z)
    (brainstorm_results : list string) (agent : ResearchAgent)
    (st : list string * list LogEntry * World)
  : ResearchAgent * (list string * list LogEntry * World) :=
  let '(round_ideas, log, w) := st in
  let prompt :=
    brainstorm_prompt topic round_num rounds brainstorm_results
      (specialty agent) in
  let '(response, agent', w') := generate_response agent prompt None w in
  (agent',
   (round_ideas ++ [tagged (name agent) response],
    log ++ [Brainstorm (round_num + 1) (name agent) response],
    w')).

(** Body of the outer loop. *)
Definition brainstorm_round (rounds : Z)
    (st : list string * ResearchOrchestrator * World) (round_num : Z)
  : list string * ResearchOrchestrator * World :=
  let '(brainstorm_results, o, w) := st in
  let '(agents', (round_ideas, log, w')) :=
    for_each
      (brainstorm_turn (research_topic o) round_num rounds brainstorm_results)
      (agents o) ([], discussion_log o, w) in
  (brainstorm_results ++ round_ideas, set_log (set_agents o agents') log, w').

Definition conduct_brainstorm_session (o : ResearchOrchestrator) (rounds : Z)
    (w : World) : list string * ResearchOrchestrator * World :=
  fold_left (brainstorm_round rounds) (Py.range rounds) ([], o, w).

(** *** conduct_research_phase *)

Definition analysis_prompt (query : string) (results : list SearchResult)
    (topic : string) : string :=
  Py.join Py.nl [
    "You searched for: " +:+ Py.dq +:+ query +:+ Py.dq;
    "            ";
    "Search Results:";
    json_dumps results;
    "";
    "Analyze these results and extract key findings relevant to our research on: "
      +:+ topic;
    "Provide a concise summary of the most important insights."
  ].

(** Body of the loop over the queries; the state is [search_results], the
    orchestrator and the world.  [self.agents[0]] comes first and raises
    on an empty roster. *)
Definition research_step (query : string)
    (st : gmap string (list SearchResult) * ResearchOrchestrator * World)
  : gmap string (list SearchResult) * ResearchOrchestrator * World
    * option Py.exn :=
  let '(search_results, o, w) := st in
  match agents o !! 0%nat with
  | None => (st, Some (Py.IndexError "list index out of range"))
  | Some agent =>
      let '(results, tool, w1) := search_arxiv (search_tool o) query 3 w in
      let prompt := analysis_prompt query results (research_topic o) in
      let '(analysis, agent1, w2) := generate_response agent prompt None w1 in
      let '(agent2, w3) :=
        add_research_note agent1
          ("Search: " +:+ query +:+ Py.nl +:+ "Findings: " +:+ analysis) w2 in
      (<[query := results]> search_results,
       set_log
         (set_search_tool (set_agents o (<[0%nat := agent2]> (agents o))) tool)
         (discussion_log o ++ [Research (name agent) query analysis]),
       w3, None)
  end.

Definition conduct_research_phase (o : ResearchOrchestrator)
    (search_queries : list string) (w : World)
  : Py.outcome (gmap string (list SearchResult)) * ResearchOrchestrator * World :=
  match fold_try research_step search_queries (∅, o, w) with
  | (search_results, o', w', None) => (Py.Return search_results, o', w')
  | (_, o', w', Some e) => (Py.Raise e, o', w')
  end.

(** *** structured_discussion *)

(** A context item as the [join] in the prompt meets it. *)
Definition message_value (m : Message) : Py.value :=
  Py.Dict [("role", role m); ("content", content m)].

(** The prompt of one turn.  [context] holds dictionaries, and the prompt
    joins its last three items as text once it is not empty. *)
Definition discussion_prompt (topic : string) (round_num rounds : Z)
    (research : string) (context : list Message) (spec : string)
  : Py.outcome string :=
  Py.bind
    (match context with
     | [] => Py.Return ""
     | _ => Py.join_values Py.nl (message_value <$> Py.last_items 3 context)
     end)
    (fun recent =>
       Py.Return (Py.join Py.nl [
         "Discussion Topic: " +:+ topic;
         "                ";
         "Round " +:+ pretty (round_num + 1) +:+ "/" +:+ pretty rounds;
         "Research Context: " +:+ research;
         "";
         match context with
         | [] => "Opening statement:"
         | _ => "Recent discussion:"
         end;
         recent;
         "";
         "Provide your perspective from " +:+ spec
           +:+ ". Be analytical and critical.";
         match context with
         | [] => ""
         | _ => "Challenge or build upon previous points."
         end
       ])).

(** Body of the inner loop; the state is [discussion], [context], the log
    and the world. *)
Definition discussion_turn (topic : string) (round_num rounds : Z)
    (research : string) (agent : ResearchAgent)
    (st : list string * list Message * list LogEntry * World)
  : ResearchAgent * (list string * list Message * list LogEntry * World)
    * option Py.exn :=
  let '(discussion, context, log, w) := st in
  match discussion_prompt topic round_num rounds research context
          (specialty agent) with
  | Py.Raise e => (agent, st, Some e)
  | Py.Return prompt =>
      let '(response, agent', w') :=
        generate_response agent prompt (Some context) w in
      let message := tagged (name agent) response in
      (agent',
       (discussion ++ [message],
        context ++ [mkMessage "assistant" message],
        log ++ [Discussion (round_num + 1) (name agent) topic response],
        w'),
       None)
  end.

(** Body of the outer loop. *)
Definition discussion_round (topic : string) (rounds : Z) (round_num : Z)
    (st : list string * list Message * ResearchOrchestrator * World)
  : list string * list Message * ResearchOrchestrator * World
    * option Py.exn :=
  let '(discussion, context, o, w) := st in
  let '(agents', (discussion', context', log, w'), r) :=
    for_each_try
      (discussion_turn topic round_num rounds (research_topic o))
      (agents o) (discussion, context, discussion_log o, w) in
  (discussion', context', set_log (set_agents o agents') log, w', r).

Definition structured_discussion (o : ResearchOrchestrator) (topic : string)
    (rounds : Z) (w : World)
  : Py.outcome (list string) * ResearchOrchestrator * World :=
  match fold_try (discussion_round topic rounds) (Py.range rounds)
          ([], [], o, w) with
  | (discussion, _, o', w', None) => (Py.Return discussion, o', w')
  | (_, _, o', w', Some e) => (Py.Raise e, o', w')
  end.

(** *** evaluate_satisfaction *)

Definition satisfaction_prompt (topic : string) (notes messages : nat)
  : string :=
  Py.join Py.nl [
    "Evaluate the research progress on: " +:+ topic;
    "";
    "Your contributions so far: " +:+ pretty notes +:+ " research notes";
    "Team discussions: " +:+ pretty messages +:+ " messages";
    "";
    "Rate your satisfaction with:";
    "1. Quality of research conducted";
    "2. Depth of analysis";
    "3. Collaboration effectiveness";
    "4. Readiness to publish findings";
    "";
    "Respond with ONLY a number from 1-10, where:";
    "1-3: Needs significant more work";
    "4-6: Making progress but incomplete";
    "7-8: Good progress, minor refinements needed";
    "9-10: Excellent, ready to publish";
    "";
    "Your rating:"
  ].

(** The two lines after the call inside [try]:
    [int(''.join(filter(str.isdigit, response.split()[0])))], clamped. *)
Definition extract_score (response : string) : Py.outcome Z :=
  Py.bind (Py.item0 (Py.split response)) (fun token =>
  Py.bind (Py.int_of_str int_max_str_digits
             (Py.filter_chars Py.isdigit token)) (fun score =>
  Py.Return (Z.max 1 (Z.min 10 score)))).

(** The score the [try]/[except] leaves in the table for a response. *)
Definition rating (response : string) : Z :=
  match extract_score response with
  | Py.Return score => score
  | Py.Raise _ => 5
  end.

(** Body of the loop; the state is the table and the world. *)
Definition evaluate_turn (topic : string) (messages : nat)
    (agent : ResearchAgent) (st : gmap string Z * World)
  : ResearchAgent * (gmap string Z * World) :=
  let '(scores, w) := st in
  let prompt :=
    satisfaction_prompt topic (length (research_notes agent)) messages in
  let '(response, agent', w') := generate_response agent prompt None w in
  (agent', (<[name agent := rating response]> scores, w')).

Definition evaluate_satisfaction (o : ResearchOrchestrator) (w : World)
  : gmap string Z * ResearchOrchestrator * World :=
  let '(agents', (scores, w')) :=
    for_each
      (evaluate_turn (research_topic o) (length (discussion_log o)))
      (agents o) (satisfaction_scores o, w) in
  (scores, set_scores (set_agents o agents') scores, w').

(** *** check_consensus *)

(** [sum(self.satisfaction_scores.values())]. *)
Definition sum_values (m : gmap string Z) : Z :=
  foldr Z.add 0 (map_to_list m).*2.

(** [sum(...) / len(...)]: the quotient of two integers, taken exactly.
    Python returns the binary64 number nearest to it; for the tables of a
    session that changes no comparison with the target (lemma
    [check_consensus_rounded]). *)
Definition avg_score (m : gmap string Z) : Q :=
  (inject_Z (sum_values m) / inject_Z (Z.of_nat (size m)))%Q.

Definition check_consensus (o : ResearchOrchestrator) : bool :=
  if decide (satisfaction_scores o = ∅) then false
  else Qle_bool (inject_Z (target_satisfaction o))
         (avg_score (satisfaction_scores o)).

(** *** generate_paper_sections, compile_final_paper *)

(** Straight-line code of a method: it reads and changes the orchestrator
    and the world, and returns or raises. *)
Definition Method (X : Type) : Type :=
  ResearchOrchestrator -> World ->
  Py.outcome X * ResearchOrchestrator * World.

Definition ret {X} (x : X) : Method X := fun o w => (Py.Return x, o, w).

Definition and_then {X Y} (m : Method X) (k : X -> Method Y) : Method Y :=
  fun o w =>
    match m o w with
    | (Py.Return x, o', w') => k x o' w'
    | (Py.Raise e, o', w') => (Py.Raise e, o', w')
    end.

Notation "'do' x <- m ; k" := (and_then m (fun x => k))
  (at level 10, x name, m at level 100, k at level 200).

(** [self.agents[i].generate_response(prompt)]. *)
Definition ask (i : nat) (prompt : string) : Method string :=
  fun o w =>
    match agents o !! i with
    | None => (Py.Raise (Py.IndexError "list index out of range"), o, w)
    | Some agent =>
        let '(response, agent', w') := generate_response agent prompt None w in
        (Py.Return response, set_agents o (<[i := agent']> (agents o)), w')
    end.

Definition title_prompt (topic : string) : string :=
  Py.join Py.nl [
    "Generate a compelling research paper title for our work on: " +:+ topic;
    "";
    "Respond with ONLY the title, nothing else."
  ].

Definition abstract_prompt (topic : string) : string :=
  Py.join Py.nl [
    "Write a concise abstract (150-200 words) for our research paper on: "
      +:+ topic;
    "";
    "Include:";
    "- Main objective";
    "- Methodology";
    "- Key findings";
    "- Significance";
    "";
    "Respond with ONLY the abstract text."
  ].

Definition intro_prompt (topic : string) : string :=
  Py.join Py.nl [
    "Write the Introduction section for our paper on: " +:+ topic;
    "";
    "Include:";
    "- Background and motivation";
    "- Research gap";
    "- Our contributions";
    "- Paper structure";
    "";
    "Provide the complete introduction section."
  ].

Definition method_prompt (spec topic : string) : string :=
  Py.join Py.nl [
    "Write a methodology subsection from your expertise in " +:+ spec;
    "            ";
    "For the research topic: " +:+ topic;
    "";
    "Describe the methods, techniques, or approaches relevant to your area.";
    "Keep it concise (2-3 paragraphs)."
  ].

Definition results_prompt (topic : string) : string :=
  Py.join Py.nl [
    "Write the Results and Discussion section.";
    "";
    "Research topic: " +:+ topic;
    "";
    "Synthesize the key findings and discuss their implications.";
    "Include analysis and interpretation."
  ].

Definition conclusion_prompt : string :=
  Py.join Py.nl [
    "Write the Conclusion section.";
    "";
    "Summarize:";
    "- Main contributions";
    "- Findings";
    "- Limitations";
    "- Future work";
    "";
    "Be concise but comprehensive."
  ].

(** Body of the methodology loop; the state is [methodology_parts] and
    the world. *)
Definition methodology_turn (topic : string) (agent : ResearchAgent)
    (st : list string * World) : ResearchAgent * (list string * World) :=
  let '(methodology_parts, w) := st in
  let '(method_part, agent', w') :=
    generate_response agent (method_prompt (specialty agent) topic) None w in
  (agent',
   (methodology_parts
      ++ ["\subsection{" +:+ specialty agent +:+ "}" +:+ Py.nl +:+ method_part],
    w')).

Definition methodology : Method string :=
  fun o w =>
    let '(agents', (parts, w')) :=
      for_each (methodology_turn (research_topic o)) (agents o) ([], w) in
    (Py.Return (Py.join (Py.nl +:+ Py.nl) parts), set_agents o agents', w').

Definition topic_of : Method string :=
  fun o w => (Py.Return (research_topic o), o, w).

Definition roster_size : Method nat :=
  fun o w => (Py.Return (length (agents o)), o, w).

Definition generate_paper_sections : Method PaperSections :=
  do topic <- topic_of;
  do title <- ask 0 (title_prompt topic);
  do abstract <- ask 0 (abstract_prompt topic);
  do n <- roster_size;
  do introduction <- ask (if (1 <? n)%nat then 1 else 0) (intro_prompt topic);
  do method_text <- methodology;
  do results <- ask (n - 1) (results_prompt topic);
  do conclusion <- ask (n - 1) conclusion_prompt;
  ret (mkSections (Py.strip title) abstract introduction method_text results
         conclusion).

Definition compile_final_paper : Method string :=
  do sections <- generate_paper_sections;
  fun o w =>
    let authors := name <$> agents o in
    let g :=
      latex_generator o
        ++ [SetMetadata (sec_title sections) authors (sec_abstract sections);
            AddSection "Introduction" (sec_introduction sections);
            AddSection "Methodology" (sec_methodology sections);
            AddSection "Results and Discussion" (sec_results sections)] in
    (Py.Return (saved_name g "research_paper.tex"),
     set_latex o (g ++ [SaveToFile "research_paper.tex"]), w).

(** *** export_session_log *)

(** The dictionary is built first (one clock reading); when the file
    cannot be opened or written the exception leaves the method and
    nothing is recorded as written. *)
Definition export_session_log (filename : string) : Method string :=
  fun o w =>
    let '(stamp, w1) := now w in
    let session_data :=
      mkSessionData (research_topic o) stamp (get_summary <$> agents o)
        (discussion_log o) (satisfaction_scores o)
        (length (discussion_log o)) in
    match open_file (written w1) filename with
    | Some reason => (Py.Raise (Py.OSError reason), o, w1)
    | None =>
        (Py.Return filename, o,
         mkWorld (sent w1) (clock_reads w1) (fetched w1)
           (written w1 ++ [(filename, session_data)]))
    end.

(** *** trigger_self_improvement *)

(** Body of the loop; the state is [results] and the world. *)
Definition improvement_turn (feedback : string) (agent : ResearchAgent)
    (st : list (string * string) * World)
  : ResearchAgent * (list (string * string) * World) :=
  let '(results, w) := st in
  let '(result, agent', w') := improve_system_prompt agent (Some feedback) w in
  (agent', (results ++ [(name agent, result)], w')).

Definition trigger_self_improvement (o : ResearchOrchestrator) (w : World)
  : list (string * string) * ResearchOrchestrator * World :=
  let feedback :=
    "Research topic: " +:+ research_topic o +:+ ". Recent discussions: "
      +:+ pretty (length (discussion_log o)) +:+ "." in
  let '(agents', (results, w')) :=
    for_each (improvement_turn feedback) (agents o) ([], w) in
  (results, set_agents o agents', w').

(** ** The session as a state machine *)

(** A call an external driver can make: a method of the orchestrator, or
    a method of an agent through the reference [add_agent] returned
    ([i] is the agent's place in the roster). *)
Inductive Call : Type :=
| AddAgent (nm spec mdl : string)
| InitializeDefaultTeam
| SetResearchTopic (topic : string)
| ConductBrainstormSession (rounds : Z)
| ConductResearchPhase (search_queries : list string)
| StructuredDiscussion (topic : string) (rounds : Z)
| EvaluateSatisfaction
| CheckConsensus
| GeneratePaperSections
| CompileFinalPaper
| ExportSessionLog (filename : string)
| TriggerSelfImprovement
| AgentGenerateResponse (i : nat) (prompt : string)
    (context : option (list Message))
| AgentImproveSystemPrompt (i : nat) (feedback : option string)
| AgentAddResearchNote (i : nat) (note : string).

(** An agent's method applied in place to the i-th roster member. *)
Definition on_agent {X} (i : nat)
    (f : ResearchAgent -> World -> X * ResearchAgent * World)
    (o : ResearchOrchestrator) (w : World) : ResearchOrchestrator * World :=
  match agents o !! i with
  | None => (o, w)
  | Some agent =>
      let '(_, agent', w') := f agent w in
      (set_agents o (<[i := agent']> (agents o)), w')
  end.

(** The state a call leaves behind, whether it returns or raises. *)
Definition perform (c : Call) (o : ResearchOrchestrator) (w : World)
  : ResearchOrchestrator * World :=
  match c with
  | AddAgent nm spec mdl => ((add_agent o nm spec mdl).2, w)
  | InitializeDefaultTeam => (initialize_default_team o, w)
  | SetResearchTopic topic => (set_research_topic o topic, w)
  | ConductBrainstormSession rounds =>
      let '(_, o', w') := conduct_brainstorm_session o rounds w in (o', w')
  | ConductResearchPhase search_queries =>
      let '(_, o', w') := conduct_research_phase o search_queries w in (o', w')
  | StructuredDiscussion topic rounds =>
      let '(_, o', w') := structured_discussion o topic rounds w in (o', w')
  | EvaluateSatisfaction =>
      let '(_, o', w') := evaluate_satisfaction o w in (o', w')
  | CheckConsensus => (o, w)
  | GeneratePaperSections =>
      let '(_, o', w') := generate_paper_sections o w in (o', w')
  | CompileFinalPaper =>
      let '(_, o', w') := compile_final_paper o w in (o', w')
  | ExportSessionLog filename =>
      let '(_, o', w') := export_session_log filename o w in (o', w')
  | TriggerSelfImprovement =>
      let '(_, o', w') := trigger_self_improvement o w in (o', w')
  | AgentGenerateResponse i prompt context =>
      on_agent i (fun a => generate_response a prompt context) o w
  | AgentImproveSystemPrompt i feedback =>
      on_agent i (fun a => improve_system_prompt a feedback) o w
  | AgentAddResearchNote i note =>
      on_agent i
        (fun a w0 => let '(a', w1) := add_research_note a note w0 in (tt, a', w1))
        o w
  end.

(** The states a session can be in: a fresh orchestrator in any world,
    and what any call makes of a reachable state. *)
Inductive reachable : ResearchOrchestrator -> World -> Prop :=
| reachable_new (w : World) : reachable new_orchestrator w
| reachable_call (c : Call) (o : ResearchOrchestrator) (w : World) :
    reachable o w -> reachable (perform c o w).1 (perform c o w).2.

End Hivemind.

(** ** Notions of the specification *)

(** [needle] occurs in [hay]. *)
Fixpoint contains (needle hay : string) : bool :=
  String.prefix needle hay
  || match hay with
     | EmptyString => false
     | String _ hay' => contains needle hay'
     end.

(** The turn an entry of the transcript records. *)
Definition turn_of (e : LogEntry) : option Z * string :=
  (entry_round e, entry_agent e).

(** Turn orders for a roster and a number of rounds.  Roster-major,
    round-minor: all the rounds of the first agent, then all the rounds of
    the second, and so on.  Round-major, roster-minor: the whole roster in
    round 1, then the whole roster in round 2, and so on. *)
Definition roster_major (roster : list string) (rounds : Z)
  : list (option Z * string) :=
  nm ← roster; (fun r => (Some (r + 1), nm)) <$> Py.range rounds.

Definition round_major (roster : list string) (rounds : Z)
  : list (option Z * string) :=
  r ← Py.range rounds; (fun nm => (Some (r + 1), nm)) <$> roster.

(** The arithmetic mean of a list of integers. *)
Definition mean (values : list Z) : Q :=
  (inject_Z (foldr Z.add 0%Z values) / inject_Z (Z.of_nat (length values)))%Q.

(** The text an entry records, and the idea string made of it. *)
Definition entry_text (e : LogEntry) : string :=
  match e with
  | Brainstorm _ _ t => t
  | Research _ _ t => t
  | Discussion _ _ _ t => t
  end.

Definition idea_of (e : LogEntry) : string :=
  tagged (entry_agent e) (entry_text e).

(** The names of the roster, in roster order. *)
Definition roster_names (o : ResearchOrchestrator) : list string :=
  name <$> agents o.

(** The satisfaction table has exactly the roster's names as keys. *)
Definition keys_follow_roster (o : ResearchOrchestrator) : Prop :=
  dom (satisfaction_scores o) =@{gset string} list_to_set (roster_names o).

(** [o'] has the roster names and the table of [o]. *)
Definition same_roster (o o' : ResearchOrchestrator) : Prop :=
  roster_names o' = roster_names o
  /\ satisfaction_scores o' = satisfaction_scores o.

(** A method body that leaves the roster's names and the table alone. *)
Definition keeps_roster {X} (m : Method X) : Prop :=
  forall o w, same_roster o (m o w).1.2.

(** What a call does to the roster's names and to the table. *)
Definition roster_effect (c : Call) (o o' : ResearchOrchestrator) : Prop :=
  match c with
  | AddAgent nm _ _ =>
      roster_names o' = roster_names o ++ [nm]
      /\ satisfaction_scores o' = <[nm := 5]> (satisfaction_scores o)
  | InitializeDefaultTeam =>
      let team := ["Dr. Neural"; "Dr. Ethics"; "Dr. NLP"; "Dr. Vision"; "Dr. RL"] in
      roster_names o' = roster_names o ++ team
      /\ dom (satisfaction_scores o')
         =@{gset string} dom (satisfaction_scores o) ∪ list_to_set team
      /\ forall nm, nm ∈ team -> satisfaction_scores o' !! nm = Some 5
  | EvaluateSatisfaction =>
      roster_names o' = roster_names o
      /\ dom (satisfaction_scores o')
         =@{gset string}
         dom (satisfaction_scores o) ∪ list_to_set (roster_names o)
  | _ => same_roster o o'
  end.

(** What no turn changes in an agent. *)
Definition persona (a : ResearchAgent) : string * string * string * string :=
  (name a, specialty a, model a, system_prompt a).

(** The request of a brainstorm turn, from the agent's persona and the
    list of ideas the prompt is built on. *)
Definition persona_request (topic : string) (round_num rounds : Z)
    (results : list string) (p : string * string * string * string)
  : ChatRequest :=
  let '(_, spec, mdl, sys) := p in
  mkChatRequest mdl
    [mkMessage "system" sys;
     mkMessage "user" (brainstorm_prompt topic round_num rounds results spec)].

Definition brainstorm_request (topic : string) (round_num rounds : Z)
    (results : list string) (a : ResearchAgent) : ChatRequest :=
  persona_request topic round_num rounds results (persona a).

(** The request [improve_system_prompt] sends. *)
Definition improvement_request (a : ResearchAgent) (feedback : option string)
  : ChatRequest :=
  mkChatRequest (model a)
    [mkMessage "system" "You are a meta-AI that improves AI system prompts.";
     mkMessage "user" (improvement_prompt a feedback)].

(** What [str.join] raises on a list whose first item is a dictionary. *)
Definition join_error : Py.exn :=
  Py.TypeError "sequence item 0: expected str instance, dict found".

(** Every score of a table lies in [1,10]. *)
Definition table_in_range (m : gmap string Z) : Prop :=
  map_Forall (fun _ v => 1 <= v <= 10) m.

(** [2^49].  The binary64 numbers from 8 to 16 are the multiples of
    [1 / grid], and every multiple [k / grid] with [|k| <= 16 * grid] is a
    binary64 number. *)
Definition grid : positive := 562949953421312.

(** ** Concrete environments and sessions for the examples *)

(** A gateway that always answers [text], one that always fails, and one
    that numbers its answers. *)
Definition steady_gateway (text : string)
  : list ChatRequest -> ChatRequest -> ChatReply :=
  fun _ _ => Content text.

Definition failing_gateway (reason : string)
  : list ChatRequest -> ChatRequest -> ChatReply :=
  fun _ _ => ChatFailed reason.

Definition counting_gateway : list ChatRequest -> ChatRequest -> ChatReply :=
  fun before _ => Content ("idea " +:+ pretty (length before)).

Definition fixed_clock : nat -> string := fun _ => "2024-01-01T00:00:00".

Definition no_network : list (string * Z) -> string -> Z -> HttpReply :=
  fun _ _ _ => HttpFailed "offline".

Definition no_json : list SearchResult -> string := fun _ => "[]".

Definition same_name : list LatexCall -> string -> string :=
  fun _ filename => filename.

Definition always_opens
  : list (string * SessionData) -> string -> option string :=
  fun _ _ => None.

Definition some_mark : string := "*".

(** The roster [A, B] on topic X. *)
Definition two_agents : ResearchOrchestrator :=
  set_research_topic
    (add_agent (add_agent new_orchestrator "A" "theory" "llama3.1").2
       "B" "practice" "llama3.1").2
    "X".

(** A table with the given scores for A and B, target 8. *)
Definition scored (a b : Z) : ResearchOrchestrator :=
  set_scores new_orchestrator (<["A" := a]> (<["B" := b]> ∅)).

(** ** advanced_usage.py: debate_style_research, export_to_markdown *)

(** [agent.system_prompt = p], as the guide does right after [add_agent]. *)
Definition set_system_prompt (a : ResearchAgent) (p : string) : ResearchAgent :=
  mkAgent (name a) (specialty a) (model a) (conversation_history a)
    (research_notes a) p (improvement_count a).

Definition optimist_prompt : string :=
  Py.join Py.nl [
    "You argue for the positive potential of AI.";
    "    Focus on benefits, opportunities, and solutions."
  ].

Definition skeptic_prompt : string :=
  Py.join Py.nl [
    "You raise critical concerns about AI.";
    "    Focus on risks, limitations, and challenges."
  ].

Definition pragmatist_prompt : string :=
  Py.join Py.nl [
    "You provide balanced, practical analysis.";
    "    Synthesize both optimistic and skeptical views."
  ].

Section Debate.
Variable gateway : list ChatRequest -> ChatRequest -> ChatReply.
Variable clock : nat -> string.

(** Body of the loop of [debate_style_research]; the three variables hold
    the agents the roster holds. *)
Definition debate_round (topic : string)
    (st : ResearchAgent * ResearchAgent * ResearchAgent * World) (round : Z)
  : ResearchAgent * ResearchAgent * ResearchAgent * World :=
  let '(optimist, skeptic, pragmatist, w) := st in
  let '(opt_arg, optimist, w) :=
    generate_response gateway clock optimist
      ("Round " +:+ pretty (round + 1) +:+ ": Argue for " +:+ topic) None w in
  let '(skep_arg, skeptic, w) :=
    generate_response gateway clock skeptic
      ("Counter the optimistic view: " +:+ opt_arg) None w in
  let '(syn, pragmatist, w) :=
    generate_response gateway clock pragmatist
      ("Synthesize these views: " +:+ opt_arg +:+ " vs " +:+ skep_arg) None w in
  (optimist, skeptic, pragmatist, w).

(** [debate_style_research(topic)].  The roster holds the three agent
    objects the variables name, so the roster of the orchestrator returned
    is read off the variables after the loop. *)
Definition debate_style_research (topic : string) (w : World)
  : ResearchOrchestrator * World :=
  let o := new_orchestrator in
  let '(optimist, o) := add_agent o "Dr. Optimist" "AI Optimism" "llama3.1" in
  let optimist := set_system_prompt optimist optimist_prompt in
  let '(skeptic, o) := add_agent o "Dr. Skeptic" "AI Risks" "llama3.1" in
  let skeptic := set_system_prompt skeptic skeptic_prompt in
  let '(pragmatist, o) :=
    add_agent o "Dr. Pragmatist" "Balanced Analysis" "llama3.1" in
  let pragmatist := set_system_prompt pragmatist pragmatist_prompt in
  let '(optimist, skeptic, pragmatist, w) :=
    fold_left (debate_round topic) (Py.range 3)
      (optimist, skeptic, pragmatist, w) in
  (set_agents o [optimist; skeptic; pragmatist], w).

End Debate.

(** [entry.get('content', '')]: brainstorm and discussion entries have the
    key, research entries keep their text under ['analysis']. *)
Definition entry_content (e : LogEntry) : string :=
  match e with
  | Brainstorm _ _ text => text
  | Research _ _ _ => ""
  | Discussion _ _ _ text => text
  end.

(** [export_to_markdown(orchestrator)]. *)
Definition export_to_markdown (o : ResearchOrchestrator) : string :=
  let md := "# " +:+ research_topic o +:+ Py.nl +:+ Py.nl in
  let md := md +:+ "## Research Team" +:+ Py.nl +:+ Py.nl in
  let md :=
    fold_left
      (fun md agent =>
         md +:+ "- **" +:+ name agent +:+ "**: " +:+ specialty agent +:+ Py.nl)
      (agents o) md in
  let md := md +:+ Py.nl +:+ "## Discussion Log" +:+ Py.nl +:+ Py.nl in
  fold_left
    (fun md entry =>
       let md := md +:+ "### " +:+ entry_agent entry +:+ Py.nl +:+ Py.nl in
       md +:+ entry_content entry +:+ Py.nl +:+ Py.nl)
    (discussion_log o) md.

(** ** Notions for a session as a whole *)

(** [a'] is the agent [a] at a later point of its life. *)
Definition agent_grows (a a' : ResearchAgent) : Prop :=
  name a' = name a
  /\ specialty a' = specialty a
  /\ model a' = model a
  /\ conversation_history a `prefix_of` conversation_history a'
  /\ research_notes a `prefix_of` research_notes a'
  /\ improvement_count a <= improvement_count a'.

(** The roster [l'] is [l] later: the same agents at the same places, each
    grown, and new ones after them. *)
Definition roster_grows (l l' : list ResearchAgent) : Prop :=
  exists older newer, l' = older ++ newer /\ Forall2 agent_grows l older.

Definition world_grows (w w' : World) : Prop :=
  sent w `prefix_of` sent w'
  /\ (clock_reads w <= clock_reads w')%nat
  /\ fetched w `prefix_of` fetched w'
  /\ written w `prefix_of` written w'.

(** A session state is an orchestrator and the world around it. *)
Definition session_grows (s s' : ResearchOrchestrator * World) : Prop :=
  roster_grows (agents s.1) (agents s'.1)
  /\ discussion_log s.1 `prefix_of` discussion_log s'.1
  /\ search_history (search_tool s.1) `prefix_of` search_history (search_tool s'.1)
  /\ latex_generator s.1 `prefix_of` latex_generator s'.1
  /\ target_satisfaction s'.1 = target_satisfaction s.1
  /\ dom (satisfaction_scores s.1) ⊆@{gset string} dom (satisfaction_scores s'.1)
  /\ world_grows s.2 s'.2.

(** A method body under which the session only grows. *)
Definition grows_method {X} (m : Method X) : Prop :=
  forall o w, session_grows (o, w) ((m o w).1.2, (m o w).2).

Section Runs.
Variable gateway : list ChatRequest -> ChatRequest -> ChatReply.
Variables clock clock_str : nat -> string.
Variable http_get : list (string * Z) -> string -> Z -> HttpReply.
Variable json_dumps : list SearchResult -> string.
Variable int_max_str_digits : nat.
Variable saved_name : list LatexCall -> string -> string.
Variable open_file : list (string * SessionData) -> string -> option string.
Variable improved_mark : string.

(** A driver's calls, one after the other. *)
Definition run (calls : list Call) (s : ResearchOrchestrator * World)
  : ResearchOrchestrator * World :=
  fold_left
    (fun st c =>
       perform gateway clock clock_str http_get json_dumps int_max_str_digits
         saved_name open_file improved_mark c st.1 st.2)
    calls s.

End Runs.

(** The entries a call may add to the transcript: only the three phases
    that talk add any, each of its own type and under roster names. *)
Definition log_effect (c : Call) (o o' : ResearchOrchestrator) : Prop :=
  exists added,
    discussion_log o' = discussion_log o ++ added
    /\ Forall (fun e => entry_agent e ∈ roster_names o) added
    /\ match c with
       | ConductBrainstormSession _ =>
           Forall (fun e => entry_type e = "brainstorm") added
       | ConductResearchPhase search_queries =>
           Forall (fun e => entry_type e = "research") added
           /\ (length added <= length search_queries)%nat
       | StructuredDiscussion _ _ =>
           Forall (fun e => entry_type e = "discussion") added
       | _ => added = []
       end.

(** A method body that leaves the transcript alone. *)
Definition keeps_log {X} (m : Method X) : Prop :=
  forall o w, discussion_log (m o w).1.2 = discussion_log o.

(** [self.agents[0]] and the like on a roster too short. *)
Definition index_error : Py.exn := Py.IndexError "list index out of range".

(** The research entries of a list of queries, all by one agent. *)
Definition research_entries (agent : string) (queries analyses : list string)
  : list LogEntry :=
  zip_with (Research agent) queries analyses.

(** The note [conduct_research_phase] files for a query. *)
Definition research_note (query analysis : string) : string :=
  "Search: " +:+ query +:+ Py.nl +:+ "Findings: " +:+ analysis.

(** What [export_to_markdown] shows of one research entry of [agent]. *)
Definition research_block (agent : string) : string :=
  "### " +:+ agent +:+ Py.nl +:+ Py.nl +:+ Py.nl +:+ Py.nl.

(** The request [generate_response(prompt)] makes of an agent with this
    persona when it is given no context. *)
Definition plain_request (p : string * string * string * string)
    (prompt : string) : ChatRequest :=
  let '(_, _, mdl, sys) := p in
  mkChatRequest mdl [mkMessage "system" sys; mkMessage "user" prompt].

(** What [generate_response] returns for what the gateway gave back: the
    content of the reply, or the error text. *)
Definition reply_text (r : ChatReply) : string :=
  match r with
  | Content text => text
  | ChatFailed reason => "Error generating response: " +:+ reason
  end.


(** A gateway that answers the request it receives after n others with the
    number n + 7. *)
Definition numbering_gateway : list ChatRequest -> ChatRequest -> ChatReply :=
  fun before _ => Content (pretty (Z.of_nat (length before) + 7)).

(** The text [generate_response] returned for the k-th of [requests],
    sent after the requests [before]. *)
Definition reply_at (gateway : list ChatRequest -> ChatRequest -> ChatReply)
    (before requests : list ChatRequest) (k : nat) : option string :=
  (fun request => reply_text (gateway (before ++ take k requests) request))
    <$> requests !! k.

(** A methodology subsection as [generate_paper_sections] writes it. *)
Definition method_section (spec text : string) : string :=
  "\subsection{" +:+ spec +:+ "}" +:+ Py.nl +:+ text.

(** A methodology request, from the persona of the agent asked. *)
Definition method_request (topic : string)
    (p : string * string * string * string) : ChatRequest :=
  plain_request p (method_prompt p.1.1.2 topic).

(** What a method body leaves as it is when it only asks agents. *)
Definition asks_only (o o' : ResearchOrchestrator) : Prop :=
  persona <$> agents o' = persona <$> agents o
  /\ research_topic o' = research_topic o
  /\ latex_generator o' = latex_generator o.

(** Who [generate_paper_sections] asks what: roster places and prompts, in
    the order of the calls. *)
Definition paper_plan (topic : string) (roster : list ResearchAgent)
  : list (nat * string) :=
  let n := length roster in
  [(0%nat, title_prompt topic); (0%nat, abstract_prompt topic);
   (if (1 <? n)%nat then 1%nat else 0%nat, intro_prompt topic)]
  ++ imap (fun i a => (i, method_prompt (specialty a) topic)) roster
  ++ [((n - 1)%nat, results_prompt topic); ((n - 1)%nat, conclusion_prompt)].

(** [requests] are the requests of [plan] made of a roster with these
    personas. *)
Definition follows_plan (personas : list (string * string * string * string))
    (requests : list ChatRequest) (plan : list (nat * string)) : Prop :=
  Forall2 (fun request step =>
             exists p, personas !! step.1 = Some p
                       /\ request = plain_request p step.2)
    requests plan.

(** A run of a method body that returns, keeps every persona, the topic
    and the generator, and sends the requests of [plan]. *)
Definition runs_plan {X} (m : Method X) (o : ResearchOrchestrator) (w : World)
    (plan : list (nat * string)) (x : X) (o' : ResearchOrchestrator)
    (w' : World) : Prop :=
  m o w = (Py.Return x, o', w')
  /\ persona <$> agents o' = persona <$> agents o
  /\ research_topic o' = research_topic o
  /\ latex_generator o' = latex_generator o
  /\ exists requests,
       sent w' = sent w ++ requests
       /\ follows_plan (persona <$> agents o) requests plan.

(** The calls [compile_final_paper] makes on the generator before it has
    the paper saved. *)
Definition paper_calls (authors : list string) (sections : PaperSections)
  : list LatexCall :=
  [SetMetadata (sec_title sections) authors (sec_abstract sections);
   AddSection "Introduction" (sec_introduction sections);
   AddSection "Methodology" (sec_methodology sections);
   AddSection "Results and Discussion" (sec_results sections)].




(** An entry that records the error text of a failed gateway call. *)
Definition error_entry (e : LogEntry) : Prop :=
  exists reason, entry_text e = "Error generating response: " +:+ reason.

(** Every character of [s] satisfies [pred]. *)
Fixpoint every_char (pred : ascii -> bool) (s : string) : bool :=
  match s with
  | EmptyString => true
  | String c s' => pred c && every_char pred s'
  end.

(** A word as [str.split] sees it: not empty, no white space inside. *)
Definition is_word (s : string) : Prop :=
  s <> "" /\ every_char (fun c => negb (Py.isspace c)) s = true.

(** No score has been written but the 5 every agent starts with. *)
Definition untouched_scores (o : ResearchOrchestrator) : Prop :=
  target_satisfaction o = 8
  /\ map_Forall (fun _ v => v = 5) (satisfaction_scores o).

(** The system message the k-th request of a debate carries. *)
Definition debate_system (k : nat) : option Message :=
  Some (mkMessage "system"
          (match (k mod 3)%nat with
           | 0%nat => optimist_prompt
           | 1%nat => skeptic_prompt
           | _ => pragmatist_prompt
           end)).

(** * Properties *)

(** ** The built-ins on examples *)

Example split_example :
  Py.split "  7 out of 10 " = ["7"; "out"; "of"; "10"].
Proof. reflexivity. Qed.

Example strip_example : Py.strip "  a b  " = "a b".
Proof. reflexivity. Qed.

Example last_items_example :
  Py.last_items 3 [1; 2; 3; 4; 5] = [3; 4; 5] /\ Py.last_items 3 [1; 2] = [1; 2].
Proof. split; reflexivity. Qed.

Example int_of_str_example :
  Py.int_of_str 4300 "0710" = Py.Return 710
  /\ Py.int_of_str 4300 (String (ascii_of_nat 178) EmptyString)
     = Py.Raise (Py.ValueError "invalid literal for int() with base 10").
Proof. split; reflexivity. Qed.

(** ** Slices *)

Lemma last_items_length {A} (k : nat) (l : list A) :
  length (Py.last_items k l) = (k `min` length l)%nat.
Proof. unfold Py.last_items. rewrite length_drop. lia. Qed.

Lemma last_items_suffix {A} (k : nat) (l : list A) :
  l = take (length l - k) l ++ Py.last_items k l.
Proof. unfold Py.last_items. by rewrite take_drop. Qed.

Lemma last_items_cons {A} (k : nat) (x : A) (l : list A) :
  exists y l', Py.last_items (S k) (x :: l) = y :: l'.
Proof.
  pose proof (last_items_length (S k) (x :: l)) as Hlen.
  destruct (Py.last_items (S k) (x :: l)) as [|y l']; [simpl in Hlen; lia|].
  by exists y, l'.
Qed.

(** ** Text *)

Lemma append_cons (c : ascii) (s t : string) :
  String c s +:+ t = String c (s +:+ t).
Proof. reflexivity. Qed.

Lemma append_assoc (s1 s2 s3 : string) :
  (s1 +:+ s2) +:+ s3 = s1 +:+ s2 +:+ s3.
Proof.
  induction s1 as [|c s1 IH]; [done|]. by rewrite !append_cons, IH.
Qed.

Lemma append_nil_r (s : string) : s +:+ "" = s.
Proof. induction s as [|c s IH]; [done|]. by rewrite append_cons, IH. Qed.

Lemma prefix_append (n post : string) : String.prefix n (n +:+ post) = true.
Proof.
  induction n as [|c n IH]; [by destruct post|].
  rewrite append_cons. simpl. destruct (ascii_dec c c); [exact IH|done].
Qed.

Lemma prefix_inv (n h : string) :
  String.prefix n h = true -> exists post, h = n +:+ post.
Proof.
  revert h. induction n as [|c n IH]; intros h H.
  - by exists h.
  - destruct h as [|d h]; simpl in H; [done|].
    destruct (ascii_dec c d) as [->|]; [|done].
    destruct (IH _ H) as [post ->]. by exists post.
Qed.

Lemma contains_cons (n : string) (c : ascii) (h : string) :
  contains n (String c h) = String.prefix n (String c h) || contains n h.
Proof. reflexivity. Qed.

Lemma contains_append_r (n pre h : string) :
  contains n h = true -> contains n (pre +:+ h) = true.
Proof.
  intros H. induction pre as [|c pre IH]; [done|].
  rewrite append_cons, contains_cons, IH. apply orb_true_r.
Qed.

(** [contains] decides being an infix. *)
Lemma contains_infix (n h : string) :
  contains n h = true <-> exists pre post, h = pre +:+ n +:+ post.
Proof.
  split.
  - induction h as [|c h IH]; intros H.
    + destruct n; [|done]. by exists "", "".
    + rewrite contains_cons in H. apply orb_true_iff in H as [H|H].
      * apply prefix_inv in H as [post ->]. by exists "", post.
      * destruct (IH H) as (pre & post & ->). by exists (String c pre), post.
  - intros (pre & post & ->). apply contains_append_r.
    destruct (n +:+ post) eqn:E.
    + destruct n; [done|]. by rewrite append_cons in E.
    + by rewrite contains_cons, <- E, prefix_append.
Qed.

Lemma contains_trans (a b c : string) :
  contains a b = true -> contains b c = true -> contains a c = true.
Proof.
  rewrite !contains_infix. intros (p1 & q1 & ->) (p2 & q2 & ->).
  exists (p2 +:+ p1), (q1 +:+ q2). by rewrite !append_assoc.
Qed.

Lemma contains_join (x sep : string) (l : list string) :
  x ∈ l -> contains x (Py.join sep l) = true.
Proof.
  induction l as [|y l IH]; intros Hx; [by apply elem_of_nil in Hx|].
  apply elem_of_cons in Hx as [->|Hx].
  - apply contains_infix. destruct l as [|z l].
    + exists "", "". by rewrite append_nil_r.
    + by exists "", (sep +:+ Py.join sep (z :: l)).
  - destruct l as [|z l]; [by apply elem_of_nil in Hx|].
    change (Py.join sep (y :: z :: l))
      with (y +:+ sep +:+ Py.join sep (z :: l)).
    apply contains_append_r, contains_append_r. by apply IH.
Qed.

(** The prompt of a brainstorm turn carries each of the last five items of
    the list it is built on. *)
Lemma brainstorm_prompt_inlines topic round_num rounds results spec idea :
  idea ∈ Py.last_items 5 results ->
  contains idea (brainstorm_prompt topic round_num rounds results spec) = true.
Proof.
  intros Hidea.
  apply contains_trans with (Py.join Py.nl (Py.last_items 5 results)).
  - by apply contains_join.
  - unfold brainstorm_prompt. destruct results as [|r results].
    + by apply elem_of_nil in Hidea.
    + apply contains_join.
      do 5 (apply elem_of_cons; right). apply elem_of_cons. by left.
Qed.

(** ** Loops *)

Section Loops.
Context {A S B : Type} (f : A -> B).

Lemma for_each_fmap (body : A -> S -> A * S) (l : list A) (s : S) :
  (forall a s0, f (body a s0).1 = f a) ->
  f <$> (for_each body l s).1 = f <$> l.
Proof.
  intros Hbody. revert s.
  induction l as [|a l IH]; intros s; csimpl; [done|].
  specialize (Hbody a s). destruct (body a s) as [a' s1].
  specialize (IH s1). destruct (for_each body l s1) as [l' s2].
  csimpl in *. by rewrite Hbody, IH.
Qed.

Lemma for_each_try_fmap (body : A -> S -> A * S * option Py.exn)
    (l : list A) (s : S) :
  (forall a s0, f (body a s0).1.1 = f a) ->
  f <$> (for_each_try body l s).1.1 = f <$> l.
Proof.
  intros Hbody. revert s.
  induction l as [|a l IH]; intros s; csimpl; [done|].
  specialize (Hbody a s). destruct (body a s) as [[a' s1] [e|]].
  - csimpl in *. by rewrite Hbody.
  - specialize (IH s1). destruct (for_each_try body l s1) as [[l' s2] r].
    csimpl in *. by rewrite Hbody, IH.
Qed.

End Loops.

Lemma fold_try_state {I S} (P : S -> Prop)
    (body : I -> S -> S * option Py.exn) (items : list I) (s : S) :
  (forall i s0, P s0 -> P (body i s0).1) ->
  P s -> P (fold_try body items s).1.
Proof.
  intros Hbody. revert s.
  induction items as [|i items IH]; intros s Hs; simpl; [done|].
  specialize (Hbody i s Hs). destruct (body i s) as [s1 [e|]]; [done|].
  by apply IH.
Qed.

Lemma fold_left_state {I S} (P : S -> Prop) (body : S -> I -> S)
    (items : list I) (s : S) :
  (forall i s0, P s0 -> P (body s0 i)) ->
  P s -> P (fold_left body items s).
Proof.
  intros Hbody. revert s.
  induction items as [|i items IH]; intros s Hs; simpl; [done|].
  apply IH. by apply Hbody.
Qed.

Lemma bind_ext_in {A B} (f g : A -> list B) (l : list A) :
  (forall x, x ∈ l -> f x = g x) -> l ≫= f = l ≫= g.
Proof.
  induction l as [|x l IH]; intros H; csimpl; [done|].
  rewrite H by left. rewrite IH; [done|]. intros y Hy. apply H. by right.
Qed.

(** Rounds of [n] items each, laid end to end: the length, and the item of
    place [i] in round [r]. *)
Lemma bind_rounds_length {B} (f : nat -> list B) (k n : nat) :
  (forall r, length (f r) = n) -> length (seq 0 k ≫= f) = (k * n)%nat.
Proof.
  intros Hf. induction k as [|k IH]; [done|].
  rewrite seq_S, bind_app, length_app, IH. csimpl.
  rewrite app_nil_r, Hf. lia.
Qed.

Lemma bind_rounds_lookup {B} (f : nat -> list B) (k n r i : nat) :
  (forall r0, length (f r0) = n) -> (r < k)%nat -> (i < n)%nat ->
  (seq 0 k ≫= f) !! (r * n + i)%nat = f r !! i.
Proof.
  intros Hf. induction k as [|k IH]; intros Hr Hi; [lia|].
  rewrite seq_S, bind_app. csimpl. rewrite app_nil_r.
  pose proof (bind_rounds_length f k n Hf) as Hlen.
  destruct (decide (r = k)) as [->|Hne].
  - rewrite lookup_app_r by lia. f_equal. lia.
  - rewrite lookup_app_l by (rewrite Hlen; nia). apply IH; lia.
Qed.

(** ** The agent *)

Section Agent.
Variable gateway : list ChatRequest -> ChatRequest -> ChatReply.
Variable clock : nat -> string.
Variable improved_mark : string.

Lemma build_messages_window a prompt context :
  build_messages a prompt context
  = [mkMessage "system" (system_prompt a)]
      ++ Py.last_items 10 (default [] context)
      ++ [mkMessage "user" prompt].
Proof. destruct context as [[|m ctx]|]; reflexivity. Qed.

Lemma generate_response_sent a prompt context w :
  sent (generate_response gateway clock a prompt context w).2
  = sent w ++ [mkChatRequest (model a) (build_messages a prompt context)].
Proof.
  unfold generate_response, chat. simpl.
  destruct (gateway _ _); reflexivity.
Qed.

Lemma generate_response_frame a prompt context w :
  exists h,
    (generate_response gateway clock a prompt context w).1.2 = set_history a h.
Proof.
  unfold generate_response, chat. simpl.
  destruct (gateway _ _); simpl; eexists; [reflexivity|].
  instantiate (1 := conversation_history a). by destruct a.
Qed.

Lemma generate_response_name a prompt context w :
  name (generate_response gateway clock a prompt context w).1.2 = name a.
Proof. by destruct (generate_response_frame a prompt context w) as [h ->]. Qed.

Lemma generate_response_persona a prompt context w :
  persona (generate_response gateway clock a prompt context w).1.2 = persona a.
Proof. by destruct (generate_response_frame a prompt context w) as [h ->]. Qed.

Lemma improve_system_prompt_name a feedback w :
  name (improve_system_prompt gateway improved_mark a feedback w).1.2 = name a.
Proof.
  unfold improve_system_prompt, chat. simpl. by destruct (gateway _ _).
Qed.

Lemma add_research_note_name a note w :
  name (add_research_note clock a note w).1 = name a.
Proof. reflexivity. Qed.

(** C3.  For every call of [generate_response] (respond) with a context of
    any length, absent or empty contexts included, the message list the
    gateway receives is the system instructions, then the last
    min(10, length) context messages in their original order (the oldest
    are the ones dropped), then the user prompt. *)
Theorem respond_context_window a prompt context w :
  let ctx := default [] context in
  exists dropped kept,
    sent (generate_response gateway clock a prompt context w).2
    = sent w ++ [mkChatRequest (model a)
                   ([mkMessage "system" (system_prompt a)] ++ kept
                      ++ [mkMessage "user" prompt])]
    /\ ctx = dropped ++ kept
    /\ length kept = (10 `min` length ctx)%nat.
Proof.
  intros ctx.
  exists (take (length ctx - 10) ctx), (Py.last_items 10 ctx).
  split; [|split].
  - by rewrite generate_response_sent, build_messages_window.
  - apply last_items_suffix.
  - apply last_items_length.
Qed.

(** C4, as the code has it.  A call of [generate_response] appends one
    (prompt, response, timestamp) record to the agent's history when the
    gateway answers, and returns the answer; when the gateway fails, the
    history is left as it was and the call returns the text
    "Error generating response: " followed by the failure's message. *)
Theorem respond_history a prompt context w :
  let request := mkChatRequest (model a) (build_messages a prompt context) in
  let '(response, a', _) := generate_response gateway clock a prompt context w in
  match gateway (sent w) request with
  | Content text =>
      response = text
      /\ conversation_history a'
         = conversation_history a
             ++ [mkHistory (clock (clock_reads w)) prompt text]
  | ChatFailed e =>
      response = "Error generating response: " +:+ e
      /\ conversation_history a' = conversation_history a
  end.
Proof.
  unfold generate_response, chat. simpl.
  destruct (gateway _ _); simpl; auto.
Qed.

(** C7, as the code has it.  A successful call of [improve_system_prompt]
    (revise_instructions) adds exactly 1 to [improvement_count] and replaces
    [system_prompt], without any validation, by the gateway's response with
    the white space at its two ends stripped; history and notes stay. *)
Theorem revise_instructions_success a feedback w text :
  gateway (sent w) (improvement_request a feedback) = Content text ->
  let a' := (improve_system_prompt gateway improved_mark a feedback w).1.2 in
  improvement_count a' = improvement_count a + 1
  /\ system_prompt a' = Py.strip text
  /\ conversation_history a' = conversation_history a
  /\ research_notes a' = research_notes a.
Proof.
  intros H. unfold improve_system_prompt, chat. simpl.
  unfold improvement_request in H. rewrite H. simpl. auto.
Qed.

(** C10.  If the gateway call inside [improve_system_prompt] fails, the
    agent is left exactly as it was (instructions, revision count, history
    and notes), and the text "Error improving prompt: " followed by the
    failure's message is returned in place of the improvement report. *)
Theorem revise_instructions_failure a feedback w e :
  gateway (sent w) (improvement_request a feedback) = ChatFailed e ->
  let '(report, a', _) := improve_system_prompt gateway improved_mark a feedback w in
  report = "Error improving prompt: " +:+ e
  /\ a' = a
  /\ system_prompt a' = system_prompt a
  /\ improvement_count a' = improvement_count a
  /\ conversation_history a' = conversation_history a
  /\ research_notes a' = research_notes a.
Proof.
  intros H. unfold improve_system_prompt, chat. simpl.
  unfold improvement_request in H. rewrite H. simpl. auto 10.
Qed.

End Agent.

(** The 15-message scenario of the specification: the gateway receives the
    system prompt, messages 6 to 15 and the user prompt. *)
Example respond_fifteen_messages :
  let context := (fun n => mkMessage "assistant" (pretty n)) <$> seq 1 15 in
  let out :=
    generate_response (steady_gateway "ok") fixed_clock
      (new_agent "A" "theory" "llama3.1") "next" (Some context) new_world in
  (fun request => content <$> chat_messages request) <$> sent out.2
  = [[_create_initial_prompt "A" "theory";
      "6"; "7"; "8"; "9"; "10"; "11"; "12"; "13"; "14"; "15"; "next"]].
Proof. vm_compute. reflexivity. Qed.

(** ** The roster and the satisfaction table along a session *)

Lemma same_roster_refl o : same_roster o o.
Proof. by split. Qed.

Lemma same_roster_trans o1 o2 o3 :
  same_roster o1 o2 -> same_roster o2 o3 -> same_roster o1 o3.
Proof. intros [H1 H2] [H3 H4]. split; congruence. Qed.

(** Putting an agent of the same name back in its place. *)
Lemma same_roster_insert o i a a' :
  agents o !! i = Some a -> name a' = name a ->
  same_roster o (set_agents o (<[i := a']> (agents o))).
Proof.
  intros Hi Hname. split; [|done]. unfold roster_names. simpl.
  rewrite list_fmap_insert, Hname.
  apply list_insert_id. by rewrite list_lookup_fmap, Hi.
Qed.

Lemma and_then_keeps_roster {X Y} (m : Method X) (k : X -> Method Y) :
  keeps_roster m -> (forall x, keeps_roster (k x)) ->
  keeps_roster (and_then m k).
Proof.
  intros Hm Hk o w. unfold and_then.
  specialize (Hm o w). destruct (m o w) as [[[x|e] o1] w1]; simpl in *.
  - eapply same_roster_trans; [exact Hm|]. apply Hk.
  - done.
Qed.

Lemma add_agent_effect o nm spec mdl :
  let o' := (add_agent o nm spec mdl).2 in
  roster_names o' = roster_names o ++ [nm]
  /\ satisfaction_scores o' = <[nm := 5]> (satisfaction_scores o).
Proof. split; [|done]. unfold roster_names. simpl. by rewrite fmap_app. Qed.

(** The invariant follows every call whose effect is a [roster_effect]. *)
Lemma roster_effect_keys c o o' :
  roster_effect c o o' -> keys_follow_roster o -> keys_follow_roster o'.
Proof.
  unfold keys_follow_roster.
  destruct c; simpl; unfold same_roster;
    try (intros [-> ->]; done).
  - intros [-> ->] H. rewrite dom_insert_L, list_to_set_app_L, H. set_solver.
  - intros (-> & -> & _) H. rewrite list_to_set_app_L, H. set_solver.
  - intros [-> ->] H. rewrite H. set_solver.
Qed.

Lemma sum_values_bounds (m : gmap string Z) :
  table_in_range m ->
  Z.of_nat (size m) <= sum_values m <= 10 * Z.of_nat (size m).
Proof.
  unfold table_in_range, sum_values. rewrite <- length_map_to_list.
  rewrite map_Forall_to_list.
  induction (map_to_list m) as [|[nm v] l IH]; intros H; csimpl; [lia|].
  apply Forall_cons in H as [Hv Hl]. simpl in Hv. specialize (IH Hl). lia.
Qed.

Section Session.
Variable gateway : list ChatRequest -> ChatRequest -> ChatReply.
Variables clock clock_str : nat -> string.
Variable http_get : list (string * Z) -> string -> Z -> HttpReply.
Variable json_dumps : list SearchResult -> string.
Variable int_max_str_digits : nat.
Variable saved_name : list LatexCall -> string -> string.
Variable open_file : list (string * SessionData) -> string -> option string.
Variable improved_mark : string.

Lemma brainstorm_same_roster o rounds w :
  same_roster o (conduct_brainstorm_session gateway clock o rounds w).1.2.
Proof.
  unfold conduct_brainstorm_session.
  apply (fold_left_state (fun st => same_roster o st.1.2));
    [|apply same_roster_refl].
  intros round_num [[results o1] w1] H1. simpl in *.
  unfold brainstorm_round.
  pose proof (for_each_fmap name
    (brainstorm_turn gateway clock (research_topic o1) round_num rounds results)
    (agents o1) ([], discussion_log o1, w1)) as Hnames.
  destruct (for_each _ _ _) as [agents' [[ideas log] w']]. simpl in *.
  eapply same_roster_trans; [exact H1|]. split; [|done].
  unfold roster_names. simpl. apply Hnames.
  intros a [[i l] w0]. unfold brainstorm_turn.
  pose proof (generate_response_name gateway clock a
    (brainstorm_prompt (research_topic o1) round_num rounds results (specialty a))
    None w0) as Hn.
  by destruct (generate_response _ _ _ _ _ _) as [[r a'] w2].
Qed.

Lemma research_same_roster o queries w :
  same_roster o
    (conduct_research_phase gateway clock clock_str http_get json_dumps
       o queries w).1.2.
Proof.
  unfold conduct_research_phase.
  pose proof (fold_try_state (fun st => same_roster o st.1.2)
    (research_step gateway clock clock_str http_get json_dumps)
    queries (∅, o, w)) as H.
  destruct (fold_try _ _ _) as [[[results o'] w'] [e|]]; simpl in *;
    apply H; try apply same_roster_refl.
  all: intros query [[res o1] w1] H1; simpl in *; unfold research_step.
  all: destruct (agents o1 !! 0%nat) as [agent|] eqn:Hagent; [|done].
  all: destruct (search_arxiv _ _ _ _ _ _) as [[found tool] w2].
  all: pose proof (generate_response_name gateway clock agent
         (analysis_prompt json_dumps query found (research_topic o1))
         None w2) as Hn.
  all: destruct (generate_response _ _ _ _ _ _) as [[analysis agent1] w3].
  all: simpl in *.
  all: eapply same_roster_trans; [exact H1|].
  all: apply (same_roster_insert o1 0 agent); done.
Qed.

Lemma discussion_same_roster o topic rounds w :
  same_roster o (structured_discussion gateway clock o topic rounds w).1.2.
Proof.
  unfold structured_discussion.
  pose proof (fold_try_state (fun st => same_roster o st.1.2)
    (discussion_round gateway clock topic rounds)
    (Py.range rounds) ([], [], o, w)) as H.
  assert (Hstep : forall i s0, same_roster o s0.1.2 ->
            same_roster o
              (discussion_round gateway clock topic rounds i s0).1.1.2).
  { intros round_num [[[discussion context] o1] w1] H1. simpl in *.
    unfold discussion_round.
    pose proof (for_each_try_fmap name
      (discussion_turn gateway clock topic round_num rounds (research_topic o1))
      (agents o1) (discussion, context, discussion_log o1, w1)) as Hnames.
    destruct (for_each_try _ _ _) as [[agents' [[[d c] log] w']] r].
    simpl in *. eapply same_roster_trans; [exact H1|]. split; [|done].
    unfold roster_names. simpl. apply Hnames.
    intros a [[[d0 c0] l0] w0]. unfold discussion_turn.
    destruct (discussion_prompt _ _ _ _ _ _) as [prompt|e]; [|done].
    pose proof (generate_response_name gateway clock a prompt (Some c0) w0)
      as Hn.
    by destruct (generate_response _ _ _ _ _ _) as [[resp a'] w2]. }
  destruct (fold_try _ _ _) as [[[[discussion context] o'] w'] [e|]];
    simpl in *; apply H; auto using same_roster_refl.
Qed.

Lemma improvement_same_roster o w :
  same_roster o (trigger_self_improvement gateway improved_mark o w).1.2.
Proof.
  unfold trigger_self_improvement.
  match goal with |- context [for_each ?b ?l ?s] =>
    pose proof (for_each_fmap name b l s) as Hnames end.
  destruct (for_each _ _ _) as [agents' [results w']]. simpl in *.
  split; [|done]. unfold roster_names. simpl. apply Hnames.
  intros a [res w0]. unfold improvement_turn.
  match goal with |- context [improve_system_prompt _ _ a ?f w0] =>
    pose proof (improve_system_prompt_name gateway improved_mark a f w0) as Hn end.
  by destruct (improve_system_prompt _ _ _ _ _) as [[r a'] w2].
Qed.

Lemma ask_keeps_roster i prompt : keeps_roster (ask gateway clock i prompt).
Proof.
  intros o w. unfold ask.
  destruct (agents o !! i) as [agent|] eqn:Hagent;
    [|apply same_roster_refl].
  pose proof (generate_response_name gateway clock agent prompt None w) as Hn.
  destruct (generate_response _ _ _ _ _ _) as [[r a'] w2]. simpl in *.
  by apply (same_roster_insert o i agent).
Qed.

Lemma methodology_keeps_roster : keeps_roster (methodology gateway clock).
Proof.
  intros o w. unfold methodology.
  match goal with |- context [for_each ?b ?l ?s] =>
    pose proof (for_each_fmap name b l s) as Hnames end.
  destruct (for_each _ _ _) as [agents' [parts w']]. simpl in *.
  split; [|done]. unfold roster_names. simpl. apply Hnames.
  intros a [p w0]. unfold methodology_turn.
  match goal with |- context [generate_response _ _ a ?q None w0] =>
    pose proof (generate_response_name gateway clock a q None w0) as Hn end.
  by destruct (generate_response _ _ _ _ _ _) as [[r a'] w2].
Qed.

Lemma sections_keep_roster : keeps_roster (generate_paper_sections gateway clock).
Proof.
  unfold generate_paper_sections.
  repeat (apply and_then_keeps_roster; [|intros ?]);
    try apply ask_keeps_roster; try apply methodology_keeps_roster;
    intros o w; apply same_roster_refl.
Qed.

Lemma compile_keeps_roster :
  keeps_roster (compile_final_paper gateway clock saved_name).
Proof.
  unfold compile_final_paper.
  apply and_then_keeps_roster; [apply sections_keep_roster|].
  intros sections o w. by split.
Qed.

Lemma on_agent_same_roster {X} i
    (f : ResearchAgent -> World -> X * ResearchAgent * World) o w :
  (forall a w0, name (f a w0).1.2 = name a) ->
  same_roster o (on_agent i f o w).1.
Proof.
  intros Hf. unfold on_agent.
  destruct (agents o !! i) as [agent|] eqn:Hagent;
    [|apply same_roster_refl].
  specialize (Hf agent w). destruct (f agent w) as [[x a'] w'].
  by apply (same_roster_insert o i agent).
Qed.

(** *** evaluate_satisfaction *)

Lemma rating_range response : 1 <= rating int_max_str_digits response <= 10.
Proof.
  unfold rating, extract_score.
  destruct (Py.item0 _) as [token|e]; simpl; [|lia].
  destruct (Py.int_of_str _ _) as [score|e]; simpl; lia.
Qed.

Lemma rating_cases response :
  rating int_max_str_digits response
  = match Py.split response with
    | [] => 5
    | token :: _ =>
        match Py.int_of_str int_max_str_digits
                (Py.filter_chars Py.isdigit token) with
        | Py.Return n => Z.max 1 (Z.min 10 n)
        | Py.Raise _ => 5
        end
    end.
Proof.
  unfold rating, extract_score.
  destruct (Py.split response) as [|token rest]; simpl; [done|].
  by destruct (Py.int_of_str _ _).
Qed.


(** The entry a turn writes is the rating of the response the agent gave
    in that turn. *)
Lemma evaluate_turn_score topic n a scores w :
  let prompt := satisfaction_prompt topic (length (research_notes a)) n in
  (evaluate_turn gateway clock int_max_str_digits topic n a (scores, w)).2.1
  = <[name a := rating int_max_str_digits
                  (generate_response gateway clock a prompt None w).1.1]> scores.
Proof.
  unfold evaluate_turn.
  by destruct (generate_response _ _ _ _ _ _) as [[response a'] w'].
Qed.

Lemma evaluate_loop topic n l scores w :
  let '(l', (scores', _)) :=
    for_each (evaluate_turn gateway clock int_max_str_digits topic n) l
      (scores, w) in
  name <$> l' = name <$> l
  /\ dom scores' =@{gset string} dom scores ∪ list_to_set (name <$> l)
  /\ (forall nm, nm ∈ name <$> l ->
        exists response,
          scores' !! nm = Some (rating int_max_str_digits response))
  /\ (forall nm, nm ∉ name <$> l -> scores' !! nm = scores !! nm).
Proof.
  clear clock_str http_get json_dumps saved_name.
  revert scores w. induction l as [|a l IH]; intros scores w; csimpl.
  { repeat split; try done; set_solver. }
  unfold evaluate_turn at 1.
  match goal with |- context [generate_response _ _ a ?q None w] =>
    pose proof (generate_response_name gateway clock a q None w) as Hn end.
  destruct (generate_response _ _ _ _ _ _) as [[response a'] w1].
  simpl in Hn.
  specialize (IH (<[name a := rating int_max_str_digits response]> scores) w1).
  destruct (for_each _ _ _) as [l' [scores' w']].
  destruct IH as (Hnames & Hdom & Hin & Hout).
  repeat split.
  - csimpl. by rewrite Hn, Hnames.
  - rewrite Hdom, dom_insert_L. set_solver.
  - intros nm Hnm.
    destruct (decide (nm ∈ name <$> l)) as [Hl|Hl]; [by apply Hin|].
    apply elem_of_cons in Hnm as [->|]; [|done].
    exists response. rewrite (Hout _ Hl). apply lookup_insert_eq.
  - intros nm Hnm. apply not_elem_of_cons in Hnm as [Hne Hl].
    rewrite (Hout _ Hl). by apply lookup_insert_ne.
Qed.


Lemma generate_response_reply a prompt w :
  (generate_response gateway clock a prompt None w).1.1
  = reply_text (gateway (sent w) (plain_request (persona a) prompt))
  /\ sent (generate_response gateway clock a prompt None w).2
     = sent w ++ [plain_request (persona a) prompt].
Proof.
  unfold generate_response, chat. simpl. by destruct (gateway _ _).
Qed.



(** *** every call *)

Lemma perform_roster_effect c o w :
  roster_effect c o
    (perform gateway clock clock_str http_get json_dumps int_max_str_digits
       saved_name open_file improved_mark c o w).1.
Proof.
  destruct c; simpl.
  - apply add_agent_effect.
  - unfold roster_names. simpl. rewrite !fmap_app, <- !app_assoc. simpl.
    split; [done|]. split.
    + rewrite !dom_insert_L. set_solver.
    + intros nm Hnm. repeat (apply elem_of_cons in Hnm as [->|Hnm]);
        [..|by apply elem_of_nil in Hnm]; by simplify_map_eq.
  - by split.
  - pose proof (brainstorm_same_roster o rounds w) as H.
    by destruct (conduct_brainstorm_session _ _ _ _ _) as [[r o'] w'].
  - pose proof (research_same_roster o search_queries w) as H.
    by destruct (conduct_research_phase _ _ _ _ _ _ _ _) as [[r o'] w'].
  - pose proof (discussion_same_roster o topic rounds w) as H.
    by destruct (structured_discussion _ _ _ _ _ _) as [[r o'] w'].
  - unfold evaluate_satisfaction.
    pose proof (evaluate_loop (research_topic o) (length (discussion_log o))
                  (agents o) (satisfaction_scores o) w) as H.
    destruct (for_each _ _ _) as [l' [scores' w']].
    destruct H as (Hnames & Hdom & _). by split.
  - apply same_roster_refl.
  - pose proof (sections_keep_roster o w) as H.
    by destruct (generate_paper_sections _ _ _ _) as [[r o'] w'].
  - pose proof (compile_keeps_roster o w) as H.
    by destruct (compile_final_paper _ _ _ _ _) as [[r o'] w'].
  - unfold export_session_log. simpl.
    destruct (open_file _ _); apply same_roster_refl.
  - pose proof (improvement_same_roster o w) as H.
    by destruct (trigger_self_improvement _ _ _ _) as [[r o'] w'].
  - apply on_agent_same_roster. intros. apply generate_response_name.
  - apply on_agent_same_roster. intros. apply improve_system_prompt_name.
  - apply on_agent_same_roster. intros. reflexivity.
Qed.

(** C9.  In every reachable state of a session the keys of the
    satisfaction table are exactly the names of the roster's agents.  From
    such a state, [add_agent] appends the agent and sets its entry to 5
    ([initialize_default_team] does so five times), [evaluate_satisfaction]
    keeps the roster and writes only under roster names, and every other
    call, the agents' own methods included, leaves both the names and the
    table as they are. *)
Theorem satisfaction_keys_follow_roster o w :
  reachable gateway clock clock_str http_get json_dumps int_max_str_digits
    saved_name open_file improved_mark o w ->
  keys_follow_roster o
  /\ forall c,
       let o' :=
         (perform gateway clock clock_str http_get json_dumps
            int_max_str_digits saved_name open_file improved_mark c o w).1 in
       roster_effect c o o' /\ keys_follow_roster o'.
Proof.
  intros Hreach.
  assert (Hkeys : keys_follow_roster o).
  { induction Hreach as [w|c o w _ IH]; [done|].
    eapply roster_effect_keys; [apply perform_roster_effect|exact IH]. }
  split; [exact Hkeys|]. intros c o'. split.
  - apply perform_roster_effect.
  - eapply roster_effect_keys; [apply perform_roster_effect|exact Hkeys].
Qed.

(** The scores of a session stay in [1,10]: 5 at registration, a rating at
    every evaluation. *)
Lemma perform_scores_in_range c o w :
  table_in_range (satisfaction_scores o) ->
  table_in_range
    (satisfaction_scores
       (perform gateway clock clock_str http_get json_dumps int_max_str_digits
          saved_name open_file improved_mark c o w).1).
Proof.
  intros H.
  pose proof (perform_roster_effect c o w) as E.
  destruct c; cbn [roster_effect] in E;
    try (destruct E as [_ ->]; exact H).
  - simpl. apply map_Forall_insert_2; [lia|done].
  - simpl. repeat (apply map_Forall_insert_2; [lia|]). done.
  - clear E. simpl. unfold evaluate_satisfaction.
    pose proof (evaluate_loop (research_topic o) (length (discussion_log o))
                  (agents o) (satisfaction_scores o) w) as L.
    destruct (for_each _ _ _) as [l' [scores' w']].
    destruct L as (_ & _ & Hin & Hout). simpl.
    intros nm v Hv. simpl in Hv.
    destruct (decide (nm ∈ name <$> agents o)) as [Hnm|Hnm].
    + destruct (Hin nm Hnm) as [response Hr]. rewrite Hr in Hv.
      injection Hv as <-. apply rating_range.
    + rewrite (Hout nm Hnm) in Hv. by apply (H nm).
Qed.

Lemma reachable_scores_in_range o w :
  reachable gateway clock clock_str http_get json_dumps int_max_str_digits
    saved_name open_file improved_mark o w ->
  table_in_range (satisfaction_scores o).
Proof.
  induction 1 as [w|c o w _ IH]; [apply map_Forall_empty|].
  by apply perform_scores_in_range.
Qed.

(** *** conduct_brainstorm_session *)

Lemma turns_of_round (r : Z) (names responses : list string) :
  length responses = length names ->
  turn_of <$> zip_with (Brainstorm r) names responses
  = (fun nm => (Some r, nm)) <$> names.
Proof.
  revert responses. induction names as [|nm names IH];
    intros [|response responses] Hlen; try done.
  csimpl. rewrite IH; [done|]. simpl in Hlen. lia.
Qed.

Lemma ideas_of_round (r : Z) (names responses : list string) :
  zip_with tagged names responses
  = idea_of <$> zip_with (Brainstorm r) names responses.
Proof.
  revert responses. induction names as [|nm names IH];
    intros [|response responses]; try done.
  csimpl. by rewrite IH.
Qed.

Lemma brainstorm_entries (r : Z) (names responses : list string) :
  Forall (fun e => entry_type e = "brainstorm")
    (zip_with (Brainstorm r) names responses).
Proof.
  revert responses. induction names as [|nm names IH];
    intros [|response responses]; simpl; constructor; auto.
Qed.

Lemma brainstorm_request_persona topic round_num rounds results
    (l1 l2 : list ResearchAgent) :
  persona <$> l1 = persona <$> l2 ->
  brainstorm_request topic round_num rounds results <$> l1
  = brainstorm_request topic round_num rounds results <$> l2.
Proof.
  intros H. unfold brainstorm_request.
  change (fun a => persona_request topic round_num rounds results (persona a))
    with (persona_request topic round_num rounds results ∘ persona).
  by rewrite !list_fmap_compose, H.
Qed.

(** One round: every agent is asked once, in roster order, on the list of
    ideas the round started with. *)
Lemma brainstorm_inner topic round_num rounds results l ideas log w :
  let '(l', (ideas', log', w')) :=
    for_each (brainstorm_turn gateway clock topic round_num rounds results)
      l (ideas, log, w) in
  persona <$> l' = persona <$> l
  /\ sent w' = sent w ++ (brainstorm_request topic round_num rounds results <$> l)
  /\ exists responses,
       length responses = length l
       /\ ideas' = ideas ++ zip_with tagged (name <$> l) responses
       /\ log' = log ++ zip_with (Brainstorm (round_num + 1)) (name <$> l) responses.
Proof.
  revert ideas log w. induction l as [|a l IH]; intros ideas log w; csimpl.
  { rewrite !app_nil_r. repeat split. by exists []. }
  unfold brainstorm_turn at 1.
  set (prompt := brainstorm_prompt topic round_num rounds results (specialty a)).
  pose proof (generate_response_persona gateway clock a prompt None w) as Hp.
  pose proof (generate_response_sent gateway clock a prompt None w) as Hs.
  destruct (generate_response _ _ _ _ _ _) as [[response a'] w1].
  simpl in Hp, Hs.
  specialize (IH (ideas ++ [tagged (name a) response])
                (log ++ [Brainstorm (round_num + 1) (name a) response]) w1).
  destruct (for_each _ _ _) as [l' [[ideas' log'] w']].
  destruct IH as (Hper & Hsent & responses & Hlen & Hideas & Hlog).
  repeat split.
  - csimpl. by rewrite Hp, Hper.
  - rewrite Hsent, Hs, <- app_assoc. done.
  - exists (response :: responses). csimpl.
    rewrite Hlen, Hideas, Hlog, <- !app_assoc. done.
Qed.

(** The first [k] rounds of a call. *)
Lemma brainstorm_outer o rounds w (k : nat) :
  let N := length (agents o) in
  let '(results, o', w') :=
    fold_left (brainstorm_round gateway clock rounds)
      (Z.of_nat <$> seq 0 k) ([], o, w) in
  persona <$> agents o' = persona <$> agents o
  /\ research_topic o' = research_topic o
  /\ length results = (k * N)%nat
  /\ sent w'
     = sent w
       ++ (seq 0 k ≫= fun r =>
             brainstorm_request (research_topic o) (Z.of_nat r) rounds
               (take (r * N) results) <$> agents o)
  /\ exists added,
       discussion_log o' = discussion_log o ++ added
       /\ results = idea_of <$> added
       /\ Forall (fun e => entry_type e = "brainstorm") added
       /\ turn_of <$> added
          = (seq 0 k ≫= fun r =>
               (fun nm => (Some (Z.of_nat r + 1), nm)) <$> roster_names o).
Proof.
  intros N. induction k as [|k IH].
  { simpl. rewrite !app_nil_r. repeat split.
    exists []. by rewrite app_nil_r. }
  rewrite seq_S, fmap_app, fold_left_app. csimpl.
  destruct (fold_left _ _ _) as [[results ok] wk].
  destruct IH as (Hper & Htopic & Hlen & Hsent & added & Hlog & Hres & Htype
                  & Hturns).
  unfold brainstorm_round.
  pose proof (brainstorm_inner (research_topic ok) (Z.of_nat k)
                rounds results (agents ok) [] (discussion_log ok) wk) as Hin.
  destruct (for_each _ _ _) as [agents' [[ideas log] w']].
  destruct Hin as (Hper' & Hsent' & responses & Hrlen & Hideas & Hlog').
  assert (HN : length (agents ok) = N).
  { unfold N. by rewrite <- (length_fmap persona (agents ok)), Hper, length_fmap. }
  assert (Hnames : name <$> agents ok = roster_names o).
  { unfold roster_names.
    change name with (fun a => (persona a).1.1.1).
    change (fun a => (persona a).1.1.1)
      with ((fun p : _ * _ * _ * _ => p.1.1.1) ∘ persona).
    by rewrite !list_fmap_compose, Hper. }
  assert (Hilen : length ideas = N).
  { rewrite Hideas. simpl. rewrite length_zip_with, length_fmap. lia. }
  simpl. repeat split.
  - by rewrite Hper'.
  - done.
  - rewrite length_app. lia.
  - rewrite Hsent', Hsent, <- app_assoc, bind_app. f_equal. f_equal.
    + apply bind_ext_in. intros r Hr. apply elem_of_seq in Hr.
      rewrite take_app_le by (rewrite Hlen; nia). done.
    + csimpl. rewrite app_nil_r.
      rewrite take_app_length' by lia. rewrite Htopic.
      by apply brainstorm_request_persona.
  - exists (added ++ zip_with (Brainstorm (Z.of_nat k + 1))
              (name <$> agents ok) responses).
    split; [|split; [|split]].
    + rewrite Hlog', Hlog, <- app_assoc. done.
    + rewrite fmap_app, <- ideas_of_round, Hideas, Hres. done.
    + apply Forall_app. split; [done|apply brainstorm_entries].
    + rewrite fmap_app, bind_app, Hturns. f_equal. csimpl.
      rewrite app_nil_r, turns_of_round, Hnames; [done|].
      rewrite length_fmap. done.
Qed.

(** C1, as the code has it.  For every roster of N agents and every number
    of rounds R >= 0 (so for all N >= 1 and R >= 1), a call of
    [conduct_brainstorm_session] with rounds = R appends exactly N*R entries
    to the transcript, all of type brainstorm, in round-major, roster-minor
    order: the whole roster in roster order for round 1, then the whole
    roster for round 2, and so on.  The list returned holds their idea
    strings in the same order. *)
Theorem brainstorm_appends_round_major o rounds w :
  0 <= rounds ->
  let '(results, o', _) := conduct_brainstorm_session gateway clock o rounds w in
  exists added,
    discussion_log o' = discussion_log o ++ added
    /\ Z.of_nat (length added) = Z.of_nat (length (agents o)) * rounds
    /\ Forall (fun e => entry_type e = "brainstorm") added
    /\ turn_of <$> added = round_major (roster_names o) rounds
    /\ results = idea_of <$> added.
Proof.
  intros Hrounds. unfold conduct_brainstorm_session, Py.range.
  pose proof (brainstorm_outer o rounds w (Z.to_nat rounds)) as H.
  destruct (fold_left _ _ _) as [[results o'] w'].
  destruct H as (_ & _ & _ & _ & added & Hlog & Hres & Htype & Hturns).
  exists added. repeat split; try done.
  - rewrite <- (length_fmap turn_of), Hturns.
    rewrite (bind_rounds_length _ _ (length (agents o))).
    + lia.
    + intros r. unfold roster_names. by rewrite !length_fmap.
  - rewrite Hturns. unfold round_major, Py.range.
    by rewrite list_fmap_bind.
Qed.

(** C2, as the code has it.  During a call of [conduct_brainstorm_session]
    the request of the agent at roster place [i] in round [r] (counted from
    0) carries the prompt built on [seen], the ideas of the rounds before
    [r] of this call: the list is extended only when a round ends.  That
    prompt contains each of the last 5 ideas of [seen]; what agents earlier
    in the roster said in the same round is not in [seen], and in the first
    round [seen] is empty. *)
Theorem brainstorm_prompts_from_round_snapshot o rounds w :
  let N := length (agents o) in
  let '(results, _, w') := conduct_brainstorm_session gateway clock o rounds w in
  exists requests,
    sent w' = sent w ++ requests
    /\ length results = (Z.to_nat rounds * N)%nat
    /\ forall (r i : nat) (a : ResearchAgent),
         (r < Z.to_nat rounds)%nat -> agents o !! i = Some a ->
         let seen := take (r * N) results in
         let prompt :=
           brainstorm_prompt (research_topic o) (Z.of_nat r) rounds seen
             (specialty a) in
         requests !! (r * N + i)%nat
         = Some (mkChatRequest (model a)
                   [mkMessage "system" (system_prompt a);
                    mkMessage "user" prompt])
         /\ forall idea, idea ∈ Py.last_items 5 seen ->
              contains idea prompt = true.
Proof.
  intros N. unfold conduct_brainstorm_session, Py.range.
  pose proof (brainstorm_outer o rounds w (Z.to_nat rounds)) as H.
  destruct (fold_left _ _ _) as [[results o'] w'].
  destruct H as (_ & _ & Hlen & Hsent & _).
  eexists. split; [exact Hsent|]. split; [exact Hlen|].
  intros r i a Hr Hi. split.
  - rewrite (bind_rounds_lookup _ _ N).
    + by rewrite list_lookup_fmap, Hi.
    + intros r0. by rewrite length_fmap.
    + done.
    + by apply lookup_lt_Some in Hi.
  - intros idea. apply brainstorm_prompt_inlines.
Qed.

(** *** structured_discussion *)

Lemma discussion_prompt_dict topic round_num rounds research m context spec :
  discussion_prompt topic round_num rounds research (m :: context) spec
  = Py.Raise join_error.
Proof.
  unfold discussion_prompt.
  destruct (last_items_cons 2 m context) as (y & l' & ->). reflexivity.
Qed.

(** A turn that starts on a context that is not empty raises while it
    builds its prompt, before anything is sent. *)
Lemma discussion_turn_dict topic round_num rounds research a discussion m
    context log w :
  discussion_turn gateway clock topic round_num rounds research a
    (discussion, m :: context, log, w)
  = (a, (discussion, m :: context, log, w), Some join_error).
Proof. unfold discussion_turn. by rewrite discussion_prompt_dict. Qed.

(** The first turn of a call: the context is still empty. *)
Lemma discussion_turn_opening topic rounds research a log w :
  exists prompt response a' w',
    discussion_prompt topic 0 rounds research [] (specialty a)
    = Py.Return prompt
    /\ discussion_turn gateway clock topic 0 rounds research a ([], [], log, w)
       = (a',
          ([tagged (name a) response],
           [mkMessage "assistant" (tagged (name a) response)],
           log ++ [Discussion 1 (name a) topic response], w'),
          None)
    /\ sent w'
       = sent w ++ [mkChatRequest (model a)
                      [mkMessage "system" (system_prompt a);
                       mkMessage "user" prompt]].
Proof.
  unfold discussion_turn. simpl.
  match goal with |- context [generate_response _ _ a ?q ?c w] =>
    pose proof (generate_response_sent gateway clock a q c w) as Hs end.
  destruct (generate_response _ _ _ _ _ _) as [[response a'] w'].
  eexists _, response, a', w'. done.
Qed.

(** As soon as a call has a second turn to make, it raises [TypeError]
    there: the only request sent is the first agent's opening one, and the
    only entry added to the transcript is the first agent's. *)
Lemma structured_discussion_second_turn o topic rounds w :
  (2 <= length (agents o) * Z.to_nat rounds)%nat ->
  let '(out, o', w') := structured_discussion gateway clock o topic rounds w in
  out = Py.Raise join_error
  /\ exists a rest prompt response,
       agents o = a :: rest
       /\ discussion_prompt topic 0 rounds (research_topic o) []
            (specialty a) = Py.Return prompt
       /\ sent w'
          = sent w ++ [mkChatRequest (model a)
                         [mkMessage "system" (system_prompt a);
                          mkMessage "user" prompt]]
       /\ discussion_log o'
          = discussion_log o ++ [Discussion 1 (name a) topic response].
Proof.
  intros Hsize. unfold structured_discussion, Py.range.
  destruct (agents o) as [|a rest] eqn:Hagents; [simpl in Hsize; lia|].
  destruct (Z.to_nat rounds) as [|k] eqn:Hk; [lia|].
  change (seq 0 (S k)) with (0%nat :: seq 1 k).
  rewrite fmap_cons. cbn [fold_try]. change (Z.of_nat 0) with 0.
  unfold discussion_round at 1. rewrite Hagents. cbn [for_each_try].
  destruct (discussion_turn_opening topic rounds (research_topic o) a
              (discussion_log o) w)
    as (prompt & response & a' & w' & Hprompt & -> & Hs).
  destruct rest as [|b rest].
  - (* one agent: the round ends, the next one starts on a context *)
    cbn [for_each_try].
    destruct k as [|k]; [simpl in Hsize; lia|].
    change (seq 1 (S k)) with (1%nat :: seq 2 k).
    rewrite fmap_cons. cbn [fold_try].
    unfold discussion_round at 1. cbn [agents set_log set_agents for_each_try].
    rewrite discussion_turn_dict.
    split; [done|]. exists a, [], prompt, response. done.
  - (* a second agent: its turn starts on a context *)
    cbn [for_each_try]. rewrite discussion_turn_dict.
    split; [done|]. exists a, (b :: rest), prompt, response. done.
Qed.

End Session.

(** C8.  On the roster [A, B] with rounds = 1, whatever the gateway
    answers, [structured_discussion] raises [TypeError] while it builds B's
    prompt: the prompt joins the last items of [context] as text, and
    [context] by then holds the dictionary made of A's message.  B's call of
    [generate_response] never takes place: one request has been sent, A's,
    with no context message in it, and the transcript has gained A's entry
    only. *)
Theorem structured_discussion_two_agents gateway clock w :
  let '(out, o', w') := structured_discussion gateway clock two_agents "Y" 1 w in
  out = Py.Raise join_error
  /\ entry_agent <$> discussion_log o' = ["A"]
  /\ exists request,
       sent w' = sent w ++ [request]
       /\ role <$> chat_messages request = ["system"; "user"].
Proof.
  pose proof (structured_discussion_second_turn gateway clock two_agents "Y" 1 w)
    as H.
  destruct (structured_discussion _ _ _ _ _ _) as [[out o'] w'].
  destruct H as (Hout & a & rest & prompt & response & Hagents & _ & Hsent & Hlog);
    [simpl; lia|].
  injection Hagents as <- <-.
  split; [done|]. rewrite Hlog, Hsent. split; [done|].
  eexists. split; reflexivity.
Qed.

(** ** check_consensus *)

Lemma Qle_div_nat (t s : Z) (n : nat) :
  (0 < n)%nat ->
  (inject_Z t <= inject_Z s / inject_Z (Z.of_nat n))%Q <-> t * Z.of_nat n <= s.
Proof.
  intros Hn. destruct n as [|n]; [lia|].
  unfold Qle, Qdiv, Qmult, Qinv, inject_Z. simpl. lia.
Qed.

(** On a table that is not empty the answer is the comparison of
    target * count with the sum. *)
Lemma check_consensus_count o :
  satisfaction_scores o <> ∅ ->
  check_consensus o = true
  <-> target_satisfaction o * Z.of_nat (size (satisfaction_scores o))
      <= sum_values (satisfaction_scores o).
Proof.
  intros Hne. unfold check_consensus. rewrite decide_False by done.
  rewrite Qle_bool_iff. unfold avg_score. apply Qle_div_nat.
  apply map_size_non_empty_iff in Hne. lia.
Qed.

(** C6.  [check_consensus] returns false on an empty table; on any other
    table it returns true exactly when the arithmetic mean of the values is
    at least the target, that is, when target * count <= sum. *)
Theorem check_consensus_mean o :
  let values := (map_to_list (satisfaction_scores o)).*2 in
  (satisfaction_scores o = ∅ -> check_consensus o = false)
  /\ (satisfaction_scores o <> ∅ ->
      (check_consensus o = true
       <-> (inject_Z (target_satisfaction o) <= mean values)%Q)
      /\ (check_consensus o = true
          <-> target_satisfaction o * Z.of_nat (length values)
              <= foldr Z.add 0 values)).
Proof.
  intros values. split.
  - intros H. unfold check_consensus. by rewrite H, decide_True.
  - intros Hne.
    assert (Hlen : length values = size (satisfaction_scores o)).
    { unfold values. by rewrite length_fmap, length_map_to_list. }
    rewrite Hlen. split; [|by apply check_consensus_count].
    rewrite (check_consensus_count o Hne). unfold mean. rewrite Hlen.
    symmetry. apply Qle_div_nat.
    apply map_size_non_empty_iff in Hne. lia.
Qed.

(** The target of a fresh orchestrator is 8, and the examples of the
    specification at that target. *)
Example check_consensus_examples :
  target_satisfaction new_orchestrator = 8
  /\ check_consensus new_orchestrator = false
  /\ check_consensus (scored 9 9) = true
  /\ check_consensus (scored 9 6) = false.
Proof. vm_compute. auto. Qed.

(** *** The quotient as a binary64 number

    [round] stands for rounding to the nearest binary64 number; all that is
    used of it is that it is monotone and leaves the binary64 numbers
    [k / grid] alone. *)

Section Binary64.
Variable round : Q -> Q.
Hypothesis round_monotone : forall x y, (x <= y)%Q -> (round x <= round y)%Q.
Hypothesis round_exact :
  forall k : Z, Z.abs k <= 16 * Z.pos grid -> (round (k # grid) == k # grid)%Q.

Lemma round_below (x : Q) (k : Z) :
  Z.abs k <= 16 * Z.pos grid -> (x <= k # grid)%Q -> (round x <= k # grid)%Q.
Proof.
  intros Hk Hx. rewrite <- (round_exact k Hk). by apply round_monotone.
Qed.

Lemma round_above (x : Q) (k : Z) :
  Z.abs k <= 16 * Z.pos grid -> (k # grid <= x)%Q -> (k # grid <= round x)%Q.
Proof.
  intros Hk Hx. rewrite <- (round_exact k Hk). by apply round_monotone.
Qed.

(** For a sum [s] of [n <= 2^49] scores in [1,10], comparing an integer
    target with the rounded mean is comparing it with the mean. *)
Lemma round_compare (s t : Z) (n : positive) :
  Z.pos n <= Z.pos grid ->
  Z.pos n <= s <= 10 * Z.pos n ->
  (inject_Z t <= round (s # n))%Q <-> t * Z.pos n <= s.
Proof.
  intros Hn Hs. split.
  - intros Hle. destruct (Z_le_gt_dec (t * Z.pos n) s) as [|Hgt]; [done|].
    exfalso. destruct (Z_le_gt_dec 11 t) as [Hbig|Hsmall].
    + assert (H10 : (round (s # n) <= 10 * Z.pos grid # grid)%Q).
      { apply round_below; [unfold grid; lia|].
        unfold Qle. simpl. unfold grid in *. nia. }
      pose proof (Qle_trans _ _ _ Hle H10) as H.
      unfold Qle in H. simpl in H. unfold grid in *. lia.
    + assert (Hp : (round (s # n) <= t * Z.pos grid - 1 # grid)%Q).
      { apply round_below; [unfold grid; nia|].
        unfold Qle. simpl. unfold grid in *. nia. }
      pose proof (Qle_trans _ _ _ Hle Hp) as H.
      unfold Qle in H. simpl in H. unfold grid in *. lia.
  - intros Hle. destruct (Z_le_gt_dec t 1) as [Hsmall|Hbig].
    + assert (H1 : (1 * Z.pos grid # grid <= round (s # n))%Q).
      { apply round_above; [unfold grid; lia|].
        unfold Qle. simpl. unfold grid in *. nia. }
      eapply Qle_trans; [|exact H1].
      unfold Qle. simpl. unfold grid. lia.
    + assert (Ht : (t * Z.pos grid # grid <= round (s # n))%Q).
      { apply round_above; [unfold grid; nia|].
        unfold Qle. simpl. unfold grid in *. nia. }
      eapply Qle_trans; [|exact Ht].
      unfold Qle. simpl. unfold grid. lia.
Qed.

(** On a table of at most [2^49] scores in [1,10], [check_consensus] as
    modelled is the comparison Python makes on the rounded quotient. *)
Lemma check_consensus_rounded o (n : positive) :
  table_in_range (satisfaction_scores o) ->
  size (satisfaction_scores o) = Pos.to_nat n ->
  Z.pos n <= Z.pos grid ->
  check_consensus o = true
  <-> (inject_Z (target_satisfaction o)
       <= round (sum_values (satisfaction_scores o) # n))%Q.
Proof.
  intros Hrange Hsize Hn.
  assert (Hne : satisfaction_scores o <> ∅).
  { intros H. rewrite H, map_size_empty in Hsize. lia. }
  rewrite (check_consensus_count o Hne), Hsize, positive_nat_Z.
  pose proof (sum_values_bounds _ Hrange) as Hsum.
  rewrite Hsize, positive_nat_Z in Hsum.
  symmetry. apply round_compare; [done|].
  unfold sum_values in *. lia.
Qed.

End Binary64.

(** ** The theorems at concrete sessions *)

(** C1: the order the code does not follow.  With the roster [A, B] and two
    rounds the transcript reads A, B, A, B by rounds 1, 1, 2, 2; the
    roster-major, round-minor order would be A, A, B, B. *)
Lemma brainstorm_not_roster_major :
  let '(_, o', _) :=
    conduct_brainstorm_session (steady_gateway "idea") fixed_clock
      two_agents 2 new_world in
  turn_of <$> discussion_log o'
  = [(Some 1, "A"); (Some 1, "B"); (Some 2, "A"); (Some 2, "B")]
  /\ roster_major ["A"; "B"] 2
     = [(Some 1, "A"); (Some 2, "A"); (Some 1, "B"); (Some 2, "B")]
  /\ turn_of <$> discussion_log o' <> roster_major ["A"; "B"] 2.
Proof. vm_compute. repeat split; congruence. Qed.

Lemma brainstorm_appends_round_major_witness :
  0 <= 2
  /\ let '(results, o', _) :=
       conduct_brainstorm_session (steady_gateway "idea") fixed_clock
         two_agents 2 new_world in
     exists added,
       discussion_log o' = discussion_log two_agents ++ added
       /\ Z.of_nat (length added) = Z.of_nat (length (agents two_agents)) * 2
       /\ Forall (fun e => entry_type e = "brainstorm") added
       /\ turn_of <$> added = round_major (roster_names two_agents) 2
       /\ results = idea_of <$> added.
Proof.
  split; [lia|].
  apply (brainstorm_appends_round_major (steady_gateway "idea") fixed_clock
           two_agents 2 new_world).
  lia.
Defined.

(** C2: what B is not shown.  With the roster [A, B] and one round, A's
    idea is in the list the call returns, and B's prompt, the user message
    of the second request, does not contain it. *)
Lemma brainstorm_same_round_not_seen :
  let '(results, _, w') :=
    conduct_brainstorm_session (steady_gateway "alpha") fixed_clock
      two_agents 1 new_world in
  results = ["[A]: alpha"; "[B]: alpha"]
  /\ exists request prompt,
       sent w' !! 1%nat = Some request
       /\ last (chat_messages request) = Some (mkMessage "user" prompt)
       /\ contains "[A]: alpha" prompt = false.
Proof.
  vm_compute. split; [reflexivity|]. eexists _, _.
  split; [reflexivity|]. split; [reflexivity|]. vm_compute. reflexivity.
Qed.

(** In round 2 of two, B's prompt is built on the two ideas of round 1. *)
Lemma brainstorm_prompts_from_round_snapshot_witness :
  let '(results, _, w') :=
    conduct_brainstorm_session counting_gateway fixed_clock two_agents 2
      new_world in
  (1 < Z.to_nat 2)%nat
  /\ agents two_agents !! 1%nat = Some (new_agent "B" "practice" "llama3.1")
  /\ take (1 * 2) results = ["[A]: idea 0"; "[B]: idea 1"]
  /\ exists request,
       sent w' !! 3%nat = Some request
       /\ last (chat_messages request)
          = Some (mkMessage "user"
                    (brainstorm_prompt "X" 1 2 ["[A]: idea 0"; "[B]: idea 1"]
                       "practice")).
Proof.
  pose proof (brainstorm_prompts_from_round_snapshot counting_gateway
                fixed_clock two_agents 2 new_world) as H.
  cbv zeta in H.
  destruct (conduct_brainstorm_session _ _ _ _ _) as [[results o'] w'] eqn:E.
  vm_compute in E. injection E as <- _ <-.
  destruct H as (requests & Hsent & _ & H).
  simpl in Hsent. subst requests.
  split; [simpl; lia|]. split; [reflexivity|]. split; [reflexivity|].
  destruct (H 1%nat 1%nat (new_agent "B" "practice" "llama3.1")) as [Hreq _];
    [simpl; lia|reflexivity|].
  eexists. split; [exact Hreq|]. reflexivity.
Defined.

(** C4: a failed call.  The agent's history does not grow and the error
    text is what the call returns. *)
Lemma respond_failure_skips_history :
  let a := new_agent "A" "theory" "llama3.1" in
  let out :=
    generate_response (failing_gateway "connection refused") fixed_clock
      a "hello" None new_world in
  out.1.1 = "Error generating response: connection refused"
  /\ conversation_history out.1.2 = conversation_history a
  /\ length (conversation_history out.1.2)
     <> S (length (conversation_history a)).
Proof. vm_compute. repeat split; congruence. Qed.

(** C7: a response with blanks around it is not stored verbatim. *)
Lemma revise_instructions_strips :
  let a := new_agent "A" "theory" "llama3.1" in
  let text := "  Be brief.  " in
  let a' :=
    (improve_system_prompt (steady_gateway text) some_mark a None
       new_world).1.2 in
  system_prompt a' = "Be brief." /\ system_prompt a' <> text.
Proof. vm_compute. split; congruence. Qed.

Lemma revise_instructions_success_witness :
  let a := new_agent "A" "theory" "llama3.1" in
  let gateway := steady_gateway "  Be brief.  " in
  gateway (sent new_world) (improvement_request a None)
  = Content "  Be brief.  "
  /\ (let a' :=
        (improve_system_prompt gateway some_mark a None new_world).1.2 in
      improvement_count a' = improvement_count a + 1
      /\ system_prompt a' = Py.strip "  Be brief.  "
      /\ conversation_history a' = conversation_history a
      /\ research_notes a' = research_notes a).
Proof.
  split; [reflexivity|].
  apply (revise_instructions_success (steady_gateway "  Be brief.  ")
           some_mark (new_agent "A" "theory" "llama3.1") None new_world "  Be brief.  ").
  reflexivity.
Defined.

Lemma revise_instructions_failure_witness :
  let a := new_agent "A" "theory" "llama3.1" in
  let gateway := failing_gateway "model not found" in
  gateway (sent new_world) (improvement_request a None)
  = ChatFailed "model not found"
  /\ (let '(report, a', _) :=
        improve_system_prompt gateway some_mark a None new_world in
      report = "Error improving prompt: " +:+ "model not found"
      /\ a' = a
      /\ system_prompt a' = system_prompt a
      /\ improvement_count a' = improvement_count a
      /\ conversation_history a' = conversation_history a
      /\ research_notes a' = research_notes a).
Proof.
  split; [reflexivity|].
  apply (revise_instructions_failure (failing_gateway "model not found")
           some_mark (new_agent "A" "theory" "llama3.1") None new_world
           "model not found").
  reflexivity.
Defined.

(** C5 on the roster [A, B]: a gateway that answers "garbage" leaves 5 for
    both agents, one that fails does too, and answers that start with a
    number leave that number clamped. *)
Example evaluate_satisfaction_examples :
  let table answer :=
    map_to_list
      (evaluate_satisfaction (steady_gateway answer) fixed_clock 4300
         two_agents new_world).1.1 in
  table "garbage" = [("A", 5); ("B", 5)]
  /\ table "7" = [("A", 7); ("B", 7)]
  /\ table "8/10, good progress" = [("A", 10); ("B", 10)]
  /\ table "0" = [("A", 1); ("B", 1)]
  /\ table "Rating: 9" = [("A", 5); ("B", 5)]
  /\ map_to_list
       (evaluate_satisfaction (failing_gateway "timeout") fixed_clock 4300
          two_agents new_world).1.1
     = [("A", 5); ("B", 5)].
Proof. vm_compute. repeat split; reflexivity. Qed.


Lemma check_consensus_mean_witness :
  satisfaction_scores (scored 9 9) <> ∅
  /\ check_consensus (scored 9 9) = true
  /\ satisfaction_scores (scored 9 6) <> ∅
  /\ check_consensus (scored 9 6) <> true
  /\ satisfaction_scores new_orchestrator = ∅
  /\ check_consensus new_orchestrator = false.
Proof.
  assert (H99 : satisfaction_scores (scored 9 9) <> ∅).
  { intros H. apply (f_equal (fun m => m !! "A")) in H. vm_compute in H.
    discriminate H. }
  assert (H96 : satisfaction_scores (scored 9 6) <> ∅).
  { intros H. apply (f_equal (fun m => m !! "A")) in H. vm_compute in H.
    discriminate H. }
  split; [exact H99|]. split.
  { apply (proj2 (check_consensus_mean (scored 9 9)) H99). vm_compute.
    discriminate. }
  split; [exact H96|]. split.
  { intros H. apply (proj2 (check_consensus_mean (scored 9 6)) H96) in H.
    vm_compute in H. apply H. reflexivity. }
  split; [reflexivity|].
  apply (proj1 (check_consensus_mean new_orchestrator)). reflexivity.
Defined.

(** C9 after Register A, Register B and an evaluation on a gateway that is
    down: the table has the keys A and B. *)
Lemma satisfaction_keys_follow_roster_witness :
  let perform_ :=
    perform (failing_gateway "down") fixed_clock fixed_clock no_network
      no_json 4300 same_name always_opens some_mark in
  let s1 := perform_ (AddAgent "A" "theory" "llama3.1") new_orchestrator new_world in
  let s2 := perform_ (AddAgent "B" "practice" "llama3.1") s1.1 s1.2 in
  let s3 := perform_ EvaluateSatisfaction s2.1 s2.2 in
  reachable (failing_gateway "down") fixed_clock fixed_clock no_network
    no_json 4300 same_name always_opens some_mark s3.1 s3.2
  /\ keys_follow_roster s3.1
  /\ roster_names s3.1 = ["A"; "B"]
  /\ map_to_list (satisfaction_scores s3.1) = [("A", 5); ("B", 5)].
Proof.
  intros perform_ s1 s2 s3.
  assert (Hreach : reachable (failing_gateway "down") fixed_clock fixed_clock
                     no_network no_json 4300 same_name
                       always_opens some_mark s3.1 s3.2).
  { repeat apply reachable_call. apply reachable_new. }
  split; [exact Hreach|]. split.
  - exact (proj1 (satisfaction_keys_follow_roster (failing_gateway "down")
                    fixed_clock fixed_clock no_network no_json 4300 same_name
                      always_opens some_mark
                    s3.1 s3.2 Hreach)).
  - vm_compute. split; reflexivity.
Defined.

(** * Further properties of the code *)

(** ** A session only grows *)

Lemma agent_grows_refl a : agent_grows a a.
Proof. unfold agent_grows. repeat split; try done; lia. Qed.

Lemma agent_grows_trans a b c :
  agent_grows a b -> agent_grows b c -> agent_grows a c.
Proof.
  intros (?&?&?&?&?&?) (?&?&?&?&?&?). unfold agent_grows.
  repeat split; try congruence; try (etrans; eassumption); lia.
Qed.

Lemma roster_grows_same l l' : Forall2 agent_grows l l' -> roster_grows l l'.
Proof. intros H. exists l', []. by rewrite app_nil_r. Qed.

Lemma agents_grow_refl l : Forall2 agent_grows l l.
Proof.
  apply Forall2_same_length_lookup_2; [done|].
  intros i a b Ha Hb. rewrite Ha in Hb. injection Hb as <-.
  apply agent_grows_refl.
Qed.

Lemma roster_grows_refl l : roster_grows l l.
Proof. apply roster_grows_same, agents_grow_refl. Qed.

Lemma roster_grows_trans l1 l2 l3 :
  roster_grows l1 l2 -> roster_grows l2 l3 -> roster_grows l1 l3.
Proof.
  intros (o1 & n1 & -> & H1) (o2 & n2 & -> & H2).
  apply Forall2_app_inv_l in H2 as (o2a & o2b & Ha & Hb & ->).
  exists o2a, (o2b ++ n2). split; [by rewrite app_assoc|].
  eapply Forall2_trans; [|exact H1|exact Ha].
  intros ???. apply agent_grows_trans.
Qed.

Lemma roster_grows_insert l i a a' :
  l !! i = Some a -> agent_grows a a' -> roster_grows l (<[i := a']> l).
Proof.
  intros Hi Ha. apply roster_grows_same.
  apply Forall2_same_length_lookup_2; [by rewrite length_insert|].
  intros j x y Hx Hy. destruct (decide (i = j)) as [->|Hne].
  - rewrite list_lookup_insert_eq in Hy by (by apply lookup_lt_Some in Hi).
    rewrite Hi in Hx. injection Hx as <-. by injection Hy as <-.
  - rewrite list_lookup_insert_ne in Hy by done.
    rewrite Hx in Hy. injection Hy as <-. apply agent_grows_refl.
Qed.

Lemma world_grows_refl w : world_grows w w.
Proof. unfold world_grows. repeat split; done. Qed.

Lemma world_grows_trans w1 w2 w3 :
  world_grows w1 w2 -> world_grows w2 w3 -> world_grows w1 w3.
Proof.
  intros (?&?&?&?) (?&?&?&?). unfold world_grows.
  repeat split; try (etrans; eassumption); lia.
Qed.

Lemma session_grows_refl s : session_grows s s.
Proof.
  split; [apply roster_grows_refl|]. do 5 (split; [done|]).
  apply world_grows_refl.
Qed.

Lemma session_grows_trans s1 s2 s3 :
  session_grows s1 s2 -> session_grows s2 s3 -> session_grows s1 s3.
Proof.
  intros (?&?&?&?&?&?&?) (?&?&?&?&?&?&?).
  split; [eapply roster_grows_trans; eassumption|].
  do 3 (split; [etrans; eassumption|]). split; [congruence|].
  split; [etrans; eassumption|]. eapply world_grows_trans; eassumption.
Qed.

Section Loops2.
Context {A S : Type} (R : A -> A -> Prop).

Lemma for_each_Forall2 (body : A -> S -> A * S) (l : list A) (s : S) :
  (forall a s0, R a (body a s0).1) ->
  Forall2 R l (for_each body l s).1.
Proof.
  intros Hbody. revert s.
  induction l as [|a l IH]; intros s; simpl; [constructor|].
  specialize (Hbody a s). destruct (body a s) as [a' s1].
  specialize (IH s1). destruct (for_each body l s1) as [l' s2].
  by constructor.
Qed.

Lemma for_each_try_Forall2 (body : A -> S -> A * S * option Py.exn)
    (l : list A) (s : S) :
  (forall a, R a a) ->
  (forall a s0, R a (body a s0).1.1) ->
  Forall2 R l (for_each_try body l s).1.1.
Proof.
  intros Hrefl Hbody. revert s.
  induction l as [|a l IH]; intros s; simpl; [constructor|].
  specialize (Hbody a s). destruct (body a s) as [[a' s1] [e|]].
  - constructor; [done|]. apply Forall2_same_length_lookup_2; [done|].
    intros i x y Hx Hy. rewrite Hx in Hy. by injection Hy as <-.
  - specialize (IH s1). destruct (for_each_try body l s1) as [[l' s2] r].
    by constructor.
Qed.

Lemma for_each_state (P : S -> Prop) (body : A -> S -> A * S) (l : list A) (s : S) :
  (forall a s0, P s0 -> P (body a s0).2) ->
  P s -> P (for_each body l s).2.
Proof.
  intros Hbody. revert s.
  induction l as [|a l IH]; intros s Hs; simpl; [done|].
  specialize (Hbody a s Hs). destruct (body a s) as [a' s1].
  specialize (IH s1 Hbody). by destruct (for_each body l s1) as [l' s2].
Qed.

Lemma for_each_try_state (P : S -> Prop)
    (body : A -> S -> A * S * option Py.exn) (l : list A) (s : S) :
  (forall a s0, P s0 -> P (body a s0).1.2) ->
  P s -> P (for_each_try body l s).1.2.
Proof.
  intros Hbody. revert s.
  induction l as [|a l IH]; intros s Hs; simpl; [done|].
  specialize (Hbody a s Hs). destruct (body a s) as [[a' s1] [e|]]; [done|].
  specialize (IH s1 Hbody). by destruct (for_each_try body l s1) as [[l' s2] r].
Qed.
End Loops2.

Lemma and_then_grows {X Y} (m : Method X) (k : X -> Method Y) :
  grows_method m -> (forall x, grows_method (k x)) ->
  grows_method (and_then m k).
Proof.
  intros Hm Hk o w. unfold and_then.
  specialize (Hm o w). destruct (m o w) as [[[x|e] o1] w1]; simpl in *.
  - eapply session_grows_trans; [exact Hm|]. apply Hk.
  - done.
Qed.

Section Growth.
Variable gateway : list ChatRequest -> ChatRequest -> ChatReply.
Variables clock clock_str : nat -> string.
Variable http_get : list (string * Z) -> string -> Z -> HttpReply.
Variable json_dumps : list SearchResult -> string.
Variable int_max_str_digits : nat.
Variable saved_name : list LatexCall -> string -> string.
Variable open_file : list (string * SessionData) -> string -> option string.
Variable improved_mark : string.

Lemma generate_response_grows a prompt context w :
  agent_grows a (generate_response gateway clock a prompt context w).1.2
  /\ world_grows w (generate_response gateway clock a prompt context w).2.
Proof.
  unfold generate_response, chat, agent_grows, world_grows. simpl.
  destruct (gateway _ _); simpl; repeat split;
    try done; try lia; by apply prefix_app_r.
Qed.

Lemma improve_system_prompt_grows a feedback w :
  agent_grows a (improve_system_prompt gateway improved_mark a feedback w).1.2
  /\ world_grows w (improve_system_prompt gateway improved_mark a feedback w).2.
Proof.
  unfold improve_system_prompt, chat, agent_grows, world_grows. simpl.
  destruct (gateway _ _); simpl; repeat split;
    try done; try lia; by apply prefix_app_r.
Qed.

Lemma add_research_note_grows a note w :
  agent_grows a (add_research_note clock a note w).1
  /\ world_grows w (add_research_note clock a note w).2.
Proof.
  unfold add_research_note, agent_grows, world_grows. simpl.
  repeat split; try done; try lia; by apply prefix_app_r.
Qed.

Ltac with_response :=
  match goal with
  | |- context [generate_response ?g ?c ?a ?p ?ctx ?w] =>
      let Ha := fresh "Hgrow" in
      let Hw := fresh "Hworld" in
      pose proof (generate_response_grows a p ctx w) as [Ha Hw];
      destruct (generate_response g c a p ctx w) as [[? ?] ?];
      simpl in Ha, Hw
  end.

Lemma session_grows_turns o w agents' log' w' :
  roster_grows (agents o) agents' ->
  discussion_log o `prefix_of` log' ->
  world_grows w w' ->
  session_grows (o, w) (set_log (set_agents o agents') log', w').
Proof. intros Ha Hl Hw. split; [exact Ha|]. by do 5 (split; [done|]). Qed.

Lemma brainstorm_grows o rounds w :
  let '(_, o', w') := conduct_brainstorm_session gateway clock o rounds w in
  session_grows (o, w) (o', w').
Proof.
  unfold conduct_brainstorm_session.
  apply (fold_left_state
           (fun st : list string * ResearchOrchestrator * World =>
              let '(_, o', w') := st in session_grows (o, w) (o', w')));
    [|apply session_grows_refl].
  intros round_num [[results o1] w1] H1. unfold brainstorm_round.
  pose proof (for_each_Forall2 agent_grows
    (brainstorm_turn gateway clock (research_topic o1) round_num rounds results)
    (agents o1) ([], discussion_log o1, w1)) as Hagents.
  pose proof (for_each_state
    (fun st : list string * list LogEntry * World =>
       discussion_log o1 `prefix_of` st.1.2 /\ world_grows w1 st.2)
    (brainstorm_turn gateway clock (research_topic o1) round_num rounds results)
    (agents o1) ([], discussion_log o1, w1)) as Hstate.
  destruct (for_each _ _ _) as [agents' [[ideas log] w']]. simpl in *.
  eapply session_grows_trans; [exact H1|].
  destruct Hstate as [Hlog Hworld].
  - intros a [[i l] w0] [Hl Hw]. unfold brainstorm_turn. with_response.
    simpl. split; [by apply prefix_app_r|].
    eapply world_grows_trans; eassumption.
  - split; [done|apply world_grows_refl].
  - apply session_grows_turns; [|done|done].
    apply roster_grows_same, Hagents.
    intros a [[i l] w0]. unfold brainstorm_turn. by with_response.
Qed.

Lemma search_arxiv_grows t query k w :
  search_history t
    `prefix_of` search_history (search_arxiv clock_str http_get t query k w).1.2
  /\ world_grows w (search_arxiv clock_str http_get t query k w).2.
Proof.
  unfold search_arxiv, get, world_grows. simpl.
  destruct (http_get _ _ _) as [code|e]; [destruct (code =? 200)|]; simpl;
    repeat split; try done; try lia; by apply prefix_app_r.
Qed.

Lemma research_grows o queries w :
  let '(_, o', w') :=
    conduct_research_phase gateway clock clock_str http_get json_dumps
      o queries w in
  session_grows (o, w) (o', w').
Proof.
  unfold conduct_research_phase.
  pose proof (fold_try_state
    (fun st : gmap string (list SearchResult) * ResearchOrchestrator * World =>
       session_grows (o, w) (st.1.2, st.2))
    (research_step gateway clock clock_str http_get json_dumps)
    queries (∅, o, w)) as H.
  assert (Hstep : forall i s0, session_grows (o, w) (s0.1.2, s0.2) ->
            session_grows (o, w)
              ((research_step gateway clock clock_str http_get json_dumps
                  i s0).1.1.2,
               (research_step gateway clock clock_str http_get json_dumps
                  i s0).1.2)).
  { intros query [[res o1] w1] H1. simpl in H1. unfold research_step.
    destruct (agents o1 !! 0%nat) as [agent|] eqn:Hagent; [|done].
    pose proof (search_arxiv_grows (search_tool o1) query 3 w1) as [Hs Hw1].
    destruct (search_arxiv _ _ _ _ _ _) as [[found tool] w2].
    with_response.
    match goal with |- context [add_research_note _ ?a ?n ?w0] =>
      pose proof (add_research_note_grows a n w0) as [Hnote Hw3] end.
    destruct (add_research_note _ _ _ _) as [agent2 w3].
    simpl in *. eapply session_grows_trans; [exact H1|].
    split; [|split; [|split; [|split; [|split; [|split]]]]]; simpl; try done.
    - apply (roster_grows_insert _ _ agent); [done|].
      eapply agent_grows_trans; eassumption.
    - by apply prefix_app_r.
    - eapply world_grows_trans; [exact Hw1|].
      eapply world_grows_trans; eassumption. }
  destruct (fold_try _ _ _) as [[[results o'] w'] [e|]]; simpl in *;
    apply H; auto using session_grows_refl.
Qed.

Lemma discussion_grows o topic rounds w :
  let '(_, o', w') := structured_discussion gateway clock o topic rounds w in
  session_grows (o, w) (o', w').
Proof.
  unfold structured_discussion.
  pose proof (fold_try_state
    (fun st : list string * list Message * ResearchOrchestrator * World =>
       session_grows (o, w) (st.1.2, st.2))
    (discussion_round gateway clock topic rounds)
    (Py.range rounds) ([], [], o, w)) as H.
  assert (Hstep : forall i s0, session_grows (o, w) (s0.1.2, s0.2) ->
            session_grows (o, w)
              ((discussion_round gateway clock topic rounds i s0).1.1.2,
               (discussion_round gateway clock topic rounds i s0).1.2)).
  { intros round_num [[[discussion context] o1] w1] H1. simpl in H1.
    unfold discussion_round.
    pose proof (for_each_try_Forall2 agent_grows
      (discussion_turn gateway clock topic round_num rounds (research_topic o1))
      (agents o1) (discussion, context, discussion_log o1, w1)
      agent_grows_refl) as Hagents.
    pose proof (for_each_try_state
      (fun st : list string * list Message * list LogEntry * World =>
         discussion_log o1 `prefix_of` st.1.2 /\ world_grows w1 st.2)
      (discussion_turn gateway clock topic round_num rounds (research_topic o1))
      (agents o1) (discussion, context, discussion_log o1, w1)) as Hstate.
    destruct (for_each_try _ _ _) as [[agents' [[[d c] log] w']] r].
    simpl in *. eapply session_grows_trans; [exact H1|].
    destruct Hstate as [Hlog Hworld].
    - intros a [[[d0 c0] l0] w0] [Hl Hw]. unfold discussion_turn.
      destruct (discussion_prompt _ _ _ _ _ _) as [prompt|e]; [|done].
      with_response. simpl. split; [by apply prefix_app_r|].
      eapply world_grows_trans; eassumption.
    - split; [done|apply world_grows_refl].
    - apply session_grows_turns; [|done|done].
      apply roster_grows_same, Hagents.
      intros a [[[d0 c0] l0] w0]. unfold discussion_turn.
      destruct (discussion_prompt _ _ _ _ _ _) as [prompt|e];
        [|apply agent_grows_refl].
      by with_response. }
  destruct (fold_try _ _ _) as [[[[discussion context] o'] w'] [e|]];
    simpl in *; apply H; auto using session_grows_refl.
Qed.

Lemma evaluate_grows o w :
  let '(_, o', w') :=
    evaluate_satisfaction gateway clock int_max_str_digits o w in
  session_grows (o, w) (o', w').
Proof.
  unfold evaluate_satisfaction.
  pose proof (for_each_Forall2 agent_grows
    (evaluate_turn gateway clock int_max_str_digits (research_topic o)
       (length (discussion_log o)))
    (agents o) (satisfaction_scores o, w)) as Hagents.
  pose proof (for_each_state
    (fun st : gmap string Z * World =>
       dom (satisfaction_scores o) ⊆@{gset string} dom st.1
       /\ world_grows w st.2)
    (evaluate_turn gateway clock int_max_str_digits (research_topic o)
       (length (discussion_log o)))
    (agents o) (satisfaction_scores o, w)) as Hstate.
  destruct (for_each _ _ _) as [agents' [scores w']]. simpl in *.
  destruct Hstate as [Hdom Hworld].
  - intros a [m w0] [Hm Hw]. unfold evaluate_turn. with_response. simpl.
    split; [rewrite dom_insert_L; set_solver|].
    eapply world_grows_trans; eassumption.
  - split; [done|apply world_grows_refl].
  - split; [|by do 5 (split; [done|])].
    apply roster_grows_same, Hagents.
    intros a [m w0]. unfold evaluate_turn. by with_response.
Qed.

Lemma improvement_grows o w :
  let '(_, o', w') := trigger_self_improvement gateway improved_mark o w in
  session_grows (o, w) (o', w').
Proof.
  unfold trigger_self_improvement.
  match goal with |- context [for_each ?b ?l ?s] =>
    pose proof (for_each_Forall2 agent_grows b l s) as Hagents;
    pose proof (for_each_state
      (fun st : list (string * string) * World => world_grows w st.2) b l s)
      as Hstate
  end.
  destruct (for_each _ _ _) as [agents' [results w']]. simpl in *.
  split; [|do 5 (split; [done|])].
  - apply roster_grows_same, Hagents.
    intros a [res w0]. unfold improvement_turn.
    match goal with |- context [improve_system_prompt _ _ a ?f w0] =>
      pose proof (improve_system_prompt_grows a f w0) as [Hg _] end.
    by destruct (improve_system_prompt _ _ _ _ _) as [[r a'] w2].
  - apply Hstate; [|apply world_grows_refl].
    intros a [res w0] Hw. unfold improvement_turn.
    match goal with |- context [improve_system_prompt _ _ a ?f w0] =>
      pose proof (improve_system_prompt_grows a f w0) as [_ Hg] end.
    destruct (improve_system_prompt _ _ _ _ _) as [[r a'] w2]. simpl in *.
    eapply world_grows_trans; eassumption.
Qed.

Lemma ask_grows i prompt : grows_method (ask gateway clock i prompt).
Proof.
  intros o w. unfold ask.
  destruct (agents o !! i) as [agent|] eqn:Hagent;
    [|apply session_grows_refl].
  with_response. simpl.
  split; [by apply (roster_grows_insert _ _ agent)|].
  by do 5 (split; [done|]).
Qed.

Lemma methodology_grows : grows_method (methodology gateway clock).
Proof.
  intros o w. unfold methodology.
  match goal with |- context [for_each ?b ?l ?s] =>
    pose proof (for_each_Forall2 agent_grows b l s) as Hagents;
    pose proof (for_each_state
      (fun st : list string * World => world_grows w st.2) b l s) as Hstate
  end.
  destruct (for_each _ _ _) as [agents' [parts w']]. simpl in *.
  split; [|do 5 (split; [done|])].
  - apply roster_grows_same, Hagents.
    intros a [p w0]. unfold methodology_turn. by with_response.
  - apply Hstate; [|apply world_grows_refl].
    intros a [p w0] Hw. unfold methodology_turn. with_response. simpl.
    eapply world_grows_trans; eassumption.
Qed.

Lemma sections_grow : grows_method (generate_paper_sections gateway clock).
Proof.
  unfold generate_paper_sections.
  repeat (apply and_then_grows; [|intros ?]);
    try apply ask_grows; try apply methodology_grows;
    intros o w; apply session_grows_refl.
Qed.

Lemma compile_grows : grows_method (compile_final_paper gateway clock saved_name).
Proof.
  unfold compile_final_paper.
  apply and_then_grows; [apply sections_grow|].
  intros sections o w. simpl.
  split; [apply roster_grows_refl|]. do 2 (split; [done|]).
  split; [|do 2 (split; [done|]); apply world_grows_refl].
  rewrite <- app_assoc. by apply prefix_app_r.
Qed.

Lemma export_grows filename :
  grows_method (export_session_log clock open_file filename).
Proof.
  intros o w. unfold export_session_log, now. simpl.
  destruct (open_file _ _) as [reason|]; simpl;
    (split; [apply roster_grows_refl|]); do 5 (split; [done|]);
    unfold world_grows; simpl; (split; [done|]); (split; [lia|]);
    (split; [done|]); [done|by apply prefix_app_r].
Qed.

Lemma on_agent_grows {X} i
    (f : ResearchAgent -> World -> X * ResearchAgent * World) o w :
  (forall a w0, agent_grows a (f a w0).1.2 /\ world_grows w0 (f a w0).2) ->
  session_grows (o, w) (on_agent i f o w).
Proof.
  intros Hf. unfold on_agent.
  destruct (agents o !! i) as [agent|] eqn:Hagent;
    [|apply session_grows_refl].
  destruct (Hf agent w) as [Ha Hw]. destruct (f agent w) as [[x a'] w'].
  split; [by apply (roster_grows_insert _ _ agent)|].
  by do 5 (split; [done|]).
Qed.

Lemma add_agent_grows o nm spec mdl w :
  session_grows (o, w) ((add_agent o nm spec mdl).2, w).
Proof.
  split; [|do 4 (split; [done|]); split; [|apply world_grows_refl]].
  - exists (agents o), [new_agent nm spec mdl]. split; [done|].
    apply agents_grow_refl.
  - simpl. rewrite dom_insert_L. set_solver.
Qed.

Lemma perform_grows c o w :
  session_grows (o, w)
    (perform gateway clock clock_str http_get json_dumps int_max_str_digits
       saved_name open_file improved_mark c o w).
Proof.
  destruct c; simpl.
  - apply add_agent_grows.
  - unfold initialize_default_team. cbv zeta.
    repeat (eapply session_grows_trans; [|apply add_agent_grows]).
    apply session_grows_refl.
  - split; [apply roster_grows_refl|]. do 5 (split; [done|]).
    apply world_grows_refl.
  - pose proof (brainstorm_grows o rounds w) as H.
    by destruct (conduct_brainstorm_session _ _ _ _ _) as [[r o'] w'].
  - pose proof (research_grows o search_queries w) as H.
    by destruct (conduct_research_phase _ _ _ _ _ _ _ _) as [[r o'] w'].
  - pose proof (discussion_grows o topic rounds w) as H.
    by destruct (structured_discussion _ _ _ _ _ _) as [[r o'] w'].
  - pose proof (evaluate_grows o w) as H.
    by destruct (evaluate_satisfaction _ _ _ _ _) as [[r o'] w'].
  - apply session_grows_refl.
  - pose proof (sections_grow o w) as H.
    destruct (generate_paper_sections _ _ _ _) as [[r o'] w']. exact H.
  - pose proof (compile_grows o w) as H.
    destruct (compile_final_paper _ _ _ _ _) as [[r o'] w']. exact H.
  - pose proof (export_grows filename o w) as H.
    by destruct (export_session_log _ _ _ _ _) as [[r o'] w'].
  - pose proof (improvement_grows o w) as H.
    by destruct (trigger_self_improvement _ _ _ _) as [[r o'] w'].
  - apply on_agent_grows. intros. apply generate_response_grows.
  - apply on_agent_grows. intros. apply improve_system_prompt_grows.
  - apply on_agent_grows. intros a w0.
    exact (add_research_note_grows a note w0).
Qed.

(** X1.  Whatever calls a driver makes, and in whatever order, a session
    only grows.  The roster keeps its agents at their places and gains new
    ones behind them; every agent keeps its name, specialty and model, its
    conversation history and its notes are only appended to, and its
    improvement count never goes down.  The transcript, the search history,
    the calls made on the paper generator, the requests sent, the searches
    fetched and the files written are only appended to; no key leaves the
    satisfaction table; the target is never changed. *)
Theorem session_only_grows calls s :
  session_grows s
    (run gateway clock clock_str http_get json_dumps int_max_str_digits
       saved_name open_file improved_mark calls s).
Proof.
  unfold run. revert s. induction calls as [|c calls IH]; intros s; simpl.
  - apply session_grows_refl.
  - eapply session_grows_trans; [|apply IH].
    destruct s as [o w]. apply perform_grows.
Qed.
End Growth.

(** ** conduct_research_phase, query by query *)

Section Research.
Variable gateway : list ChatRequest -> ChatRequest -> ChatReply.
Variables clock clock_str : nat -> string.
Variable http_get : list (string * Z) -> string -> Z -> HttpReply.
Variable json_dumps : list SearchResult -> string.

Lemma search_arxiv_fetched t query k w :
  fetched (search_arxiv clock_str http_get t query k w).2
  = fetched w ++ [(query, k)]
  /\ sent (search_arxiv clock_str http_get t query k w).2 = sent w
  /\ length (search_arxiv clock_str http_get t query k w).1.1 = 1%nat.
Proof.
  unfold search_arxiv, get. simpl.
  by destruct (http_get _ _ _) as [code|e]; [destruct (code =? 200)|].
Qed.

(** The loop over the queries on a roster whose first agent is [a]. *)
Lemma research_loop queries : forall a rest o w results,
  agents o = a :: rest ->
  exists a' analyses notes,
    let '(results', o', w', r) :=
      fold_try (research_step gateway clock clock_str http_get json_dumps)
        queries (results, o, w) in
    r = None
    /\ agents o' = a' :: rest
    /\ name a' = name a /\ specialty a' = specialty a /\ model a' = model a
    /\ system_prompt a' = system_prompt a
    /\ improvement_count a' = improvement_count a
    /\ research_notes a' = research_notes a ++ notes
    /\ n_note <$> notes = zip_with research_note queries analyses
    /\ length analyses = length queries
    /\ discussion_log o'
       = discussion_log o ++ research_entries (name a) queries analyses
    /\ dom results' =@{gset string} dom results ∪ list_to_set queries
    /\ fetched w' = fetched w ++ ((fun q => (q, 3)) <$> queries)
    /\ length (sent w') = (length (sent w) + length queries)%nat
    /\ research_topic o' = research_topic o
    /\ satisfaction_scores o' = satisfaction_scores o
    /\ target_satisfaction o' = target_satisfaction o
    /\ latex_generator o' = latex_generator o.
Proof.
  induction queries as [|query queries IH]; intros a rest o w results Hagents.
  { exists a, [], []. simpl. rewrite !app_nil_r.
    repeat split; try done. set_solver. }
  simpl. unfold research_step at 1. rewrite Hagents. simpl.
  pose proof (search_arxiv_fetched (search_tool o) query 3 w) as (Hf & Hs & _).
  destruct (search_arxiv _ _ _ _ _ _) as [[found tool] w1]. simpl in Hf, Hs.
  match goal with |- context [generate_response _ _ a ?q None w1] =>
    pose proof (generate_response_frame gateway clock a q None w1) as [h Hh];
    pose proof (generate_response_sent gateway clock a q None w1) as Hsent;
    assert (Hfetch : fetched (generate_response gateway clock a q None w1).2
                     = fetched w1)
      by (unfold generate_response, chat; simpl; by destruct (gateway _ _))
  end.
  destruct (generate_response _ _ _ _ _ _) as [[analysis a1] w2].
  simpl in Hh, Hsent, Hfetch. subst a1. simpl.
  set (a2 := set_notes (set_history a h) _).
  set (o1 := set_log _ _).
  destruct (IH a2 rest o1 (mkWorld (sent w2) (S (clock_reads w2)) (fetched w2)
                             (written w2))
              (<[query := found]> results))
    as (a' & analyses & notes & IH').
  { by subst o1. }
  exists a', (analysis :: analyses), (mkNote (clock (clock_reads w2))
                                          (research_note query analysis) :: notes).
  destruct (fold_try _ _ _) as [[[results' o'] w'] r].
  destruct IH' as (-> & Hag & Hn & Hsp & Hm & Hsys & Hcount & Hnotes & Hnn & Hlen
                   & Hlog & Hdom & Hfet & Hsn & Htop & Hsc & Htg & Hlx).
  repeat split; try done.
  - rewrite Hnotes. simpl. by rewrite <- app_assoc.
  - csimpl. by rewrite Hnn.
  - simpl. by rewrite Hlen.
  - rewrite Hlog. simpl. by rewrite <- app_assoc.
  - rewrite Hdom, dom_insert_L. set_solver.
  - rewrite Hfet. simpl. rewrite Hfetch, Hf, <- app_assoc. done.
  - rewrite Hsn. simpl. rewrite Hsent, Hs, length_app. simpl. lia.
Qed.
End Research.

(** ** What the calls add to the transcript *)

Lemma and_then_keeps_log {X Y} (m : Method X) (k : X -> Method Y) :
  keeps_log m -> (forall x, keeps_log (k x)) -> keeps_log (and_then m k).
Proof.
  intros Hm Hk o w. unfold and_then. specialize (Hm o w).
  destruct (m o w) as [[[x|e] o1] w1]; simpl in *; [|done].
  by rewrite Hk.
Qed.

Lemma research_entries_spec agent queries : forall analyses,
  Forall (fun e => entry_type e = "research" /\ entry_agent e = agent)
    (research_entries agent queries analyses)
  /\ (length (research_entries agent queries analyses) <= length queries)%nat.
Proof.
  unfold research_entries.
  induction queries as [|q queries IH]; intros [|x analyses]; simpl;
    try (split; [constructor|lia]).
  destruct (IH analyses). split; [by constructor|lia].
Qed.

Section Transcript.
Variable gateway : list ChatRequest -> ChatRequest -> ChatReply.
Variables clock clock_str : nat -> string.
Variable http_get : list (string * Z) -> string -> Z -> HttpReply.
Variable json_dumps : list SearchResult -> string.
Variable int_max_str_digits : nat.
Variable saved_name : list LatexCall -> string -> string.
Variable open_file : list (string * SessionData) -> string -> option string.
Variable improved_mark : string.

Lemma ask_keeps_log i prompt : keeps_log (ask gateway clock i prompt).
Proof.
  intros o w. unfold ask. destruct (agents o !! i) as [a|]; [|done].
  by destruct (generate_response _ _ _ _ _ _) as [[r a'] w'].
Qed.

Lemma methodology_keeps_log : keeps_log (methodology gateway clock).
Proof.
  intros o w. unfold methodology.
  by destruct (for_each _ _ _) as [l' [parts w']].
Qed.

Lemma sections_keep_log : keeps_log (generate_paper_sections gateway clock).
Proof.
  unfold generate_paper_sections.
  repeat (apply and_then_keeps_log; [|intros ?]);
    try apply ask_keeps_log; try apply methodology_keeps_log; by intros o w.
Qed.

Lemma compile_keeps_log :
  keeps_log (compile_final_paper gateway clock saved_name).
Proof.
  unfold compile_final_paper. apply and_then_keeps_log.
  - apply sections_keep_log.
  - by intros s o w.
Qed.

Lemma brainstorm_log o rounds w :
  log_effect (ConductBrainstormSession rounds) o
    (conduct_brainstorm_session gateway clock o rounds w).1.2.
Proof.
  unfold conduct_brainstorm_session, Py.range.
  pose proof (brainstorm_outer gateway clock o rounds w (Z.to_nat rounds)) as H.
  destruct (fold_left _ _ _) as [[results o'] w'].
  destruct H as (_ & _ & _ & _ & added & Hlog & _ & Htype & Hturns).
  exists added. split; [done|]. split; [|done].
  apply Forall_forall. intros e He.
  assert (Hin : turn_of e ∈ turn_of <$> added) by by apply list_elem_of_fmap_2.
  rewrite Hturns in Hin. apply list_elem_of_bind in Hin as (r & Hin & _).
  apply list_elem_of_fmap in Hin as (nm & Heq & Hnm).
  unfold turn_of in Heq. by injection Heq as _ ->.
Qed.

Lemma research_log o search_queries w :
  log_effect (ConductResearchPhase search_queries) o
    (conduct_research_phase gateway clock clock_str http_get json_dumps o
       search_queries w).1.2.
Proof.
  unfold conduct_research_phase.
  destruct (agents o) as [|a rest] eqn:Hagents.
  - exists []. rewrite app_nil_r.
    destruct search_queries as [|q qs]; simpl.
    + repeat split; auto.
    + unfold research_step. rewrite Hagents. simpl.
      repeat split; auto. lia.
  - pose proof (research_loop gateway clock clock_str http_get json_dumps
                  search_queries a rest o w ∅ Hagents)
      as (a' & analyses & notes & H).
    destruct (fold_try _ _ _) as [[[results' o'] w'] r].
    destruct H as (-> & _ & _ & _ & _ & _ & _ & _ & _ & _ & Hlog & _).
    simpl. exists (research_entries (name a) search_queries analyses).
    destruct (research_entries_spec (name a) search_queries analyses)
      as [Hall Hlen].
    split; [done|]. split; [|split; [|done]].
    + eapply Forall_impl; [exact Hall|]. intros e [_ ->].
      unfold roster_names. rewrite Hagents. csimpl. by left.
    + eapply Forall_impl; [exact Hall|]. by intros e [? _].
Qed.

(** The turns of one round of a discussion. *)
Lemma discussion_turns_log topic round_num rounds research l :
  forall discussion context log w,
  exists added,
    (for_each_try
       (discussion_turn gateway clock topic round_num rounds research)
       l (discussion, context, log, w)).1.2.1.2 = log ++ added
    /\ Forall (fun e => entry_type e = "discussion"
                        /\ entry_agent e ∈ name <$> l) added.
Proof.
  induction l as [|a l IH]; intros discussion context log w; csimpl.
  { exists []. by rewrite app_nil_r. }
  unfold discussion_turn at 1.
  destruct (discussion_prompt _ _ _ _ _ _) as [prompt|e]; simpl.
  2: { exists []. by rewrite app_nil_r. }
  destruct (generate_response _ _ _ _ _ _) as [[response a'] w'].
  match goal with |- context [for_each_try _ l (?d, ?c, ?g, w')] =>
    destruct (IH d c g w') as (added & Hlog & Hall) end.
  destruct (for_each_try _ _ _) as [[l' [[[d1 c1] log1] w1]] r].
  simpl in *. exists (Discussion (round_num + 1) (name a) topic response :: added).
  split.
  - rewrite Hlog, <- app_assoc. done.
  - constructor.
    + split; [done|]. by left.
    + eapply Forall_impl; [exact Hall|]. intros e [? ?]. split; [done|].
      by right.
Qed.

Lemma discussion_log_effect o topic rounds w :
  log_effect (StructuredDiscussion topic rounds) o
    (structured_discussion gateway clock o topic rounds w).1.2.
Proof.
  unfold structured_discussion.
  pose proof (fold_try_state
    (fun st => roster_names st.1.2 = roster_names o
               /\ exists added,
                    discussion_log st.1.2 = discussion_log o ++ added
                    /\ Forall (fun e => entry_agent e ∈ roster_names o) added
                    /\ Forall (fun e => entry_type e = "discussion") added)
    (discussion_round gateway clock topic rounds)
    (Py.range rounds) ([], [], o, w)) as H.
  assert (Hfinal : log_effect (StructuredDiscussion topic rounds) o
            (fold_try (discussion_round gateway clock topic rounds)
               (Py.range rounds) ([], [], o, w)).1.1.2).
  { destruct H as [_ H].
    - intros round_num [[[discussion context] o1] w1]
        (Hnames & added & Hlog & Hin & Htype). simpl in *.
      unfold discussion_round.
      pose proof (for_each_try_fmap name
        (discussion_turn gateway clock topic round_num rounds (research_topic o1))
        (agents o1) (discussion, context, discussion_log o1, w1)) as Hn.
      destruct (discussion_turns_log topic round_num rounds (research_topic o1)
                  (agents o1) discussion context (discussion_log o1) w1)
        as (more & Hmore & Hall).
      destruct (for_each_try _ _ _) as [[agents' [[[d c] log] w']] r].
      simpl in *. split.
      + unfold roster_names in *. simpl. rewrite Hn; [done|].
        intros a [[[d0 c0] l0] w0]. unfold discussion_turn.
        destruct (discussion_prompt _ _ _ _ _ _) as [prompt|e]; [|done].
        pose proof (generate_response_name gateway clock a prompt (Some c0) w0)
          as Hnm.
        by destruct (generate_response _ _ _ _ _ _) as [[resp a'] w2].
      + exists (added ++ more). rewrite Hmore, Hlog, <- app_assoc.
        split; [done|]. split; apply Forall_app; split; try done.
        * eapply Forall_impl; [exact Hall|]. intros e [_ He].
          by rewrite <- Hnames.
        * eapply Forall_impl; [exact Hall|]. by intros e [? _].
    - split; [done|]. exists []. by rewrite app_nil_r.
    - exact H. }
  by destruct (fold_try _ _ _) as [[[[discussion context] o'] w'] [e|]].
Qed.

Lemma on_agent_keeps_log {X} i
    (f : ResearchAgent -> World -> X * ResearchAgent * World) o w :
  discussion_log (on_agent i f o w).1 = discussion_log o.
Proof.
  unfold on_agent. destruct (agents o !! i) as [a|]; [|done].
  by destruct (f a w) as [[x a'] w'].
Qed.

Lemma perform_log_effect c o w :
  log_effect c o
    (perform gateway clock clock_str http_get json_dumps int_max_str_digits
       saved_name open_file improved_mark c o w).1.
Proof.
  assert (Hnone : forall o', discussion_log o' = discussion_log o ->
            exists added : list LogEntry,
              discussion_log o' = discussion_log o ++ added
              /\ Forall (fun e => entry_agent e ∈ roster_names o) added
              /\ added = []).
  { intros o' ->. exists []. by rewrite app_nil_r. }
  destruct c; simpl;
    try (apply Hnone; first [done | apply on_agent_keeps_log]).
  - pose proof (brainstorm_log o rounds w) as H.
    by destruct (conduct_brainstorm_session _ _ _ _ _) as [[r o'] w'].
  - pose proof (research_log o search_queries w) as H.
    by destruct (conduct_research_phase _ _ _ _ _ _ _ _) as [[r o'] w'].
  - pose proof (discussion_log_effect o topic rounds w) as H.
    by destruct (structured_discussion _ _ _ _ _ _) as [[r o'] w'].
  - unfold evaluate_satisfaction.
    destruct (for_each _ _ _) as [l' [scores' w']]. by apply Hnone.
  - pose proof (sections_keep_log o w) as H.
    destruct (generate_paper_sections _ _ _ _) as [[r o'] w']. by apply Hnone.
  - pose proof (compile_keeps_log o w) as H.
    destruct (compile_final_paper _ _ _ _ _) as [[r o'] w']. by apply Hnone.
  - unfold export_session_log. simpl.
    destruct (open_file _ _); by apply Hnone.
  - unfold trigger_self_improvement.
    destruct (for_each _ _ _) as [l' [res w']]. by apply Hnone.
Qed.

Lemma roster_effect_names c o o' :
  roster_effect c o o' -> roster_names o ⊆ roster_names o'.
Proof.
  destruct c; cbn [roster_effect]; try (by intros [-> _]);
    intros [-> _]; intros x Hx; apply elem_of_app; by left.
Qed.

(** X2.  In every reachable state of a session each entry of the
    transcript carries the name of an agent of the roster.  From such a
    state only three calls add entries, and only under roster names:
    [conduct_brainstorm_session] adds brainstorm entries,
    [conduct_research_phase] research entries, at most one for each query,
    and [structured_discussion] discussion entries.  Every other call
    leaves the transcript as it is: [evaluate_satisfaction],
    [trigger_self_improvement], the generation and compilation of the
    paper, the export, and the agents' own methods. *)
Theorem transcript_names_roster o w :
  reachable gateway clock clock_str http_get json_dumps int_max_str_digits
    saved_name open_file improved_mark o w ->
  Forall (fun e => entry_agent e ∈ roster_names o) (discussion_log o)
  /\ forall c,
       log_effect c o
         (perform gateway clock clock_str http_get json_dumps
            int_max_str_digits saved_name open_file improved_mark c o w).1.
Proof.
  intros Hreach. split; [|intros c; apply perform_log_effect].
  induction Hreach as [w|c o w _ IH]; [constructor|].
  destruct (perform_log_effect c o w) as (added & -> & Hin & _).
  pose proof (roster_effect_names c o _
                (perform_roster_effect gateway clock clock_str http_get
                   json_dumps int_max_str_digits saved_name
                     open_file improved_mark c o w)) as Hsub.
  apply Forall_app. split; (eapply Forall_impl; [eassumption|]);
    intros e He; by apply Hsub.
Qed.
End Transcript.

(** ** generate_paper_sections: who is asked what *)

Lemma and_then_plan {X Y} (m : Method X) (k : X -> Method Y) o w p1 x o1 w1
    p2 y o2 w2 :
  runs_plan m o w p1 x o1 w1 -> runs_plan (k x) o1 w1 p2 y o2 w2 ->
  runs_plan (and_then m k) o w (p1 ++ p2) y o2 w2.
Proof.
  intros (Hm & Hper1 & Htop1 & Hlx1 & r1 & Hs1 & Hf1)
         (Hk & Hper2 & Htop2 & Hlx2 & r2 & Hs2 & Hf2).
  unfold runs_plan, and_then. rewrite Hm, Hk.
  split; [done|]. split; [congruence|]. split; [congruence|].
  split; [congruence|].
  exists (r1 ++ r2). split.
  - by rewrite Hs2, Hs1, <- app_assoc.
  - apply Forall2_app; [done|]. by rewrite <- Hper1.
Qed.

Lemma persona_insert (l : list ResearchAgent) i a a' :
  l !! i = Some a -> persona a' = persona a ->
  persona <$> <[i := a']> l = persona <$> l.
Proof.
  intros Hi Hp. rewrite list_fmap_insert, Hp.
  apply list_insert_id. by rewrite list_lookup_fmap, Hi.
Qed.

Section Paper.
Variable gateway : list ChatRequest -> ChatRequest -> ChatReply.
Variables clock clock_str : nat -> string.
Variable http_get : list (string * Z) -> string -> Z -> HttpReply.
Variable json_dumps : list SearchResult -> string.
Variable saved_name : list LatexCall -> string -> string.

Lemma generate_response_plain a prompt w :
  sent (generate_response gateway clock a prompt None w).2
  = sent w ++ [plain_request (persona a) prompt].
Proof. by rewrite generate_response_sent. Qed.

Lemma ask_plan i prompt o w a :
  agents o !! i = Some a ->
  exists x o' w',
    runs_plan (ask gateway clock i prompt) o w [(i, prompt)] x o' w'.
Proof.
  intros Hi. unfold runs_plan, ask. rewrite Hi.
  pose proof (generate_response_persona gateway clock a prompt None w) as Hp.
  pose proof (generate_response_plain a prompt w) as Hs.
  destruct (generate_response _ _ _ _ _ _) as [[response a'] w'].
  simpl in Hp, Hs. eexists _, _, _. split; [done|]. simpl.
  split; [by eapply persona_insert|]. do 2 (split; [done|]).
  eexists. split; [exact Hs|]. constructor; [|constructor].
  exists (persona a). split; [|done]. simpl. by rewrite list_lookup_fmap, Hi.
Qed.

Lemma methodology_loop topic l : forall parts w,
  let '(l', (parts', w')) :=
    for_each (methodology_turn gateway clock topic) l (parts, w) in
  persona <$> l' = persona <$> l
  /\ sent w'
     = sent w
       ++ ((fun a => plain_request (persona a)
                       (method_prompt (specialty a) topic)) <$> l)
  /\ exists texts,
       length texts = length l
       /\ parts' = parts
            ++ zip_with (fun a text => "\subsection{" +:+ specialty a +:+ "}"
                                         +:+ Py.nl +:+ text) l texts.
Proof.
  induction l as [|a l IH]; intros parts w; csimpl.
  { rewrite !app_nil_r. repeat split. by exists []. }
  unfold methodology_turn at 1.
  set (prompt := method_prompt (specialty a) topic).
  pose proof (generate_response_persona gateway clock a prompt None w) as Hp.
  pose proof (generate_response_plain a prompt w) as Hs.
  destruct (generate_response _ _ _ _ _ _) as [[text a'] w1].
  simpl in Hp, Hs.
  match goal with |- context [for_each _ l (?p, w1)] =>
    specialize (IH p w1) end.
  destruct (for_each _ _ _) as [l' [parts' w']].
  destruct IH as (Hper & Hsent & texts & Hlen & Hparts).
  repeat split.
  - csimpl. by rewrite Hp, Hper.
  - rewrite Hsent, Hs, <- app_assoc. done.
  - exists (text :: texts). csimpl. rewrite Hlen, Hparts, <- app_assoc. done.
Qed.

Lemma methodology_plan o w :
  exists x o' w',
    runs_plan (methodology gateway clock) o w
      (imap (fun i a => (i, method_prompt (specialty a) (research_topic o)))
         (agents o)) x o' w'.
Proof.
  unfold runs_plan, methodology.
  pose proof (methodology_loop (research_topic o) (agents o) [] w) as H.
  destruct (for_each _ _ _) as [l' [parts w']].
  destruct H as (Hper & Hsent & _).
  eexists _, _, _. split; [done|]. simpl. do 3 (split; [done|]).
  eexists. split; [exact Hsent|].
  apply Forall2_same_length_lookup_2.
  - by rewrite length_fmap, length_imap.
  - intros i request step Hr Hstep.
    rewrite list_lookup_fmap in Hr. rewrite list_lookup_imap in Hstep.
    destruct (agents o !! i) as [a|] eqn:Hi; [|done].
    simpl in *. injection Hr as <-. injection Hstep as <-. simpl.
    exists (persona a). split; [|done]. simpl. by rewrite list_lookup_fmap, Hi.
Qed.

Lemma pure_plan {X} (f : ResearchOrchestrator -> X) o w :
  runs_plan (fun o w => (Py.Return (f o), o, w)) o w [] (f o) o w.
Proof.
  unfold runs_plan. do 4 (split; [done|]). exists [].
  split; [by rewrite app_nil_r|constructor].
Qed.

Lemma runs_plan_length {X} (m : Method X) o w plan x o' w' :
  runs_plan m o w plan x o' w' -> length (agents o') = length (agents o).
Proof.
  intros (_ & H & _). by rewrite <- (length_fmap persona), H, length_fmap.
Qed.

Lemma sections_plan o w :
  agents o <> [] ->
  exists sections o' w',
    runs_plan (generate_paper_sections gateway clock) o w
      (paper_plan (research_topic o) (agents o)) sections o' w'.
Proof.
  intros Hne.
  assert (Hlen : (0 < length (agents o))%nat).
  { destruct (agents o); [done|simpl; lia]. }
  set (n := length (agents o)) in *.
  set (topic := research_topic o).
  destruct (lookup_lt_is_Some_2 (agents o) 0 Hlen) as [a0 H0].
  destruct (ask_plan 0 (title_prompt topic) o w a0 H0)
    as (title & o1 & w1 & R1).
  pose proof (runs_plan_length _ _ _ _ _ _ _ R1) as L1.
  destruct (lookup_lt_is_Some_2 (agents o1) 0) as [a1 H1]; [lia|].
  destruct (ask_plan 0 (abstract_prompt topic) o1 w1 a1 H1)
    as (abstract & o2 & w2 & R2).
  pose proof (runs_plan_length _ _ _ _ _ _ _ R2) as L2.
  set (i := if (1 <? n)%nat then 1%nat else 0%nat).
  assert (Hi : (i < n)%nat).
  { subst i. destruct (1 <? n)%nat eqn:E; [|lia]. by apply Nat.ltb_lt. }
  destruct (lookup_lt_is_Some_2 (agents o2) i) as [a2 H2]; [lia|].
  destruct (ask_plan i (intro_prompt topic) o2 w2 a2 H2)
    as (introduction & o3 & w3 & R3).
  pose proof (runs_plan_length _ _ _ _ _ _ _ R3) as L3.
  destruct (methodology_plan o3 w3) as (method_text & o4 & w4 & R4).
  pose proof (runs_plan_length _ _ _ _ _ _ _ R4) as L4.
  destruct (lookup_lt_is_Some_2 (agents o4) (n - 1)) as [a4 H4]; [lia|].
  destruct (ask_plan (n - 1) (results_prompt topic) o4 w4 a4 H4)
    as (results & o5 & w5 & R5).
  pose proof (runs_plan_length _ _ _ _ _ _ _ R5) as L5.
  destruct (lookup_lt_is_Some_2 (agents o5) (n - 1)) as [a5 H5]; [lia|].
  destruct (ask_plan (n - 1) conclusion_prompt o5 w5 a5 H5)
    as (conclusion & o6 & w6 & R6).
  exists (mkSections (Py.strip title) abstract introduction method_text results
            conclusion), o6, w6.
  assert (T1 : research_topic o1 = topic) by apply R1.
  assert (T2 : research_topic o2 = topic) by (destruct R2 as (_&_&->&_); done).
  assert (T3 : research_topic o3 = topic) by (destruct R3 as (_&_&->&_); done).
  assert (P3 : persona <$> agents o3 = persona <$> agents o).
  { destruct R1 as (_&<-&_), R2 as (_&<-&_), R3 as (_&<-&_). done. }
  unfold generate_paper_sections, paper_plan. fold n. fold topic. fold i.
  eapply (and_then_plan _ _ o w [] topic o w); [apply (pure_plan research_topic)|].
  eapply (and_then_plan _ _ o w [_]); [exact R1|].
  eapply (and_then_plan _ _ o1 w1 [_]); [exact R2|].
  eapply (and_then_plan _ _ o2 w2 [] n o2 w2).
  { replace n with (length (agents o2)) by lia.
    apply (pure_plan (fun o => length (agents o))). }
  eapply (and_then_plan _ _ o2 w2 [_]); [exact R3|].
  eapply (and_then_plan _ _ o3 w3).
  { rewrite T3 in R4.
    replace (imap _ (agents o3))
      with (imap (fun i a => (i, method_prompt (specialty a) topic)) (agents o))
      in R4; [exact R4|].
    apply list_eq. intros j. rewrite !list_lookup_imap.
    assert (Hj : persona <$> agents o3 !! j = persona <$> agents o !! j)
      by by rewrite <- !list_lookup_fmap, P3.
    destruct (agents o3 !! j) as [b|], (agents o !! j) as [c|]; try done.
    simpl in *. injection Hj as _ Hj _ _. by rewrite Hj. }
  eapply (and_then_plan _ _ o4 w4 [_]); [exact R5|].
  eapply (and_then_plan _ _ o5 w5 [_] _ _ _ []); [exact R6|].
  apply (pure_plan (fun _ => mkSections _ _ _ _ _ _)).
Qed.

Lemma asks_only_trans o1 o2 o3 :
  asks_only o1 o2 -> asks_only o2 o3 -> asks_only o1 o3.
Proof. intros (?&?&?) (?&?&?). repeat split; congruence. Qed.

Lemma ask_step i prompt o w p :
  (persona <$> agents o) !! i = Some p ->
  exists o' w',
    ask gateway clock i prompt o w
    = (Py.Return (reply_text (gateway (sent w) (plain_request p prompt))),
       o', w')
    /\ sent w' = sent w ++ [plain_request p prompt]
    /\ asks_only o o'.
Proof.
  intros Hp. rewrite list_lookup_fmap in Hp.
  destruct (agents o !! i) as [a|] eqn:Hi; [|done].
  simpl in Hp. injection Hp as <-.
  unfold ask. rewrite Hi.
  pose proof (generate_response_persona gateway clock a prompt None w) as Hper.
  destruct (generate_response_reply gateway clock a prompt w) as [Hr Hs].
  destruct (generate_response _ _ _ _ _ _) as [[response a'] w'].
  simpl in Hper, Hr, Hs. subst response.
  eexists _, _. split; [done|]. split; [done|].
  split; [|done]. simpl. by eapply persona_insert.
Qed.

Lemma methodology_loop_replies topic l : forall parts w,
  let '(l', (parts', w')) :=
    for_each (methodology_turn gateway clock topic) l (parts, w) in
  let requests := method_request topic <$> (persona <$> l) in
  persona <$> l' = persona <$> l
  /\ sent w' = sent w ++ requests
  /\ exists texts,
       length texts = length l
       /\ parts' = parts ++ zip_with method_section (specialty <$> l) texts
       /\ forall k text,
            texts !! k = Some text ->
            reply_at gateway (sent w) requests k = Some text.
Proof.
  induction l as [|a l IH]; intros parts w; csimpl.
  { rewrite !app_nil_r. repeat split. by exists []. }
  unfold methodology_turn at 1.
  set (prompt := method_prompt (specialty a) topic).
  pose proof (generate_response_persona gateway clock a prompt None w) as Hp.
  destruct (generate_response_reply gateway clock a prompt w) as [Hr Hs].
  destruct (generate_response _ _ _ _ _ _) as [[text a'] w1].
  simpl in Hp, Hr, Hs.
  match goal with |- context [for_each _ l (?p, w1)] =>
    specialize (IH p w1) end.
  destruct (for_each _ _ _) as [l' [parts' w']].
  destruct IH as (Hper & Hsent & texts & Hlen & Hparts & Hreplies).
  split; [csimpl; by rewrite Hp, Hper|].
  split; [rewrite Hsent, Hs, <- app_assoc; done|].
  exists (text :: texts). split; [simpl; by rewrite Hlen|].
  split; [rewrite Hparts, <- app_assoc; done|].
  intros [|k] text' Hk; simpl in Hk.
  - injection Hk as <-. unfold reply_at. simpl. by rewrite app_nil_r, Hr.
  - specialize (Hreplies k text' Hk). unfold reply_at in *. simpl.
    rewrite Hs, <- app_assoc in Hreplies. exact Hreplies.
Qed.

Lemma methodology_step o w :
  let requests :=
    method_request (research_topic o) <$> (persona <$> agents o) in
  exists texts o' w',
    methodology gateway clock o w
    = (Py.Return
         (Py.join (Py.nl +:+ Py.nl)
            (zip_with method_section (specialty <$> agents o) texts)),
       o', w')
    /\ sent w' = sent w ++ requests
    /\ asks_only o o'
    /\ length texts = length (agents o)
    /\ forall k text,
         texts !! k = Some text ->
         reply_at gateway (sent w) requests k = Some text.
Proof.
  intros requests. unfold methodology.
  pose proof (methodology_loop_replies (research_topic o) (agents o) [] w) as H.
  destruct (for_each _ _ _) as [l' [parts w']].
  destruct H as (Hper & Hsent & texts & Hlen & Hparts & Hreplies).
  exists texts. eexists _, _. rewrite Hparts. split; [done|].
  split; [done|]. split; [done|]. done.
Qed.

Lemma asks_only_length o o' :
  asks_only o o' -> length (agents o') = length (agents o).
Proof.
  intros (H & _). by rewrite <- (length_fmap persona), H, length_fmap.
Qed.

Lemma asks_only_lookup o o' i p :
  asks_only o o' ->
  (persona <$> agents o) !! i = Some p ->
  (persona <$> agents o') !! i = Some p.
Proof. intros (-> & _). done. Qed.

(** [generate_paper_sections] on a roster that is not empty, reply by
    reply. *)
Lemma sections_replies o w :
  agents o <> [] ->
  let n := length (agents o) in
  let topic := research_topic o in
  exists sections o' w' requests texts,
    generate_paper_sections gateway clock o w = (Py.Return sections, o', w')
    /\ asks_only o o'
    /\ sent w' = sent w ++ requests
    /\ length requests = (n + 5)%nat
    /\ Py.strip <$> reply_at gateway (sent w) requests 0
       = Some (sec_title sections)
    /\ reply_at gateway (sent w) requests 1 = Some (sec_abstract sections)
    /\ reply_at gateway (sent w) requests 2 = Some (sec_introduction sections)
    /\ length texts = n
    /\ (forall k text,
          texts !! k = Some text ->
          reply_at gateway (sent w) requests (3 + k) = Some text)
    /\ sec_methodology sections
       = Py.join (Py.nl +:+ Py.nl)
           (zip_with method_section (specialty <$> agents o) texts)
    /\ reply_at gateway (sent w) requests (n + 3)
       = Some (sec_results sections)
    /\ reply_at gateway (sent w) requests (n + 4)
       = Some (sec_conclusion sections).
Proof.
  intros Hne n topic.
  assert (Hlen : (0 < n)%nat).
  { subst n. destruct (agents o); [done|simpl; lia]. }
  set (P := persona <$> agents o).
  assert (HP : length P = n) by (subst P; by rewrite length_fmap).
  destruct (lookup_lt_is_Some_2 P 0) as [p0 H0]; [lia|].
  set (i := if (1 <? n)%nat then 1%nat else 0%nat).
  assert (Hi : (i < n)%nat).
  { subst i. destruct (1 <? n)%nat eqn:E; [|lia]. by apply Nat.ltb_lt. }
  destruct (lookup_lt_is_Some_2 P i) as [p1 H1]; [lia|].
  destruct (lookup_lt_is_Some_2 P (n - 1)) as [p2 H2]; [lia|].
  destruct (ask_step 0 (title_prompt topic) o w p0 H0)
    as (o1 & w1 & E1 & S1 & A1).
  destruct (ask_step 0 (abstract_prompt topic) o1 w1 p0
              (asks_only_lookup _ _ _ _ A1 H0))
    as (o2 & w2 & E2 & S2 & A2).
  pose proof (asks_only_trans _ _ _ A1 A2) as A02.
  destruct (ask_step i (intro_prompt topic) o2 w2 p1
              (asks_only_lookup _ _ _ _ A02 H1))
    as (o3 & w3 & E3 & S3 & A3).
  pose proof (asks_only_trans _ _ _ A02 A3) as A03.
  destruct (methodology_step o3 w3) as (texts & o4 & w4 & E4 & S4 & A4 & L4 & R4).
  pose proof (asks_only_trans _ _ _ A03 A4) as A04.
  destruct (ask_step (n - 1) (results_prompt topic) o4 w4 p2
              (asks_only_lookup _ _ _ _ A04 H2))
    as (o5 & w5 & E5 & S5 & A5).
  pose proof (asks_only_trans _ _ _ A04 A5) as A05.
  destruct (ask_step (n - 1) conclusion_prompt o5 w5 p2
              (asks_only_lookup _ _ _ _ A05 H2))
    as (o6 & w6 & E6 & S6 & A6).
  pose proof (asks_only_trans _ _ _ A05 A6) as A06.
  assert (T1 : research_topic o1 = topic) by apply A1.
  assert (T2 : research_topic o2 = topic) by apply A02.
  assert (T3 : research_topic o3 = topic) by apply A03.
  assert (T4 : research_topic o4 = topic) by apply A04.
  assert (N2 : length (agents o2) = n) by apply (asks_only_length _ _ A02).
  assert (N3 : length (agents o3) = n) by apply (asks_only_length _ _ A03).
  assert (P3 : persona <$> agents o3 = P) by apply A03.
  assert (Sp3 : specialty <$> agents o3 = specialty <$> agents o).
  { change specialty
      with ((fun p : string * string * string * string => p.1.1.2) ∘ persona).
    by rewrite !list_fmap_compose, P3. }
  rewrite Sp3 in E4. rewrite T3, P3 in S4, R4. rewrite N3 in L4.
  set (r0 := plain_request p0 (title_prompt topic)) in *.
  set (r1 := plain_request p0 (abstract_prompt topic)) in *.
  set (r2 := plain_request p1 (intro_prompt topic)) in *.
  set (ms := method_request topic <$> P) in *.
  set (r5 := plain_request p2 (results_prompt topic)) in *.
  set (r6 := plain_request p2 conclusion_prompt) in *.
  assert (Lms : length ms = n) by (subst ms; by rewrite length_fmap).
  eexists _, o6, w6, ([r0; r1; r2] ++ ms ++ [r5; r6]), texts.
  split.
  { unfold generate_paper_sections, and_then, topic_of, roster_size.
    fold topic. rewrite E1. cbv beta iota. rewrite E2. cbv beta iota.
    rewrite N2. fold i. rewrite E3. cbv beta iota.
    rewrite E4. cbv beta iota. rewrite E5. cbv beta iota.
    rewrite E6. cbv beta iota. unfold ret. reflexivity. }
  split; [exact A06|].
  split.
  { rewrite S6, S5, S4, S3, S2, S1, <- !app_assoc. reflexivity. }
  split.
  { rewrite !length_app, Lms. simpl. lia. }
  assert (W1 : sent w1 = sent w ++ [r0]) by exact S1.
  assert (W2 : sent w2 = sent w ++ [r0; r1]).
  { rewrite S2, S1, <- app_assoc. reflexivity. }
  assert (W3 : sent w3 = sent w ++ [r0; r1; r2]).
  { rewrite S3, W2, <- app_assoc. reflexivity. }
  assert (W4 : sent w4 = sent w ++ [r0; r1; r2] ++ ms).
  { rewrite S4, W3, <- app_assoc. reflexivity. }
  assert (W5 : sent w5 = sent w ++ [r0; r1; r2] ++ ms ++ [r5]).
  { rewrite S5, W4, <- !app_assoc. reflexivity. }
  cbn [sec_title sec_abstract sec_introduction sec_methodology sec_results
       sec_conclusion].
  split; [unfold reply_at; simpl; by rewrite app_nil_r|].
  split; [unfold reply_at; simpl; by rewrite W1|].
  split; [unfold reply_at; simpl; by rewrite W2|].
  split; [exact L4|].
  split.
  { intros k text Hk. specialize (R4 k text Hk). unfold reply_at in *.
    assert (Hkn : (k < length ms)%nat).
    { rewrite Lms, <- L4. by eapply lookup_lt_Some. }
    change (3 + k)%nat with (S (S (S k))). simpl.
    rewrite lookup_app_l, take_app_le by lia.
    rewrite W3, <- app_assoc in R4. exact R4. }
  split; [reflexivity|].
  split.
  - unfold reply_at. replace (n + 3)%nat with (S (S (S (length ms)))) by lia.
    simpl. rewrite list_lookup_middle by done. simpl.
    rewrite take_app_length, W4. reflexivity.
  - unfold reply_at. replace (n + 4)%nat with (S (S (S (length (ms ++ [r5])))))
      by (rewrite length_app; simpl; lia).
    simpl. change (ms ++ [r5; r6]) with (ms ++ [r5] ++ [r6]).
    rewrite (app_assoc ms [r5] [r6]).
    rewrite list_lookup_middle by done. simpl.
    rewrite take_app_length, W5. reflexivity.
Qed.
End Paper.

(** ** The research phase and the paper, with and without agents *)

Section Phases.
Variable gateway : list ChatRequest -> ChatRequest -> ChatReply.
Variables clock clock_str : nat -> string.
Variable http_get : list (string * Z) -> string -> Z -> HttpReply.
Variable json_dumps : list SearchResult -> string.
Variable saved_name : list LatexCall -> string -> string.

(** X3.  [conduct_research_phase] on an empty roster: with no query it
    returns the empty dictionary; with a query it raises [IndexError] at
    [self.agents[0]], before any search or gateway call, and the
    orchestrator and the world are as before. *)
Theorem research_without_agents o search_queries w :
  agents o = [] ->
  conduct_research_phase gateway clock clock_str http_get json_dumps o
    search_queries w
  = (match search_queries with
     | [] => Py.Return ∅
     | _ :: _ => Py.Raise index_error
     end, o, w).
Proof.
  intros Hagents. unfold conduct_research_phase.
  destruct search_queries as [|query rest]; simpl; [done|].
  unfold research_step. by rewrite Hagents.
Qed.

(** X4.  [conduct_research_phase] on a roster that is not empty returns,
    whatever the searches and the gateway answer, a dictionary whose keys
    are the queries.  All the work goes to the first agent: for each query,
    in order, the transcript gains one research entry under the first
    agent's name and that agent gains one note, Search: query, Findings:
    analysis; its persona stays, and the rest of the roster is untouched.
    Each query is fetched once with [max_results=3] and sends one request
    to the gateway. *)
Theorem research_first_agent o search_queries w a rest :
  agents o = a :: rest ->
  exists results o' w' a' analyses notes,
    conduct_research_phase gateway clock clock_str http_get json_dumps o
      search_queries w = (Py.Return results, o', w')
    /\ dom results =@{gset string} list_to_set search_queries
    /\ length analyses = length search_queries
    /\ discussion_log o'
       = discussion_log o ++ research_entries (name a) search_queries analyses
    /\ agents o' = a' :: rest
    /\ persona a' = persona a
    /\ research_notes a' = research_notes a ++ notes
    /\ n_note <$> notes = zip_with research_note search_queries analyses
    /\ fetched w' = fetched w ++ ((fun q => (q, 3)) <$> search_queries)
    /\ length (sent w') = (length (sent w) + length search_queries)%nat.
Proof.
  intros Hagents. unfold conduct_research_phase.
  pose proof (research_loop gateway clock clock_str http_get json_dumps
                search_queries a rest o w ∅ Hagents)
    as (a' & analyses & notes & H).
  destruct (fold_try _ _ _) as [[[results' o'] w'] r].
  destruct H as (-> & Hag & Hn & Hsp & Hm & Hsys & _ & Hnotes & Hnn & Hlen
                 & Hlog & Hdom & Hfet & Hsn & _).
  exists results', o', w', a', analyses, notes.
  split; [done|]. split; [rewrite Hdom, dom_empty_L; set_solver|].
  do 3 (split; [done|]). split; [unfold persona; congruence|]. done.
Qed.

(** X5.  On an empty roster [generate_paper_sections] and
    [compile_final_paper] raise [IndexError] at [self.agents[0]]: nothing is
    sent to the gateway, nothing is handed to the paper generator, and the
    orchestrator and the world are as before. *)
Theorem paper_without_agents o w :
  agents o = [] ->
  generate_paper_sections gateway clock o w = (Py.Raise index_error, o, w)
  /\ compile_final_paper gateway clock saved_name o w
     = (Py.Raise index_error, o, w).
Proof.
  intros Hagents.
  assert (H : generate_paper_sections gateway clock o w
              = (Py.Raise index_error, o, w)).
  { unfold generate_paper_sections, and_then, topic_of, ask.
    by rewrite Hagents. }
  split; [exact H|]. unfold compile_final_paper, and_then. by rewrite H.
Qed.

(** X6.  On a roster of N >= 1 agents [generate_paper_sections] returns
    and sends exactly N + 5 requests, one after the other, each with the
    asked agent's system prompt and no context: title and abstract to the
    first agent, the introduction to the second agent (to the first when
    it is alone), one methodology subsection to every agent in roster
    order with its own specialty in the prompt, results and conclusion to
    the last agent.  No persona changes. *)
Theorem paper_sections_by_place o w :
  agents o <> [] ->
  exists sections o' w' requests,
    generate_paper_sections gateway clock o w = (Py.Return sections, o', w')
    /\ sent w' = sent w ++ requests
    /\ follows_plan (persona <$> agents o) requests
         (paper_plan (research_topic o) (agents o))
    /\ length requests = (length (agents o) + 5)%nat
    /\ persona <$> agents o' = persona <$> agents o.
Proof.
  intros Hne.
  destruct (sections_plan gateway clock o w Hne)
    as (sections & o' & w' & Hrun & Hper & _ & _ & requests & Hsent & Hplan).
  exists sections, o', w', requests. do 3 (split; [done|]). split; [|done].
  rewrite (Forall2_length _ _ _ Hplan). unfold paper_plan. simpl.
  rewrite length_app, length_imap. simpl. lia.
Qed.

(** X7.  On a roster of N >= 1 agents [compile_final_paper] returns the
    name the generator saved the paper under, after exactly five calls on
    the generator, made with the sections [generate_paper_sections]
    returned: the metadata with the title, the roster's names as authors
    and the abstract, the sections Introduction, Methodology, Results and
    Discussion, and the save to research_paper.tex.  Of the N + 5 replies
    of the agents, the title is the first one stripped, the abstract the
    second, the introduction the third, the methodology the next N under
    subsection headings, and the results the reply number N + 4.  The
    conclusion is the reply to the last request, the one made of the last
    agent; it is in the sections and is handed to no call. *)
Theorem compile_final_paper_calls o w :
  agents o <> [] ->
  let n := length (agents o) in
  exists sections o1 w1 requests body p,
    generate_paper_sections gateway clock o w = (Py.Return sections, o1, w1)
    /\ compile_final_paper gateway clock saved_name o w
       = (Py.Return
            (saved_name
               (latex_generator o ++ paper_calls (roster_names o) sections)
               "research_paper.tex"),
          set_latex o1
            (latex_generator o ++ paper_calls (roster_names o) sections
               ++ [SaveToFile "research_paper.tex"]),
          w1)
    /\ sent w1 = sent w ++ requests
    /\ follows_plan (persona <$> agents o) requests
         (paper_plan (research_topic o) (agents o))
    /\ length requests = (n + 5)%nat
    /\ Py.strip <$> reply_at gateway (sent w) requests 0
       = Some (sec_title sections)
    /\ reply_at gateway (sent w) requests 1 = Some (sec_abstract sections)
    /\ reply_at gateway (sent w) requests 2 = Some (sec_introduction sections)
    /\ (exists texts,
          length texts = n
          /\ (forall k text,
                texts !! k = Some text ->
                reply_at gateway (sent w) requests (3 + k) = Some text)
          /\ sec_methodology sections
             = Py.join (Py.nl +:+ Py.nl)
                 (zip_with method_section (specialty <$> agents o) texts))
    /\ reply_at gateway (sent w) requests (n + 3)
       = Some (sec_results sections)
    /\ reply_at gateway (sent w) requests (n + 4)
       = Some (sec_conclusion sections)
    /\ last (persona <$> agents o) = Some p
    /\ requests = body ++ [plain_request p conclusion_prompt].
Proof.
  intros Hne n.
  destruct (sections_replies gateway clock o w Hne)
    as (sections & o1 & w1 & requests & texts & Hrun & Hasks & Hsent & Hlen
        & Htitle & Habstract & Hintro & Htexts & Hreplies & Hmethod
        & Hresults & Hconclusion).
  destruct (sections_plan gateway clock o w Hne)
    as (sections' & o1' & w1' & Hrun' & _ & _ & _ & requests' & Hsent'
        & Hplan).
  rewrite Hrun in Hrun'. injection Hrun' as <- <- <-.
  rewrite Hsent in Hsent'. apply app_inv_head in Hsent' as <-.
  destruct Hasks as (Hper & _ & Hlx).
  assert (Hlast : exists body p,
            last (persona <$> agents o) = Some p
            /\ requests = body ++ [plain_request p conclusion_prompt]).
  { pose proof Hplan as Hplan'. unfold paper_plan in Hplan'.
    rewrite (app_assoc _ _ [_; _]) in Hplan'.
    change [?x; ?y] with ([x] ++ [y]) in Hplan'.
    rewrite app_assoc in Hplan'.
    apply Forall2_app_inv_r in Hplan' as (r1 & r2 & _ & Hplan2 & ->).
    apply Forall2_cons_inv_r in Hplan2
      as (req & r3 & (p & Hp & ->) & Hnil & ->).
    apply Forall2_nil_inv_r in Hnil as ->.
    exists r1, p. split; [|done].
    simpl in Hp. rewrite last_lookup, length_fmap.
    by replace (pred (length (agents o))) with (length (agents o) - 1)%nat
      by lia. }
  destruct Hlast as (body & p & Hp & Hbody).
  assert (Hnames : name <$> agents o1 = roster_names o).
  { unfold roster_names.
    change name with ((fun p : string * string * string * string => p.1.1.1)
                      ∘ persona).
    by rewrite !list_fmap_compose, Hper. }
  exists sections, o1, w1, requests, body, p.
  split; [exact Hrun|]. split.
  { unfold compile_final_paper, and_then. rewrite Hrun, Hnames, Hlx.
    by rewrite <- app_assoc. }
  do 6 (split; [done|]). split; [by exists texts|]. done.
Qed.
End Phases.

(** ** Discussion, self-improvement, and a gateway that is down *)

Section Phases2.
Variable gateway : list ChatRequest -> ChatRequest -> ChatReply.
Variables clock clock_str : nat -> string.
Variable improved_mark : string.

Lemma set_own_agents o : set_log (set_agents o (agents o)) (discussion_log o) = o.
Proof. by destruct o. Qed.

Lemma discussion_no_agents topic rounds l : forall o w,
  agents o = [] ->
  fold_try (discussion_round gateway clock topic rounds) l ([], [], o, w)
  = ([], [], o, w, None).
Proof.
  induction l as [|r l IH]; intros o w Hagents; simpl; [done|].
  unfold discussion_round. rewrite Hagents. simpl.
  rewrite <- Hagents, set_own_agents. by apply IH.
Qed.

(** X8.  [structured_discussion] returns exactly when it has at most one
    turn to make, that is when agents * rounds <= 1, and then the list it
    returns has that many messages; as soon as there are two turns it
    raises the [TypeError] of the join over the context dictionaries. *)
Theorem structured_discussion_outcome o topic rounds w :
  let turns := (length (agents o) * Z.to_nat rounds)%nat in
  match (structured_discussion gateway clock o topic rounds w).1.1 with
  | Py.Return discussion => (turns <= 1)%nat /\ length discussion = turns
  | Py.Raise e => (2 <= turns)%nat /\ e = join_error
  end.
Proof.
  intros turns. destruct (le_lt_dec 2 turns) as [Hsize|Hsize].
  { pose proof (structured_discussion_second_turn gateway clock o topic
                  rounds w Hsize) as H.
    destruct (structured_discussion _ _ _ _ _ _) as [[out o'] w'].
    destruct H as [-> _]. done. }
  unfold structured_discussion, Py.range. subst turns.
  destruct (agents o) as [|a rest] eqn:Hagents.
  { rewrite discussion_no_agents by done. simpl. split; [lia|done]. }
  destruct (Z.to_nat rounds) as [|k] eqn:Hk.
  { simpl. split; lia. }
  assert (rest = [] /\ k = 0%nat) as [-> ->].
  { simpl in Hsize. split; [|lia].
    destruct rest; [done|simpl in Hsize; lia]. }
  change (seq 0 1) with [0%nat]. rewrite fmap_cons. cbn [fold_try].
  change (Z.of_nat 0) with 0.
  unfold discussion_round at 1. rewrite Hagents. cbn [for_each_try].
  destruct (discussion_turn_opening gateway clock topic rounds
              (research_topic o) a (discussion_log o) w)
    as (prompt & response & a' & w' & _ & -> & _).
  simpl. split; lia.
Qed.



Hypothesis gateway_down : forall log request,
  exists reason, gateway log request = ChatFailed reason.

Lemma generate_response_down a prompt context w :
  exists reason w',
    generate_response gateway clock a prompt context w
    = ("Error generating response: " +:+ reason, a, w').
Proof.
  unfold generate_response, chat.
  destruct (gateway_down (sent w)
              (mkChatRequest (model a) (build_messages a prompt context)))
    as [reason ->].
  by eexists _, _.
Qed.

Lemma brainstorm_inner_down topic round_num rounds results l :
  forall ideas log w,
  let '(l', (ideas', log', w')) :=
    for_each (brainstorm_turn gateway clock topic round_num rounds results)
      l (ideas, log, w) in
  l' = l
  /\ exists added, log' = log ++ added /\ Forall error_entry added.
Proof.
  induction l as [|a l IH]; intros ideas log w; csimpl.
  { split; [done|]. exists []. by rewrite app_nil_r. }
  unfold brainstorm_turn at 1.
  destruct (generate_response_down a
              (brainstorm_prompt topic round_num rounds results (specialty a))
              None w) as (reason & w1 & ->).
  match goal with |- context [for_each _ l (?i, ?g, w1)] =>
    specialize (IH i g w1) end.
  destruct (for_each _ _ _) as [l' [[ideas' log'] w']].
  destruct IH as (-> & added & -> & Hall). split; [done|].
  eexists (_ :: added). rewrite <- app_assoc. split; [done|].
  constructor; [by exists reason|done].
Qed.

(** X10.  When the gateway fails on every request,
    [conduct_brainstorm_session] does not raise: it still returns
    agents * rounds ideas and appends as many entries to the transcript,
    each of them the error text Error generating response: ... in place of
    an idea, and no agent is changed (no history record is written). *)
Theorem brainstorm_gateway_down o rounds w :
  let '(results, o', w') := conduct_brainstorm_session gateway clock o rounds w in
  agents o' = agents o
  /\ exists added,
       discussion_log o' = discussion_log o ++ added
       /\ length added = (length (agents o) * Z.to_nat rounds)%nat
       /\ Forall error_entry added
       /\ results = idea_of <$> added.
Proof.
  unfold conduct_brainstorm_session, Py.range.
  pose proof (brainstorm_outer gateway clock o rounds w (Z.to_nat rounds)) as H.
  pose proof (fold_left_state
    (fun st => agents st.1.2 = agents o
               /\ exists added,
                    discussion_log st.1.2 = discussion_log o ++ added
                    /\ Forall error_entry added)
    (brainstorm_round gateway clock rounds)
    (Z.of_nat <$> seq 0 (Z.to_nat rounds)) ([], o, w)) as Hdown.
  destruct (fold_left _ _ _) as [[results o'] w'].
  destruct H as (_ & _ & Hlen & _ & added & Hlog & Hres & _ & _).
  destruct Hdown as (Hagents & added' & Hlog' & Hall).
  - intros round_num [[results0 o0] w0] (Hag & added0 & Hlog0 & Hall0).
    simpl in *. unfold brainstorm_round.
    pose proof (brainstorm_inner_down (research_topic o0) round_num rounds
                  results0 (agents o0) [] (discussion_log o0) w0) as Hin.
    destruct (for_each _ _ _) as [l' [[ideas log] w1]].
    destruct Hin as (-> & more & -> & Hmore). simpl. split; [done|].
    exists (added0 ++ more). rewrite Hlog0, <- app_assoc. split; [done|].
    by apply Forall_app.
  - split; [done|]. exists []. by rewrite app_nil_r.
  - simpl in *. split; [done|]. exists added.
    rewrite Hlog in Hlog'. apply app_inv_head in Hlog' as <-.
    split; [done|]. split; [|done].
    rewrite Hres, length_fmap in Hlen. lia.
Qed.
End Phases2.

(** ** The rating read from a reply *)

Lemma split_from_word t s c rest :
  every_char (fun c => negb (Py.isspace c)) s = true ->
  Py.isspace c = true ->
  Py.split_from (Some t) (s +:+ String c rest)
  = (t +:+ s) :: Py.split_from None rest.
Proof.
  revert t. induction s as [|a s IH]; intros t Hs Hc.
  - rewrite append_nil_r. change ("" +:+ ?x) with x. simpl. by rewrite Hc.
  - simpl in Hs. apply andb_true_iff in Hs as [Ha Hs].
    rewrite append_cons. simpl.
    destruct (Py.isspace a); [done|].
    rewrite IH by done. by rewrite append_assoc.
Qed.

Lemma split_from_last t s :
  every_char (fun c => negb (Py.isspace c)) s = true ->
  Py.split_from (Some t) s = [t +:+ s].
Proof.
  revert t. induction s as [|a s IH]; intros t Hs.
  - by rewrite append_nil_r.
  - simpl in Hs. apply andb_true_iff in Hs as [Ha Hs]. simpl.
    destruct (Py.isspace a); [done|].
    rewrite IH by done. by rewrite append_assoc.
Qed.

Lemma split_word token c rest :
  is_word token -> Py.isspace c = true ->
  Py.split token = [token]
  /\ Py.split (token +:+ String c rest) = token :: Py.split rest.
Proof.
  intros [Hne Hword] Hc. destruct token as [|a token]; [done|].
  simpl in Hword. apply andb_true_iff in Hword as [Ha Hword].
  unfold Py.split. rewrite append_cons. simpl.
  destruct (Py.isspace a); [done|].
  rewrite split_from_last, split_from_word by done. done.
Qed.

Ltac read_reply :=
  match goal with |- context [Py.split ?s] =>
    let v := eval vm_compute in (Py.split s) in
    change (Py.split s) with v; cbv beta iota
  end;
  match goal with |- context [Py.filter_chars ?p ?s] =>
    let v := eval vm_compute in (Py.filter_chars p s) in
    change (Py.filter_chars p s) with v
  end.

Section Rating.
Variable int_max_str_digits : nat.

(** X11.  The rating of a reply depends only on its first word: the text
    after the first white space is not read.  Of that word only the digits
    count, wherever they stand in it: they are joined, read as one number
    and clamped to [1,10]; a word without a digit, or with more digits than
    [int] accepts, rates 5. *)
Theorem rating_reads_first_word token c rest :
  is_word token -> Py.isspace c = true ->
  rating int_max_str_digits (token +:+ String c rest)
  = rating int_max_str_digits token
  /\ rating int_max_str_digits token
     = match Py.int_of_str int_max_str_digits
               (Py.filter_chars Py.isdigit token) with
       | Py.Return n => Z.max 1 (Z.min 10 n)
       | Py.Raise _ => 5
       end.
Proof.
  intros Hword Hc.
  destruct (split_word token c rest Hword Hc) as [H1 H2].
  by rewrite !rating_cases, H1, H2.
Qed.

Lemma one_to_ten (n : Z) :
  1 <= n <= 10 ->
  n = 1 \/ n = 2 \/ n = 3 \/ n = 4 \/ n = 5 \/ n = 6 \/ n = 7 \/ n = 8
  \/ n = 9 \/ n = 10.
Proof. lia. Qed.

Lemma rating_number (n : Z) :
  1 <= n <= 10 -> (int_max_str_digits = 0 \/ 2 <= int_max_str_digits)%nat ->
  is_word (pretty n) /\ rating int_max_str_digits (pretty n) = n.
Proof.
  intros Hn Hlimit. rewrite rating_cases.
  assert (Hcases : forall s : string,
            (String.length s <= 2)%nat -> s <> "" ->
            Py.int_of_str int_max_str_digits s
            = match Py.digits_value 0 s with
              | Some v => Py.Return v
              | None => Py.Raise
                          (Py.ValueError "invalid literal for int() with base 10")
              end).
  { intros s Hs Hne. unfold Py.int_of_str. destruct s as [|a s]; [done|].
    replace ((0 <? int_max_str_digits)%nat
             && (int_max_str_digits <? String.length (String a s))%nat)
      with false; [done|].
    symmetry. apply andb_false_iff.
    destruct Hlimit as [->|Hlimit]; [by left|right].
    apply Nat.ltb_ge. lia. }
  apply one_to_ten in Hn.
  repeat (destruct Hn as [->|Hn]); try subst n;
    (split; [by split|]);
    read_reply; (rewrite Hcases; [reflexivity|simpl; lia|done]).
Qed.

(** X12.  Round trip of a rating: a reply that is a number n from 1 to
    10, alone or followed by white space and any text, is rated n (for an
    interpreter whose digit limit is off or at least 2). *)
Theorem rating_round_trip (n : Z) c rest :
  1 <= n <= 10 -> (int_max_str_digits = 0 \/ 2 <= int_max_str_digits)%nat ->
  Py.isspace c = true ->
  rating int_max_str_digits (pretty n) = n
  /\ rating int_max_str_digits (pretty n +:+ String c rest) = n.
Proof.
  intros Hn Hlimit Hc.
  destruct (rating_number n Hn Hlimit) as [Hword Hrate].
  split; [done|].
  destruct (split_word (pretty n) c rest Hword Hc) as [H1 H2].
  rewrite rating_cases, H2. by rewrite rating_cases, H1 in Hrate.
Qed.

(** X13.  A reply that starts with n/10, for n from 1 to 10, is rated 10
    whatever n is: the digits of the first word are joined across the
    slash, and the number n10 is clamped (for an interpreter whose digit
    limit is off or at least 4). *)
Theorem rating_out_of_ten (n : Z) :
  1 <= n <= 10 -> (int_max_str_digits = 0 \/ 4 <= int_max_str_digits)%nat ->
  rating int_max_str_digits (pretty n +:+ "/10") = 10
  /\ forall c rest,
       Py.isspace c = true ->
       rating int_max_str_digits (pretty n +:+ "/10" +:+ String c rest) = 10.
Proof.
  intros Hn Hlimit.
  assert (Hcases : forall s : string,
            (String.length s <= 4)%nat -> s <> "" ->
            Py.int_of_str int_max_str_digits s
            = match Py.digits_value 0 s with
              | Some v => Py.Return v
              | None => Py.Raise
                          (Py.ValueError "invalid literal for int() with base 10")
              end).
  { intros s Hs Hne. unfold Py.int_of_str. destruct s as [|a s]; [done|].
    replace ((0 <? int_max_str_digits)%nat
             && (int_max_str_digits <? String.length (String a s))%nat)
      with false; [done|].
    symmetry. apply andb_false_iff.
    destruct Hlimit as [->|Hlimit]; [by left|right].
    apply Nat.ltb_ge. lia. }
  assert (Hword : is_word (pretty n +:+ "/10")
                  /\ rating int_max_str_digits (pretty n +:+ "/10") = 10).
  { rewrite rating_cases. apply one_to_ten in Hn.
    repeat (destruct Hn as [->|Hn]); try subst n;
      (split; [by split|]);
      read_reply; (rewrite Hcases; [reflexivity|simpl; lia|done]). }
  destruct Hword as [Hword Hrate]. split; [done|]. intros c rest Hc.
  destruct (split_word _ c rest Hword Hc) as [H1 H2].
  rewrite <- append_assoc.
  rewrite rating_cases, H2. by rewrite rating_cases, H1 in Hrate.
Qed.
End Rating.

(** ** Consensus over a session *)

Lemma sum_values_between (lo hi : Z) (m : gmap string Z) :
  map_Forall (fun _ v => lo <= v <= hi) m ->
  lo * Z.of_nat (size m) <= sum_values m <= hi * Z.of_nat (size m).
Proof.
  unfold sum_values. rewrite <- length_map_to_list.
  rewrite map_Forall_to_list.
  induction (map_to_list m) as [|[nm v] l IH]; intros H; csimpl; [lia|].
  apply Forall_cons in H as [Hv Hl]. simpl in Hv. specialize (IH Hl). lia.
Qed.

Lemma size_list_to_set_le (l : list string) :
  (size (list_to_set (C := gset string) l) <= length l)%nat.
Proof.
  induction l as [|x l IH]; simpl; [done|].
  destruct (decide (x ∈ (list_to_set l : gset string))) as [Hx|Hx].
  - replace ({[x]} ∪ list_to_set l) with (list_to_set (C := gset string) l)
      by set_solver. lia.
  - rewrite size_union by set_solver. rewrite size_singleton. lia.
Qed.

Section Consensus.
Variable gateway : list ChatRequest -> ChatRequest -> ChatReply.
Variables clock clock_str : nat -> string.
Variable http_get : list (string * Z) -> string -> Z -> HttpReply.
Variable json_dumps : list SearchResult -> string.
Variable int_max_str_digits : nat.
Variable saved_name : list LatexCall -> string -> string.
Variable open_file : list (string * SessionData) -> string -> option string.
Variable improved_mark : string.

Lemma perform_target c o w :
  target_satisfaction
    (perform gateway clock clock_str http_get json_dumps int_max_str_digits
       saved_name open_file improved_mark c o w).1
  = target_satisfaction o.
Proof.
  pose proof (perform_grows gateway clock clock_str http_get json_dumps
                int_max_str_digits saved_name
                  open_file improved_mark c o w) as H.
  apply H.
Qed.

Lemma reachable_target o w :
  reachable gateway clock clock_str http_get json_dumps int_max_str_digits
    saved_name open_file improved_mark o w ->
  target_satisfaction o = 8.
Proof.
  induction 1 as [w|c o w _ IH]; [done|]. by rewrite perform_target.
Qed.

Lemma reachable_keys o w :
  reachable gateway clock clock_str http_get json_dumps int_max_str_digits
    saved_name open_file improved_mark o w ->
  keys_follow_roster o.
Proof.
  induction 1 as [w|c o w _ IH]; [done|].
  eapply roster_effect_keys; [apply perform_roster_effect|exact IH].
Qed.

Lemma perform_untouched c o w :
  c <> EvaluateSatisfaction -> untouched_scores o ->
  untouched_scores
    (perform gateway clock clock_str http_get json_dumps int_max_str_digits
       saved_name open_file improved_mark c o w).1.
Proof.
  intros Hc [Htarget Hall]. split; [by rewrite perform_target|].
  pose proof (perform_roster_effect gateway clock clock_str http_get
                json_dumps int_max_str_digits saved_name
                  open_file improved_mark c o w) as E.
  destruct c; cbn [roster_effect] in E;
    try (destruct E as [_ ->]; exact Hall); try done.
  - by apply map_Forall_insert_2.
  - simpl. repeat (apply map_Forall_insert_2; [done|]). done.
Qed.

(** X14.  No consensus without an evaluation: after any sequence of calls
    on a new orchestrator that does not contain [evaluate_satisfaction],
    [check_consensus] returns false.  Every score is still the 5 that
    [add_agent] wrote, and the target is 8. *)
Theorem no_consensus_without_evaluation calls w :
  EvaluateSatisfaction ∉ calls ->
  check_consensus
    (run gateway clock clock_str http_get json_dumps int_max_str_digits
       saved_name open_file improved_mark calls (new_orchestrator, w)).1
  = false.
Proof.
  intros Hcalls.
  assert (H : untouched_scores
                (run gateway clock clock_str http_get json_dumps
                   int_max_str_digits saved_name
                     open_file improved_mark calls (new_orchestrator, w)).1).
  { unfold run.
    assert (Hinit : untouched_scores (new_orchestrator, w).1)
      by (split; [done|apply map_Forall_empty]).
    revert Hinit. generalize (new_orchestrator, w).
    induction calls as [|c calls IH]; intros s Hs; simpl; [done|].
    apply IH.
    - intros Hin. apply Hcalls. by right.
    - apply perform_untouched; [|done]. intros ->. apply Hcalls. by left. }
  destruct H as [Htarget Hall].
  destruct (check_consensus _) eqn:Hcheck; [|done].
  destruct (decide (satisfaction_scores
                      (run gateway clock clock_str http_get json_dumps
                         int_max_str_digits saved_name
                           open_file improved_mark calls
                         (new_orchestrator, w)).1 = ∅)) as [Hempty|Hne].
  { unfold check_consensus in Hcheck. by rewrite decide_True in Hcheck. }
  apply check_consensus_count in Hcheck; [|done].
  rewrite Htarget in Hcheck.
  assert (Hfives : map_Forall (fun _ v => 5 <= v <= 5)
                     (satisfaction_scores
                        (run gateway clock clock_str http_get json_dumps
                           int_max_str_digits saved_name
                             open_file improved_mark calls
                           (new_orchestrator, w)).1)).
  { intros nm v Hv. specialize (Hall nm v Hv). simpl in Hall. lia. }
  pose proof (sum_values_between 5 5 _ Hfives) as Hsum.
  apply map_size_non_empty_iff in Hne. lia.
Qed.

(** X15.  In every reachable state of a session: when [check_consensus]
    returns true, some agent of the roster has a score of at least 8; and
    when the roster is not empty and every agent of it has a score of at
    least 8, [check_consensus] returns true. *)
Theorem consensus_in_session o w :
  reachable gateway clock clock_str http_get json_dumps int_max_str_digits
    saved_name open_file improved_mark o w ->
  (check_consensus o = true ->
   exists a score,
     a ∈ agents o /\ satisfaction_scores o !! name a = Some score
     /\ 8 <= score)
  /\ (agents o <> [] ->
      (forall a, a ∈ agents o ->
         exists score,
           satisfaction_scores o !! name a = Some score /\ 8 <= score) ->
      check_consensus o = true).
Proof.
  intros Hreach.
  pose proof (reachable_target o w Hreach) as Htarget.
  pose proof (reachable_keys o w Hreach) as Hkeys.
  pose proof (reachable_scores_in_range gateway clock clock_str http_get
                json_dumps int_max_str_digits saved_name
                  open_file improved_mark o w Hreach) as Hrange.
  unfold keys_follow_roster, roster_names in Hkeys.
  split.
  - intros Hcheck.
    assert (Hne : satisfaction_scores o <> ∅).
    { intros Hempty. unfold check_consensus in Hcheck.
      by rewrite decide_True in Hcheck. }
    apply check_consensus_count in Hcheck; [|done]. rewrite Htarget in Hcheck.
    destruct (decide (map_Forall (fun _ v => 1 <= v <= 7)
                        (satisfaction_scores o))) as [Hlow|Hhigh].
    { pose proof (sum_values_between 1 7 _ Hlow) as Hsum.
      apply map_size_non_empty_iff in Hne. lia. }
    apply map_not_Forall in Hhigh as (nm & score & Hnm & Hscore);
      [|apply _].
    assert (Hin : nm ∈ dom (satisfaction_scores o)) by by apply elem_of_dom.
    rewrite Hkeys, elem_of_list_to_set in Hin.
    apply list_elem_of_fmap in Hin as (a & -> & Ha).
    exists a, score. split; [done|]. split; [done|].
    specialize (Hrange _ _ Hnm). simpl in Hrange. lia.
  - intros Hagents Hall.
    assert (Hne : satisfaction_scores o <> ∅).
    { destruct (agents o) as [|a rest] eqn:E; [done|].
      destruct (Hall a) as (score & Hscore & _); [by left|].
      intros Hempty. by rewrite Hempty in Hscore. }
    apply check_consensus_count; [done|]. rewrite Htarget.
    assert (Hhigh : map_Forall (fun _ v => 8 <= v <= 10) (satisfaction_scores o)).
    { intros nm score Hnm.
      assert (Hin : nm ∈ dom (satisfaction_scores o)) by by apply elem_of_dom.
      rewrite Hkeys, elem_of_list_to_set in Hin.
      apply list_elem_of_fmap in Hin as (a & -> & Ha).
      destruct (Hall a Ha) as (score' & Hscore & Hle).
      rewrite Hnm in Hscore. injection Hscore as <-.
      specialize (Hrange _ _ Hnm). simpl in Hrange. lia. }
    pose proof (sum_values_between 8 10 _ Hhigh). lia.
Qed.

(** X16.  The satisfaction table counts names, not agents.  In every
    reachable state it has at most as many entries as the roster has
    agents, and exactly as many when the names are distinct.  Registering
    a name that is already in the roster adds an agent and no entry, and
    resets the score under that name to 5. *)
Theorem table_counts_names o w :
  reachable gateway clock clock_str http_get json_dumps int_max_str_digits
    saved_name open_file improved_mark o w ->
  (size (satisfaction_scores o) <= length (agents o))%nat
  /\ (NoDup (roster_names o) ->
      size (satisfaction_scores o) = length (agents o))
  /\ forall nm spec mdl,
       nm ∈ roster_names o ->
       let o' := (add_agent o nm spec mdl).2 in
       length (agents o') = S (length (agents o))
       /\ size (satisfaction_scores o') = size (satisfaction_scores o)
       /\ satisfaction_scores o' !! nm = Some 5.
Proof.
  intros Hreach.
  pose proof (reachable_keys o w Hreach) as Hkeys.
  unfold keys_follow_roster in Hkeys.
  assert (Hsize : size (satisfaction_scores o)
                  = size (list_to_set (C := gset string) (roster_names o))).
  { by rewrite <- Hkeys, size_dom. }
  split; [|split].
  - rewrite Hsize. etransitivity; [apply size_list_to_set_le|].
    unfold roster_names. by rewrite length_fmap.
  - intros Hnodup. rewrite Hsize, size_list_to_set by done.
    unfold roster_names. by rewrite length_fmap.
  - intros nm spec mdl Hnm o'. subst o'. simpl.
    split; [rewrite length_app; simpl; lia|].
    split; [|by rewrite lookup_insert_eq].
    rewrite <- !(size_dom (D := gset string)), dom_insert_L.
    f_equal. assert (nm ∈ dom (satisfaction_scores o)); [|set_solver].
    rewrite Hkeys. by apply elem_of_list_to_set.
Qed.
End Consensus.

(** ** export_to_markdown *)

Lemma fold_left_append {A} (g : A -> string) (l : list A) (md : string) :
  fold_left (fun md x => md +:+ g x) l md = md +:+ String.concat "" (g <$> l).
Proof.
  revert md. induction l as [|x l IH]; intros md; csimpl.
  { by rewrite append_nil_r. }
  rewrite IH, append_assoc. f_equal.
  destruct l as [|y l]; csimpl; [by rewrite append_nil_r|done].
Qed.

Lemma concat_strings_app (l1 l2 : list string) :
  String.concat "" (l1 ++ l2) = String.concat "" l1 +:+ String.concat "" l2.
Proof.
  induction l1 as [|x l1 IH]; [done|].
  change ((x :: l1) ++ l2) with (x :: (l1 ++ l2)).
  assert (Hcons : forall l, String.concat "" (x :: l) = x +:+ String.concat "" l).
  { intros [|y l]; simpl; [by rewrite append_nil_r|done]. }
  by rewrite !Hcons, IH, append_assoc.
Qed.

Lemma export_to_markdown_log o added :
  export_to_markdown (set_log o (discussion_log o ++ added))
  = export_to_markdown o
    +:+ String.concat ""
          ((fun e => "### " +:+ entry_agent e +:+ Py.nl +:+ Py.nl
                       +:+ entry_content e +:+ Py.nl +:+ Py.nl) <$> added).
Proof.
  unfold export_to_markdown. simpl.
  set (body := fun (md : string) entry => _).
  set (g := fun e : LogEntry => _).
  assert (Hbody : forall l md,
            fold_left body l md = fold_left (fun md e => md +:+ g e) l md).
  { intros l. induction l as [|e l IH]; intros md; simpl; [done|].
    rewrite IH. f_equal. subst body g. simpl. by rewrite !append_assoc. }
  rewrite !Hbody, !fold_left_append, fmap_app, concat_strings_app.
  by rewrite !append_assoc.
Qed.

Lemma export_to_markdown_ext o1 o2 :
  research_topic o1 = research_topic o2 ->
  (fun a => (name a, specialty a)) <$> agents o1
  = (fun a => (name a, specialty a)) <$> agents o2 ->
  discussion_log o1 = discussion_log o2 ->
  export_to_markdown o1 = export_to_markdown o2.
Proof.
  intros Htopic Hagents Hlog. unfold export_to_markdown.
  rewrite Htopic, Hlog. f_equal. f_equal.
  rewrite !(fold_left_append
              (fun a => "- **" +:+ name a +:+ "**: " +:+ specialty a +:+ Py.nl)).
  f_equal. f_equal.
  change (fun a => "- **" +:+ name a +:+ "**: " +:+ specialty a +:+ Py.nl)
    with ((fun p : string * string => "- **" +:+ p.1 +:+ "**: " +:+ p.2 +:+ Py.nl)
          ∘ (fun a => (name a, specialty a))).
  by rewrite !list_fmap_compose, Hagents.
Qed.

Lemma research_blocks agent queries : forall analyses,
  length analyses = length queries ->
  (fun e => "### " +:+ entry_agent e +:+ Py.nl +:+ Py.nl
              +:+ entry_content e +:+ Py.nl +:+ Py.nl)
    <$> research_entries agent queries analyses
  = replicate (length queries) (research_block agent).
Proof.
  unfold research_entries.
  induction queries as [|q queries IH]; intros [|x analyses] Hlen;
    try done.
  csimpl. rewrite IH by (simpl in Hlen; lia). done.
Qed.

Section Markdown.
Variable gateway : list ChatRequest -> ChatRequest -> ChatReply.
Variables clock clock_str : nat -> string.
Variable http_get : list (string * Z) -> string -> Z -> HttpReply.
Variable json_dumps : list SearchResult -> string.

(** X17.  What [export_to_markdown] shows of a research phase: for a
    roster that is not empty, the export after
    [conduct_research_phase(queries)] is the export before it followed by
    one block for each query, made of the first agent's name as a heading
    over an empty body.  Neither the queries nor the analyses appear: the
    export reads the key content, which research entries do not have. *)
Theorem export_after_research o search_queries w a rest :
  agents o = a :: rest ->
  export_to_markdown
    (conduct_research_phase gateway clock clock_str http_get json_dumps o
       search_queries w).1.2
  = export_to_markdown o
    +:+ String.concat ""
          (replicate (length search_queries) (research_block (name a))).
Proof.
  intros Hagents. unfold conduct_research_phase.
  pose proof (research_loop gateway clock clock_str http_get json_dumps
                search_queries a rest o w ∅ Hagents)
    as (a' & analyses & notes & H).
  destruct (fold_try _ _ _) as [[[results' o'] w'] r].
  destruct H as (-> & Hag & Hn & Hsp & _ & _ & _ & _ & _ & Hlen
                 & Hlog & _ & _ & _ & Htopic & _).
  simpl.
  rewrite <- (research_blocks (name a) search_queries analyses Hlen).
  rewrite <- export_to_markdown_log.
  apply export_to_markdown_ext; [done| |done].
  simpl. rewrite Hag, Hagents. csimpl. by rewrite Hn, Hsp.
Qed.
End Markdown.

(** ** debate_style_research *)

Section DebateFacts.
Variable gateway : list ChatRequest -> ChatRequest -> ChatReply.
Variable clock : nat -> string.

Lemma generate_response_step a prompt w :
  exists response h w',
    generate_response gateway clock a prompt None w
    = (response, set_history a h, w')
    /\ sent w' = sent w ++ [plain_request (persona a) prompt]
    /\ (length h <= S (length (conversation_history a)))%nat.
Proof.
  unfold generate_response, chat. simpl.
  destruct (gateway _ _) as [text|reason]; simpl.
  - eexists _, _, _. split; [done|]. split; [done|].
    rewrite length_app. simpl. lia.
  - exists ("Error generating response: " +:+ reason),
      (conversation_history a),
      (mkWorld (sent w ++ [plain_request (persona a) prompt]) (clock_reads w)
         (fetched w) (written w)).
    split; [by destruct a|]. split; [done|lia].
Qed.

Ltac debate_turn :=
  match goal with |- context [generate_response gateway clock ?a ?p None ?w] =>
    let response := fresh "response" in
    let h := fresh "h" in
    let w' := fresh "w" in
    let Hs := fresh "Hs" in
    let Hh := fresh "Hh" in
    destruct (generate_response_step a p w)
      as (response & h & w' & -> & Hs & Hh);
    simpl in Hs, Hh
  end.

(** X18.  [debate_style_research(topic)] returns an orchestrator with the
    roster Dr. Optimist, Dr. Skeptic, Dr. Pragmatist under their customised
    system prompts, an empty transcript, no research topic and no
    consensus.  It sends exactly 9 requests to the model llama3.1, each a
    system message and a user message, the system message being the
    optimist's, the skeptic's and the pragmatist's in turn; each agent has
    at most 3 history records. *)
Theorem debate_leaves_no_trace topic w :
  let '(o, w') := debate_style_research gateway clock topic w in
  discussion_log o = []
  /\ research_topic o = ""
  /\ check_consensus o = false
  /\ persona <$> agents o
     = [("Dr. Optimist", "AI Optimism", "llama3.1", optimist_prompt);
        ("Dr. Skeptic", "AI Risks", "llama3.1", skeptic_prompt);
        ("Dr. Pragmatist", "Balanced Analysis", "llama3.1", pragmatist_prompt)]
  /\ Forall (fun a => (length (conversation_history a) <= 3)%nat) (agents o)
  /\ exists requests,
       sent w' = sent w ++ requests
       /\ length requests = 9%nat
       /\ forall k request,
            requests !! k = Some request ->
            chat_model request = "llama3.1"
            /\ length (chat_messages request) = 2%nat
            /\ head (chat_messages request) = debate_system k.
Proof.
  unfold debate_style_research. cbn [add_agent new_agent fst snd].
  change (Py.range 3) with [0; 1; 2]. cbn [fold_left].
  unfold debate_round.
  do 9 debate_turn.
  cbn [set_agents agents discussion_log research_topic].
  split; [done|]. split; [done|]. split; [by vm_compute|].
  split; [done|]. split.
  { do 3 (apply Forall_cons; split; [simpl; lia|]). by apply Forall_nil. }
  eexists. split.
  { rewrite Hs7, Hs6, Hs5, Hs4, Hs3, Hs2, Hs1, Hs0, Hs, <- !app_assoc.
    simpl. reflexivity. }
  split; [done|].
  intros k request Hk.
  do 9 (destruct k as [|k]; [injection Hk as <-; done|]). done.
Qed.
End DebateFacts.

(** ** The further properties on examples *)

(** X2 after registering A and one round of brainstorm. *)
Lemma transcript_names_roster_witness :
  let perform_ :=
    perform (steady_gateway "idea") fixed_clock fixed_clock no_network
      no_json 4300 same_name always_opens some_mark in
  let s1 := perform_ (AddAgent "A" "theory" "llama3.1") new_orchestrator new_world in
  let s2 := perform_ (ConductBrainstormSession 1) s1.1 s1.2 in
  reachable (steady_gateway "idea") fixed_clock fixed_clock no_network
    no_json 4300 same_name always_opens some_mark s2.1 s2.2
  /\ Forall (fun e => entry_agent e ∈ roster_names s2.1) (discussion_log s2.1)
  /\ discussion_log s2.1 = [Brainstorm 1 "A" "idea"].
Proof.
  intros perform_ s1 s2.
  assert (Hreach : reachable (steady_gateway "idea") fixed_clock fixed_clock
                     no_network no_json 4300 same_name
                       always_opens some_mark s2.1 s2.2).
  { repeat apply reachable_call. apply reachable_new. }
  split; [exact Hreach|]. split.
  - exact (proj1 (transcript_names_roster (steady_gateway "idea") fixed_clock
                    fixed_clock no_network no_json 4300 same_name
                      always_opens some_mark
                    s2.1 s2.2 Hreach)).
  - vm_compute. reflexivity.
Defined.

Lemma research_without_agents_witness :
  agents new_orchestrator = []
  /\ conduct_research_phase (steady_gateway "fine") fixed_clock fixed_clock
       no_network no_json new_orchestrator ["transformers"] new_world
     = (Py.Raise index_error, new_orchestrator, new_world).
Proof.
  split; [reflexivity|].
  apply (research_without_agents (steady_gateway "fine") fixed_clock
           fixed_clock no_network no_json new_orchestrator ["transformers"]
           new_world).
  reflexivity.
Defined.

Lemma research_first_agent_witness :
  agents two_agents
  = [new_agent "A" "theory" "llama3.1"; new_agent "B" "practice" "llama3.1"]
  /\ exists results o' w' a',
       conduct_research_phase (steady_gateway "fine") fixed_clock fixed_clock
         no_network no_json two_agents ["p"; "q"] new_world
       = (Py.Return results, o', w')
       /\ agents o' = [a'; new_agent "B" "practice" "llama3.1"]
       /\ length (research_notes a') = 2%nat
       /\ fetched w' = [("p", 3); ("q", 3)].
Proof.
  split; [reflexivity|].
  destruct (research_first_agent (steady_gateway "fine") fixed_clock
              fixed_clock no_network no_json two_agents ["p"; "q"] new_world
              (new_agent "A" "theory" "llama3.1")
              [new_agent "B" "practice" "llama3.1"] eq_refl)
    as (results & o' & w' & a' & analyses & notes & Hrun & _ & Hlen & _ & Hag
        & _ & Hnotes & Hnn & Hfet & _).
  exists results, o', w', a'. split; [exact Hrun|]. split; [exact Hag|].
  split; [|exact Hfet].
  rewrite Hnotes, length_app, <- (length_fmap n_note notes), Hnn.
  rewrite length_zip_with, Hlen. reflexivity.
Defined.

Lemma paper_without_agents_witness :
  agents new_orchestrator = []
  /\ generate_paper_sections (steady_gateway "text") fixed_clock
       new_orchestrator new_world
     = (Py.Raise index_error, new_orchestrator, new_world)
  /\ compile_final_paper (steady_gateway "text") fixed_clock same_name
       new_orchestrator new_world
     = (Py.Raise index_error, new_orchestrator, new_world).
Proof.
  split; [reflexivity|].
  apply (paper_without_agents (steady_gateway "text") fixed_clock same_name
           new_orchestrator new_world).
  reflexivity.
Defined.

Lemma paper_sections_by_place_witness :
  agents two_agents <> []
  /\ exists sections o' w' requests,
       generate_paper_sections (steady_gateway "text") fixed_clock two_agents
         new_world = (Py.Return sections, o', w')
       /\ sent w' = requests
       /\ length requests = 7%nat.
Proof.
  assert (Hne : agents two_agents <> []) by discriminate.
  split; [exact Hne|].
  destruct (paper_sections_by_place (steady_gateway "text") fixed_clock
              two_agents new_world Hne)
    as (sections & o' & w' & requests & Hrun & Hsent & _ & Hlen & _).
  exists sections, o', w', requests. split; [exact Hrun|].
  split; [exact Hsent|exact Hlen].
Defined.

Lemma compile_final_paper_calls_witness :
  agents two_agents <> []
  /\ exists sections o1 w1,
       generate_paper_sections numbering_gateway fixed_clock two_agents
         new_world = (Py.Return sections, o1, w1)
       /\ latex_generator
            (compile_final_paper numbering_gateway fixed_clock same_name
               two_agents new_world).1.2
          = paper_calls ["A"; "B"] sections
              ++ [SaveToFile "research_paper.tex"]
       /\ length (sent w1) = 7%nat
       /\ reply_at numbering_gateway [] (sent w1) 5
          = Some (sec_results sections)
       /\ reply_at numbering_gateway [] (sent w1) 6
          = Some (sec_conclusion sections)
       /\ sec_results sections = "12"
       /\ sec_conclusion sections = "13".
Proof.
  assert (Hne : agents two_agents <> []) by discriminate.
  split; [exact Hne|].
  destruct (compile_final_paper_calls numbering_gateway fixed_clock
              same_name two_agents new_world Hne)
    as (sections & o1 & w1 & requests & body & p & Hrun & Hcompile & Hsent
        & _ & Hlen & _ & _ & _ & _ & Hresults & Hconclusion & _).
  exists sections, o1, w1. split; [exact Hrun|].
  split; [by rewrite Hcompile|].
  simpl in Hsent. rewrite Hsent.
  split; [exact Hlen|]. split; [exact Hresults|].
  split; [exact Hconclusion|].
  vm_compute in Hrun. injection Hrun as <- _ _. split; reflexivity.
Defined.

Lemma brainstorm_gateway_down_witness :
  (forall log request,
     exists reason, failing_gateway "down" log request = ChatFailed reason)
  /\ let '(results, o', w') :=
       conduct_brainstorm_session (failing_gateway "down") fixed_clock
         two_agents 2 new_world in
     agents o' = agents two_agents
     /\ exists added,
          discussion_log o' = discussion_log two_agents ++ added
          /\ length added = (length (agents two_agents) * Z.to_nat 2)%nat
          /\ Forall error_entry added
          /\ results = idea_of <$> added.
Proof.
  assert (Hdown : forall log request,
            exists reason, failing_gateway "down" log request = ChatFailed reason)
    by (intros; by exists "down").
  split; [exact Hdown|].
  exact (brainstorm_gateway_down (failing_gateway "down") fixed_clock Hdown
           two_agents 2 new_world).
Defined.

Lemma rating_reads_first_word_witness :
  is_word "8/10"
  /\ Py.isspace " " = true
  /\ rating 4300 "8/10 overall" = rating 4300 "8/10"
  /\ rating 4300 "8/10" = 10.
Proof.
  assert (Hword : is_word "8/10") by (split; [discriminate|reflexivity]).
  split; [exact Hword|]. split; [reflexivity|].
  destruct (rating_reads_first_word 4300 "8/10" " " "overall" Hword eq_refl)
    as [H1 H2].
  split; [exact H1|]. rewrite H2. reflexivity.
Defined.

Lemma rating_round_trip_witness :
  1 <= 7 <= 10
  /\ (4300 = 0 \/ 2 <= 4300)%nat
  /\ Py.isspace " " = true
  /\ rating 4300 "7" = 7
  /\ rating 4300 "7 because the analysis is deep" = 7.
Proof.
  assert (Hn : 1 <= 7 <= 10) by lia.
  assert (Hlimit : (4300 = 0 \/ 2 <= 4300)%nat) by (right; lia).
  split; [exact Hn|]. split; [exact Hlimit|]. split; [reflexivity|].
  exact (rating_round_trip 4300 7 " " "because the analysis is deep" Hn Hlimit
           eq_refl).
Defined.

Lemma rating_out_of_ten_witness :
  1 <= 3 <= 10
  /\ (4300 = 0 \/ 4 <= 4300)%nat
  /\ rating 4300 "3/10" = 10.
Proof.
  assert (Hn : 1 <= 3 <= 10) by lia.
  assert (Hlimit : (4300 = 0 \/ 4 <= 4300)%nat) by (right; lia).
  split; [exact Hn|]. split; [exact Hlimit|].
  exact (proj1 (rating_out_of_ten 4300 3 Hn Hlimit)).
Defined.

Lemma no_consensus_without_evaluation_witness :
  let calls :=
    [AddAgent "A" "theory" "llama3.1"; ConductBrainstormSession 1;
     TriggerSelfImprovement] in
  (EvaluateSatisfaction ∉ calls)
  /\ check_consensus
       (run (steady_gateway "10") fixed_clock fixed_clock no_network no_json
          4300 same_name
            always_opens some_mark calls (new_orchestrator, new_world)).1
     = false.
Proof.
  intros calls.
  assert (Hcalls : EvaluateSatisfaction ∉ calls).
  { intros H. repeat (apply elem_of_cons in H as [H|H]; [discriminate|]).
    by apply elem_of_nil in H. }
  split; [exact Hcalls|].
  exact (no_consensus_without_evaluation (steady_gateway "10") fixed_clock
           fixed_clock no_network no_json 4300 same_name
             always_opens some_mark calls new_world
           Hcalls).
Defined.

Lemma consensus_in_session_witness :
  let perform_ :=
    perform (steady_gateway "9") fixed_clock fixed_clock no_network
      no_json 4300 same_name always_opens some_mark in
  let s1 := perform_ (AddAgent "A" "theory" "llama3.1") new_orchestrator new_world in
  let s2 := perform_ EvaluateSatisfaction s1.1 s1.2 in
  reachable (steady_gateway "9") fixed_clock fixed_clock no_network
    no_json 4300 same_name always_opens some_mark s2.1 s2.2
  /\ check_consensus s2.1 = true
  /\ exists a score,
       a ∈ agents s2.1 /\ satisfaction_scores s2.1 !! name a = Some score
       /\ 8 <= score.
Proof.
  intros perform_ s1 s2.
  assert (Hreach : reachable (steady_gateway "9") fixed_clock fixed_clock
                     no_network no_json 4300 same_name
                       always_opens some_mark s2.1 s2.2).
  { repeat apply reachable_call. apply reachable_new. }
  assert (Hcheck : check_consensus s2.1 = true) by (vm_compute; reflexivity).
  split; [exact Hreach|]. split; [exact Hcheck|].
  exact (proj1 (consensus_in_session (steady_gateway "9") fixed_clock
                  fixed_clock no_network no_json 4300 same_name
                    always_opens some_mark s2.1 s2.2
                  Hreach) Hcheck).
Defined.

Lemma table_counts_names_witness :
  let perform_ :=
    perform (steady_gateway "9") fixed_clock fixed_clock no_network
      no_json 4300 same_name always_opens some_mark in
  let s1 := perform_ (AddAgent "A" "theory" "llama3.1") new_orchestrator new_world in
  let s2 := perform_ (AddAgent "A" "practice" "llama3.1") s1.1 s1.2 in
  reachable (steady_gateway "9") fixed_clock fixed_clock no_network
    no_json 4300 same_name always_opens some_mark s2.1 s2.2
  /\ (size (satisfaction_scores s2.1) <= length (agents s2.1))%nat
  /\ size (satisfaction_scores s2.1) = 1%nat
  /\ length (agents s2.1) = 2%nat.
Proof.
  intros perform_ s1 s2.
  assert (Hreach : reachable (steady_gateway "9") fixed_clock fixed_clock
                     no_network no_json 4300 same_name
                       always_opens some_mark s2.1 s2.2).
  { repeat apply reachable_call. apply reachable_new. }
  split; [exact Hreach|]. split.
  - exact (proj1 (table_counts_names (steady_gateway "9") fixed_clock
                    fixed_clock no_network no_json 4300 same_name
                      always_opens some_mark s2.1 s2.2
                    Hreach)).
  - vm_compute. split; reflexivity.
Defined.

Lemma export_after_research_witness :
  agents two_agents
  = [new_agent "A" "theory" "llama3.1"; new_agent "B" "practice" "llama3.1"]
  /\ export_to_markdown
       (conduct_research_phase (steady_gateway "a finding") fixed_clock
          fixed_clock no_network no_json two_agents ["p"; "q"] new_world).1.2
     = export_to_markdown two_agents
       +:+ research_block "A" +:+ research_block "A".
Proof.
  split; [reflexivity|].
  rewrite (export_after_research (steady_gateway "a finding") fixed_clock
             fixed_clock no_network no_json two_agents ["p"; "q"] new_world
             (new_agent "A" "theory" "llama3.1")
             [new_agent "B" "practice" "llama3.1"] eq_refl).
  reflexivity.
Defined.
